(** * Authorization layer of the tracking server (server/auth/__init__.py)

    A shallow embedding of the request interception code: parameter
    resolution, permission lookup with the configured default, session
    authentication, the before/after request hooks and the response
    filter of the experiment search.

    Python objects are modelled as follows.
    - [str] is [string], one character of the model for one character of
      the [str]; a [dict] with string keys is a [gmap string _]; [None]
      is [None] of an option type.  On characters that are not ASCII
      Python's character classes and case mappings follow the Unicode
      tables, which are not modelled: [is_digit], [lower], [upper] and
      the patterns are Python's on ASCII text, and a statement that
      depends on them asks for [isascii].
    - [request.args] is a werkzeug [MultiDict], the list of the items of
      the query string; [request.json] is any JSON value.
    - A function that can raise returns a [Res]; a function that also
      reads or mutates the flask session or a store runs in the monad
      [M], which threads a [World].  A mutation made before an
      exception is raised stays visible, as in Python.
    - Callables stored in the routing tables are Rocq functions.

    The file has three parts: the embedding of the module, the concrete
    requests and worlds on which the statements are run, and the
    properties, one section per function group. *)

From Stdlib Require Import ZArith Ascii String List Lia Bool.
From stdpp Require Import base option list gmap strings.
From Equations Require Import Equations.
Import ListNotations.
Local Open Scope string_scope.
Local Open Scope Z_scope.
Local Open Scope list_scope.

(** ** Strings *)

(** [s.startswith(p)] *)
Definition startswith (p s : string) : bool := String.prefix p s.

(** [sub in s] for strings *)
Fixpoint str_contains (sub s : string) : bool :=
  String.prefix sub s ||
  match s with
  | EmptyString => false
  | String _ rest => str_contains sub rest
  end.

(** [s.isascii()] *)
Definition isascii_char (c : ascii) : bool := (N_of_ascii c <? 128)%N.

Fixpoint isascii (s : string) : bool :=
  match s with
  | EmptyString => true
  | String c rest => isascii_char c && isascii rest
  end.

(** ** Exceptions and results *)

(** Error codes of mlflow.protos.databricks_pb2 that the module uses or
    receives from its stores. *)
Inductive ErrorCode :=
| BAD_REQUEST
| INTERNAL_ERROR
| INVALID_PARAMETER_VALUE
| RESOURCE_DOES_NOT_EXIST
| RESOURCE_ALREADY_EXISTS.

#[global] Instance ErrorCode_eq_dec : EqDecision ErrorCode.
Proof. solve_decision. Defined.

(** The exceptions that reach the code under study.  [HTTPException] is
    werkzeug's (flask raises it from [request.json]);
    [InvalidPermissionLevel] is the error of the permission model for an
    unknown level; the others are Python's own. *)
Inductive exn :=
| MlflowException (message : string) (error_code : ErrorCode)
| AttributeError (message : string)
| KeyError (key : string)
| TypeError (message : string)
| ValueError (message : string)
| HTTPException (status : Z)
| InvalidPermissionLevel (level : string).

Inductive Res (A : Type) :=
| Ok (a : A)
| Raise (e : exn).
Arguments Ok {A} a.
Arguments Raise {A} e.

(** ** Data model *)

(** Values held by the flask session, by the [session] section of the
    configuration file and by an [Authorization] object.  [PTime t] is
    the string [datetime.isoformat()] writes for the instant [t], counted
    in microseconds (the resolution of [datetime]). *)
Inductive pyval :=
| PStr (s : string)
| PInt (n : Z)
| PBool (b : bool)
| PTime (t : Z).

#[global] Instance pyval_eq_dec : EqDecision pyval.
Proof. solve_decision. Defined.

(** The values of a parsed JSON document, as [request.json] gives them:
    [None], [bool], [int], [float], [str], [list] and [dict].  A finite
    float is the number [mantissa * 2 ^ exponent]. *)
#[local] Set Warnings "-register-all".
Inductive JsonValue :=
| JNull
| JBool (b : bool)
| JInt (n : Z)
| JFloat (mantissa exponent : Z)
| JNaN
| JInfinity (negative : bool)
| JString (s : string)
| JArray (items : list JsonValue)
| JObject (members : gmap string JsonValue).
#[local] Set Warnings "register-all".

(** A string where a value of a request is expected is that string. *)
Coercion JString : string >-> JsonValue.

(** [type(v).__name__] *)
Definition type_name_of (v : JsonValue) : string :=
  match v with
  | JNull => "NoneType"
  | JBool _ => "bool"
  | JInt _ => "int"
  | JFloat _ _ | JNaN | JInfinity _ => "float"
  | JString _ => "str"
  | JArray _ => "list"
  | JObject _ => "dict"
  end.

(** werkzeug's [MultiDict] of strings: the items in the order of the
    query string, a key once for each of its values. *)
Definition MultiDict : Type := list (string * string).

(** [MultiDict.__getitem__] and [MultiDict.get]: the first value of the
    key; [None] stands for the missing key. *)
Fixpoint MultiDict_get (key : string) (d : MultiDict) : option string :=
  match d with
  | [] => None
  | (k, v) :: rest => if decide (k = key) then Some v else MultiDict_get key rest
  end.

(** [MultiDict.__or__(other)] for a dict [other]: a copy that [update]
    extends, so that the values of [other] come after those the key
    has. *)
Definition MultiDict_or (d : MultiDict) (other : gmap string string) : MultiDict :=
  d ++ map_to_list other.

(** Modelled from the spec: mlflow.server.auth.permissions is absent.  A
    permission is a level with its four capabilities (section 3); the
    levels are READ, EDIT, MANAGE and NO_PERMISSIONS. *)
Record Permission := {
  name : string;
  can_read : bool;
  can_update : bool;
  can_delete : bool;
  can_manage : bool
}.

Definition READ : Permission := Build_Permission "READ" true false false false.
Definition EDIT : Permission := Build_Permission "EDIT" true true false false.
Definition MANAGE : Permission := Build_Permission "MANAGE" true true true true.
Definition NO_PERMISSIONS : Permission :=
  Build_Permission "NO_PERMISSIONS" false false false false.

Record User := {
  user_id : Z;
  username : string;
  password_hash : string;
  is_admin : bool
}.

Record ExperimentPermission := {
  ep_experiment_id : string;
  ep_username : string;
  ep_permission : string
}.

Record RegisteredModelPermission := {
  rmp_name : string;
  rmp_username : string;
  rmp_permission : string
}.

Record Experiment := {
  experiment_id : string;
  experiment_name : string
}.

#[global] Instance Experiment_eq_dec : EqDecision Experiment.
Proof. solve_decision. Defined.

(** werkzeug's [Authorization]: a scheme and its parameters. *)
Record Authorization := {
  auth_type : string;
  parameters : gmap string pyval
}.

(** The body of a response.  The JSON text is not modelled: a body is the
    message it serialises.  A search token is [None] for the empty string
    and [Some n] for [SearchUtils.create_page_token(n)], of which
    [SearchUtils.parse_start_offset_from_page_token] is the inverse. *)
Inductive Body :=
| BText (text : string)
| BCreateExperiment (created_id : string)
| BSearchExperiments (experiments : list Experiment) (next_page_token : option nat)
| BError (error_code : ErrorCode) (message : string).

Record Response := {
  status_code : Z;
  data : Body;
  headers : gmap string string
}.

Record Request := {
  path : string;
  method : string;
  url : string;
  req_headers : gmap string string;
  args : MultiDict;
  (* the content type says JSON *)
  is_json : bool;
  (* the body read as a JSON document, [None] when it is none *)
  json : option JsonValue;
  view_args : option (gmap string string);
  authorization : option Authorization;
  (* fields of the SearchExperiments request message *)
  max_results : nat;
  page_token : option nat
}.

(** What a request can read or change: the flask session, the permission
    store, the experiments of the tracking store in the order a search
    lists them, and the clock. *)
Record World := {
  session : gmap string pyval;
  users : list User;
  experiment_permissions : list ExperimentPermission;
  registered_model_permissions : list RegisteredModelPermission;
  tracking_experiments : list Experiment;
  now : Z
}.

Definition set_session (s : gmap string pyval) (w : World) : World :=
  {| session := s; users := users w;
     experiment_permissions := experiment_permissions w;
     registered_model_permissions := registered_model_permissions w;
     tracking_experiments := tracking_experiments w; now := now w |}.

Definition set_experiment_permissions (l : list ExperimentPermission) (w : World) : World :=
  {| session := session w; users := users w;
     experiment_permissions := l;
     registered_model_permissions := registered_model_permissions w;
     tracking_experiments := tracking_experiments w; now := now w |}.

(** ** The monad of request handling *)

Definition M (A : Type) : Type := World -> Res A * World.

Definition ret {A} (a : A) : M A := fun w => (Ok a, w).
Definition raise {A} (e : exn) : M A := fun w => (Raise e, w).
Definition bind {A B} (c : M A) (k : A -> M B) : M B :=
  fun w => match c w with
           | (Ok a, w') => k a w'
           | (Raise e, w') => (Raise e, w')
           end.
Definition lift {A} (r : Res A) : M A := fun w => (r, w).
Definition get_world : M World := fun w => (Ok w, w).
Definition put_world (w : World) : M unit := fun _ => (Ok tt, w).

Notation "'let*' x ':=' c 'in' k" := (bind c (fun x => k))
  (at level 10, x name, c at level 100, k at level 200).
Notation "c ';;;' k" := (bind c (fun _ => k))
  (at level 100, k at level 200, right associativity).

(** [try: c except MlflowException as e: h e] *)
Definition try_except_mlflow {A} (c : M A) (h : string -> ErrorCode -> M A) : M A :=
  fun w => match c w with
           | (Raise (MlflowException msg code), w') => h msg code w'
           | other => other
           end.

(** ** The configuration *)

(** What an authorization function may return. *)
Inductive AuthResult :=
| IsAuthorization (a : Authorization)
| IsResponse (r : Response)
| IsOther (type_name : string).

(** [auth_config.authorization_function] names a function that
    [get_auth_func] imports: one of the two of this module, or a function
    of the deployment, given with its name. *)
Inductive AuthFunction :=
| BasicAuth
| SessionAuth
| CustomAuth (function_name : string) (f : Request -> M AuthResult).

(** The string of the configuration file. *)
Definition authorization_function_name (f : AuthFunction) : string :=
  match f with
  | BasicAuth => "mlflow.server.auth:authenticate_request_basic_auth"
  | SessionAuth => "mlflow.server.auth:authenticate_request_session"
  | CustomAuth function_name _ => function_name
  end.

Record AuthConfig := {
  default_permission : string;
  authorization_function : AuthFunction;
  session_config : gmap string pyval
}.

(** ** The permission model and the permission store *)

(** Modelled from the spec: [get_permission] of
    mlflow.server.auth.permissions is absent.  It is total over the fixed
    levels and fails with an InvalidPermissionLevel error on any other
    string (section 4.1). *)
Definition get_permission (permission : string) : Res Permission :=
  if decide (permission = "READ") then Ok READ
  else if decide (permission = "EDIT") then Ok EDIT
  else if decide (permission = "MANAGE") then Ok MANAGE
  else if decide (permission = "NO_PERMISSIONS") then Ok NO_PERMISSIONS
  else Raise (InvalidPermissionLevel permission).

(** A user name as the code passes it to the store: the value found in
    the session or in the credentials, [None] when the key is missing. *)
Definition is_username (key : option pyval) (u : string) : bool :=
  bool_decide (key = Some (PStr u)).

(** Whether the float [mantissa * 2 ^ exponent] is the integer [n]. *)
Definition float_is_int (mantissa exponent n : Z) : bool :=
  if 0 <=? exponent then mantissa * 2 ^ exponent =? n
  else mantissa =? n * 2 ^ (- exponent).

(** [v == other] for a value of the request and a value of an
    [Authorization], [None] for a key it has not.  Python compares
    numbers by value, a [bool] being the integer 0 or 1, and values of
    different kinds are different. *)
Definition py_eq (v : JsonValue) (other : option pyval) : bool :=
  match v, other with
  | JNull, None => true
  | JString s, _ => bool_decide (Some (PStr s) = other)
  | JBool b, Some (PBool b') => bool_decide (b = b')
  | JBool b, Some (PInt n) => bool_decide (Z.b2z b = n)
  | JInt n, Some (PInt n') => bool_decide (n = n')
  | JInt n, Some (PBool b) => bool_decide (n = Z.b2z b)
  | JFloat mantissa exponent, Some (PInt n) => float_is_int mantissa exponent n
  | JFloat mantissa exponent, Some (PBool b) => float_is_int mantissa exponent (Z.b2z b)
  | _, _ => false
  end.

(** The identifier or name of a resource as the code passes it to the
    store: a value of the request.  The stored ones are strings. *)
Definition is_string (v : JsonValue) (s : string) : bool :=
  match v with
  | JString s' => bool_decide (s' = s)
  | _ => false
  end.

(** Modelled from the spec: the store of mlflow.server.auth.sqlalchemy_store
    is absent.  Its operations follow section 4.2: a lookup fails with
    NotFound (RESOURCE_DOES_NOT_EXIST) when there is no record, a creation
    fails with AlreadyExists (RESOURCE_ALREADY_EXISTS) when the pair has a
    grant, and each pair has at most one grant.  A record is found by
    the strings it holds: a key that is not a string has no record. *)
Module store.

Definition get_user (key : option pyval) : M User :=
  fun w =>
    match List.find (fun u => is_username key (username u)) (users w) with
    | Some u => (Ok u, w)
    | None => (Raise (MlflowException "User not found" RESOURCE_DOES_NOT_EXIST), w)
    end.

(** The stored hash of a password is not modelled: it is the password. *)
Definition authenticate_user (key password : option pyval) : M bool :=
  fun w =>
    match List.find (fun u => is_username key (username u)) (users w) with
    | Some u => (Ok (bool_decide (password = Some (PStr (password_hash u)))), w)
    | None => (Ok false, w)
    end.

Definition find_experiment_permission (experiment_id : JsonValue) (key : option pyval)
    (l : list ExperimentPermission) : option ExperimentPermission :=
  List.find (fun p => is_string experiment_id (ep_experiment_id p)
                      && is_username key (ep_username p)) l.

Definition get_experiment_permission (experiment_id : JsonValue) (key : option pyval)
    : M ExperimentPermission :=
  fun w =>
    match find_experiment_permission experiment_id key (experiment_permissions w) with
    | Some p => (Ok p, w)
    | None =>
        (Raise (MlflowException "Experiment permission not found" RESOURCE_DOES_NOT_EXIST), w)
    end.

Definition create_experiment_permission (experiment_id : string) (key : option pyval)
    (permission : string) : M ExperimentPermission :=
  fun w =>
    match key with
    | Some (PStr u) =>
        match find_experiment_permission experiment_id key (experiment_permissions w) with
        | Some _ =>
            (Raise (MlflowException "Experiment permission already exists"
                      RESOURCE_ALREADY_EXISTS), w)
        | None =>
            let p := Build_ExperimentPermission experiment_id u permission in
            (Ok p, set_experiment_permissions (experiment_permissions w ++ [p]) w)
        end
    | _ => (Raise (MlflowException "User not found" RESOURCE_DOES_NOT_EXIST), w)
    end.

Definition list_experiment_permissions (key : option pyval)
    : M (list ExperimentPermission) :=
  fun w => (Ok (List.filter (fun p => is_username key (ep_username p))
                  (experiment_permissions w)), w).

Definition get_registered_model_permission (name : JsonValue) (key : option pyval)
    : M RegisteredModelPermission :=
  fun w =>
    match List.find (fun p => is_string name (rmp_name p)
                              && is_username key (rmp_username p))
            (registered_model_permissions w) with
    | Some p => (Ok p, w)
    | None =>
        (Raise (MlflowException "Registered model permission not found"
                  RESOURCE_DOES_NOT_EXIST), w)
    end.

End store.

(** Modelled from the spec: the tracking store is an external collaborator
    (section 6) whose experiment search is paged by a numeric offset token
    (section 4.6).  A page holds the [max_results] experiments from the
    offset of the token on, and carries a token, the offset of the next
    page, only when experiments remain.  [upstream] is the listing that
    the filter and the order of the request select. *)
Definition search_experiments (upstream : list Experiment) (max_results : nat)
    (page_token : option nat) : list Experiment * option nat :=
  let offset := default 0%nat page_token in
  (take max_results (drop offset upstream),
   if bool_decide (offset + max_results < length upstream)%nat
   then Some (offset + max_results)%nat else None).

(** ** Regular expressions of the module *)

(** [\d] on ASCII text: the digits 0 to 9. *)
Definition is_digit (c : ascii) : bool :=
  (48 <=? N_of_ascii c)%N && (N_of_ascii c <=? 57)%N.

(** The longest prefix of decimal digits, and what follows it. *)
Fixpoint span_digits (s : string) : string * string :=
  match s with
  | String c rest =>
      if is_digit c
      then let '(digits, tail) := span_digits rest in (String c digits, tail)
      else ("", s)
  | EmptyString => ("", "")
  end.

(** [_EXPERIMENT_ID_PATTERN.match(s)] for the pattern [^(\d+)/], giving
    [m.group(1)]: one digit or more, then a slash. *)
Definition _EXPERIMENT_ID_PATTERN_match (s : string) : option string :=
  match span_digits s with
  | (String c digits, String "/" _) => Some (String c digits)
  | _ => None
  end.

(** A compiled route pattern.  Route templates are made of literal
    characters, of the dot and of [<name>] placeholders, so a pattern is a
    sequence of: a literal character, [.] (any character but a newline),
    and the group [([^/]+)]. *)
Inductive PatternItem :=
| PChar (c : ascii)
| PAnyChar
| PSegment.

#[global] Instance PatternItem_eq_dec : EqDecision PatternItem.
Proof. solve_decision. Defined.

Definition pattern_of_char (c : ascii) : PatternItem :=
  if decide (c = "."%char) then PAnyChar else PChar c.

Fixpoint contains_char (c : ascii) (s : string) : bool :=
  match s with
  | String d rest => bool_decide (c = d) || contains_char c rest
  | EmptyString => false
  end.

(** [re.sub(r"<([^>]+)>", r"([^/]+)", path)], compiled.  [inside] holds
    while the characters of a placeholder that was already replaced are
    skipped, up to its closing bracket. *)
Fixpoint compile_path (inside : bool) (s : string) : list PatternItem :=
  match s with
  | EmptyString => []
  | String c rest =>
      if inside then compile_path (negb (bool_decide (c = ">"%char))) rest
      else if decide (c = "<"%char) then
        match rest with
        | String c2 rest2 =>
            if negb (bool_decide (c2 = ">"%char)) && contains_char ">"%char rest2
            then PSegment :: compile_path true rest
            else PChar c :: compile_path false rest
        | EmptyString => [PChar c]
        end
      else pattern_of_char c :: compile_path false rest
  end.

Definition _re_compile_path (path : string) : list PatternItem :=
  compile_path false path.

(** [pat.fullmatch(s)] *)
Fixpoint fullmatch (pat : list PatternItem) (s : string) : bool :=
  match pat with
  | [] => bool_decide (s = "")
  | PChar c :: pat' =>
      match s with
      | String d rest => bool_decide (c = d) && fullmatch pat' rest
      | EmptyString => false
      end
  | PAnyChar :: pat' =>
      match s with
      | String d rest => negb (bool_decide (d = "010"%char)) && fullmatch pat' rest
      | EmptyString => false
      end
  | PSegment :: pat' =>
      (fix segment (s : string) : bool :=
         match s with
         | String d rest =>
             negb (bool_decide (d = "/"%char)) && (fullmatch pat' rest || segment rest)
         | EmptyString => false
         end) s
  end.

(** ** Dictionaries built at import time *)

(** [d[k] = v] on a dict that keeps the order of insertion: the value of
    a key already present is replaced where it stands. *)
Fixpoint dict_set {K V} `{EqDecision K} (k : K) (v : V) (d : list (K * V)) : list (K * V) :=
  match d with
  | [] => [(k, v)]
  | (k', v') :: d' => if decide (k' = k) then (k, v) :: d' else (k', v') :: dict_set k v d'
  end.

(** [{(key http_path, method): handler for http_path, handler, methods in
    endpoints for method in methods}] *)
Definition dict_of_endpoints {K V} `{EqDecision K} (key : string -> K)
    (endpoints : list (string * V * list string)) : list (K * string * V) :=
  fold_left
    (fun d '(http_path, handler, methods) =>
       fold_left (fun d method => dict_set (key http_path, method) handler d) methods d)
    endpoints [].

(** [d.get(k)] *)
Fixpoint dict_get {K V} `{EqDecision K} (k : K) (d : list (K * V)) : option V :=
  match d with
  | [] => None
  | (k', v) :: d' => if decide (k' = k) then Some v else dict_get k d'
  end.

(** ** Routes (server/auth/routes.py) and responses *)

Definition LOGIN : string := "/login".
Definition SIGNUP : string := "/signup".

Definition is_unprotected_route (path : string) : bool :=
  (startswith "/static" path || startswith "/favicon.ico" path || startswith "/health" path)
  || (bool_decide (path = LOGIN) || bool_decide (path = SIGNUP)).

(** flask's [make_response(body, status)] for a string body. *)
Definition make_response (body : string) (status : Z) : Response :=
  {| status_code := status; data := BText body;
     headers := {[ "Content-Type" := "text/html; charset=utf-8" ]} |}.

(** flask's [redirect(location)]. *)
Definition redirect (location : string) : Response :=
  {| status_code := 302; data := BText "Redirecting...";
     headers := <["Location" := location]>
                  {[ "Content-Type" := "text/html; charset=utf-8" ]} |}.

Definition make_basic_auth_response : Response :=
  make_response
    "You are not authenticated. Please login at /login to access this resource." 401.

Definition make_forbidden_response : Response :=
  make_response "Permission denied" 403.

(** ** Request parameters *)

(** [request.json]: flask raises UnsupportedMediaType when the content
    type is not JSON and BadRequest when the body is no JSON document. *)
Definition request_json (r : Request) : Res JsonValue :=
  if is_json r then
    match json r with
    | Some v => Ok v
    | None => Raise (HTTPException 400)
    end
  else Raise (HTTPException 415).

(** What the first statement of [_get_request_param] assigns to [args]:
    [request.args] or [request.json]. *)
Inductive Arguments :=
| ArgsOfQuery (d : MultiDict)
| ArgsOfJson (v : JsonValue).

Definition request_arguments (r : Request) : Res Arguments :=
  if decide (method r = "GET") then Ok (ArgsOfQuery (args r))
  else if bool_decide (method r = "POST") || bool_decide (method r = "PATCH")
  then match request_json r with Ok v => Ok (ArgsOfJson v) | Raise e => Raise e end
  else if decide (method r = "DELETE")
  then (if is_json r
        then match request_json r with Ok v => Ok (ArgsOfJson v) | Raise e => Raise e end
        else Ok (ArgsOfQuery (args r)))
  else Raise (MlflowException ("Unsupported HTTP method '" +:+ method r +:+ "'") BAD_REQUEST).

(** The value of [args | (request.view_args or {})]: a [MultiDict] or a
    [dict]. *)
Inductive Mapping :=
| MappingMultiDict (d : MultiDict)
| MappingDict (d : gmap string JsonValue).

(** [args | view_args].  The [|] of a [MultiDict] keeps the values of
    the left operand first; that of a [dict] gives a key of both the
    value of the right operand (stdpp's union keeps the left one); no
    other JSON value has an [|] with a [dict]. *)
Definition or_view_args (a : Arguments) (view_args : gmap string string) : Res Mapping :=
  match a with
  | ArgsOfQuery d => Ok (MappingMultiDict (MultiDict_or d view_args))
  | ArgsOfJson (JObject d) => Ok (MappingDict ((JString <$> view_args) ∪ d))
  | ArgsOfJson v =>
      Raise (TypeError ("unsupported operand type(s) for |: '" +:+ type_name_of v
                        +:+ "' and 'dict'"))
  end.

(** [args[param]], with [None] for [param not in args]. *)
Definition Mapping_get (param : string) (m : Mapping) : option JsonValue :=
  match m with
  | MappingMultiDict d => JString <$> MultiDict_get param d
  | MappingDict d => d !! param
  end.

(** The mapping in which [_get_request_param] looks its parameter up. *)
Definition merged_arguments (r : Request) : Res Mapping :=
  match request_arguments r with
  | Raise e => Raise e
  | Ok a => or_view_args a (default ∅ (view_args r))
  end.

Definition missing_parameter (param : string) : exn :=
  MlflowException
    ("Missing value for required parameter '" +:+ param +:+ "'. "
     +:+ "See the API docs for more information about request parameters.")
    INVALID_PARAMETER_VALUE.

(** The body of [_get_request_param], with [self] for the recursive
    call. *)
Definition _get_request_param_body (self : string -> Request -> Res JsonValue)
    (param : string) (r : Request) : Res JsonValue :=
  match merged_arguments r with
  | Raise e => Raise e
  | Ok args =>
      match Mapping_get param args with
      | None =>
          if decide (param = "run_id") then self "run_uuid" r
          else Raise (missing_parameter param)
      | Some v => Ok v
      end
  end.

(** [_get_request_param].  The function calls itself only with
    ["run_uuid"], and a call with ["run_uuid"] does not call it again: two
    unfoldings of the body are the whole recursion. *)
Definition _get_request_param (param : string) (r : Request) : Res JsonValue :=
  _get_request_param_body
    (_get_request_param_body (fun p _ => Raise (missing_parameter p))) param r.

Section Auth.

Variable auth_config : AuthConfig.

(** Constants and tables of mlflow that the module imports:
    [_REST_API_PATH_PREFIX], and what [get_endpoints] returns for the
    three handler tables of the module, one entry
    [(http_path, handler, methods)] per route of the server, the handler
    being [None] for a request class that the table does not list. *)
Variable _REST_API_PATH_PREFIX : string.

Definition Validator : Type := Request -> M bool.
Definition AfterHandler : Type := Response -> Request -> M Response.

Variable before_request_endpoints : list (string * option Validator * list string).
Variable logged_model_endpoints : list (string * option Validator * list string).
Variable after_request_endpoints : list (string * option AfterHandler * list string).

Definition _get_rest_path (base_path : string) : string :=
  _REST_API_PATH_PREFIX +:+ base_path.

(** *** Authentication *)

Definition unauthenticated_text : string :=
  "You are not authenticated. Please login at /login to access this resource.".

Definition _handle_unauthenticated_request (r : Request) : Response :=
  let accept_header := default "" (req_headers r !! "Accept") in
  if str_contains "text/html" accept_header then
    let next_url := if decide (method r = "GET") then Some (url r) else None in
    let login_url :=
      match next_url with
      | Some u => if decide (u = "") then LOGIN else LOGIN +:+ "?next=" +:+ u
      | None => LOGIN
      end in
    redirect login_url
  else make_response unauthenticated_text 401.

Definition authenticate_request_basic_auth (r : Request) : M AuthResult :=
  match authorization r with
  | None => ret (IsResponse make_basic_auth_response)
  | Some a =>
      let username := parameters a !! "username" in
      let password := parameters a !! "password" in
      let* ok := store.authenticate_user username password in
      if ok then ret (IsAuthorization a)
      else ret (IsResponse make_basic_auth_response)
  end.

(** [datetime.fromisoformat(v)], in microseconds. *)
Definition fromisoformat (v : pyval) : Res Z :=
  match v with
  | PTime t => Ok t
  | PStr s => Raise (ValueError ("Invalid isoformat string: " +:+ s))
  | _ => Raise (TypeError "fromisoformat: argument must be str")
  end.

(** [timedelta(seconds=v)], in microseconds. *)
Definition timedelta_seconds (v : pyval) : Res Z :=
  match v with
  | PInt n => Ok (n * 1000000)
  | PBool b => Ok (if b then 1000000 else 0)
  | _ => Raise (TypeError "unsupported type for timedelta seconds component")
  end.

Definition session_contains (key : string) : M bool :=
  fun w => (Ok (bool_decide (is_Some (session w !! key))), w).

(** [session[key]] *)
Definition session_item (key : string) : M pyval :=
  fun w => match session w !! key with
           | Some v => (Ok v, w)
           | None => (Raise (KeyError key), w)
           end.

Definition session_get (key : string) (dflt : pyval) : M pyval :=
  fun w => (Ok (default dflt (session w !! key)), w).

Definition session_clear : M unit :=
  fun w => (Ok tt, set_session ∅ w).

Definition datetime_now : M Z := fun w => (Ok (now w), w).

Definition authenticate_request_session (r : Request) : M AuthResult :=
  let* has_username := session_contains "username" in
  let* has_user_id := session_contains "user_id" in
  if has_username && has_user_id then
    let* has_login_time := session_contains "login_time" in
    let* expired :=
      (if has_login_time then
         let* raw := session_item "login_time" in
         let* login_time := lift (fromisoformat raw) in
         let* session_lifetime :=
           lift (timedelta_seconds
                   (default (PInt 86400)
                      (session_config auth_config !! "PERMANENT_SESSION_LIFETIME"))) in
         let* current := datetime_now in
         ret (bool_decide (current - login_time > session_lifetime))
       else ret false) in
    if expired then
      session_clear ;;;
      ret (IsResponse (_handle_unauthenticated_request r))
    else
      let* username := session_item "username" in
      let* user_id := session_item "user_id" in
      let* is_admin := session_get "is_admin" (PBool false) in
      let user_data : gmap string pyval :=
        <["username" := username]>
          (<["user_id" := user_id]> {[ "is_admin" := is_admin ]}) in
      ret (IsAuthorization {| auth_type := "session"; parameters := user_data |})
  else ret (IsResponse (_handle_unauthenticated_request r)).

(** [get_auth_func(auth_config.authorization_function)()] *)
Definition authenticate_request (r : Request) : M AuthResult :=
  match authorization_function auth_config with
  | BasicAuth => authenticate_request_basic_auth r
  | SessionAuth => authenticate_request_session r
  | CustomAuth _ f => f r
  end.

(** An [Authorization] answers any attribute with the parameter of that
    name, so the first branch of the source takes every [Authorization];
    a [Response] has no [username] and its [data] is not a dict. *)
Definition _get_username_from_auth (auth : AuthResult) : Res (option pyval) :=
  match auth with
  | IsAuthorization a => Ok (parameters a !! "username")
  | _ => Raise (MlflowException "Unable to extract username from authorization"
                  INTERNAL_ERROR)
  end.

Definition sender_is_admin (r : Request) : M bool :=
  let* auth := authenticate_request r in
  let* username := lift (_get_username_from_auth auth) in
  let* user := store.get_user username in
  ret (is_admin user).


(** *** Permissions of the sender *)

Definition _get_permission_from_store_or_default (store_permission_func : M string)
    : M Permission :=
  let* perm :=
    try_except_mlflow store_permission_func
      (fun message error_code =>
         if decide (error_code = RESOURCE_DOES_NOT_EXIST)
         then ret (default_permission auth_config)
         else raise (MlflowException message error_code)) in
  lift (get_permission perm).

(** [lambda: store.get_experiment_permission(experiment_id, username).permission] *)
Definition experiment_permission_of (experiment_id : JsonValue) (username : option pyval)
    : M string :=
  let* p := store.get_experiment_permission experiment_id username in
  ret (ep_permission p).

Definition _get_permission_from_experiment_id (r : Request) : M Permission :=
  let* experiment_id := lift (_get_request_param "experiment_id" r) in
  let* auth := authenticate_request r in
  let* username := lift (_get_username_from_auth auth) in
  _get_permission_from_store_or_default (experiment_permission_of experiment_id username).

(** [request.view_args.get("artifact_path")] has no guard for view
    arguments that are [None]. *)
Definition _get_experiment_id_from_view_args (r : Request) : Res (option string) :=
  match view_args r with
  | None => Raise (AttributeError "'NoneType' object has no attribute 'get'")
  | Some va =>
      match va !! "artifact_path" with
      | Some artifact_path =>
          if decide (artifact_path = "") then Ok None
          else Ok (_EXPERIMENT_ID_PATTERN_match artifact_path)
      | None => Ok None
      end
  end.

Definition _get_permission_from_experiment_id_artifact_proxy (r : Request) : M Permission :=
  let* found := lift (_get_experiment_id_from_view_args r) in
  match found with
  | Some experiment_id =>
      let* auth := authenticate_request r in
      let* username := lift (_get_username_from_auth auth) in
      _get_permission_from_store_or_default (experiment_permission_of experiment_id username)
  | None => lift (get_permission (default_permission auth_config))
  end.

Definition _get_permission_from_registered_model_name (r : Request) : M Permission :=
  let* name := lift (_get_request_param "name" r) in
  let* auth := authenticate_request r in
  let* username := lift (_get_username_from_auth auth) in
  _get_permission_from_store_or_default
    (let* p := store.get_registered_model_permission name username in
     ret (rmp_permission p)).

(** *** Validators *)

Definition validate_can_read_experiment (r : Request) : M bool :=
  let* p := _get_permission_from_experiment_id r in ret (can_read p).

Definition validate_can_update_experiment (r : Request) : M bool :=
  let* p := _get_permission_from_experiment_id r in ret (can_update p).

Definition validate_can_delete_experiment (r : Request) : M bool :=
  let* p := _get_permission_from_experiment_id r in ret (can_delete p).

Definition validate_can_manage_experiment (r : Request) : M bool :=
  let* p := _get_permission_from_experiment_id r in ret (can_manage p).

Definition validate_can_read_experiment_artifact_proxy (r : Request) : M bool :=
  let* p := _get_permission_from_experiment_id_artifact_proxy r in ret (can_read p).

Definition validate_can_update_experiment_artifact_proxy (r : Request) : M bool :=
  let* p := _get_permission_from_experiment_id_artifact_proxy r in ret (can_update p).

Definition validate_can_delete_experiment_artifact_proxy (r : Request) : M bool :=
  let* p := _get_permission_from_experiment_id_artifact_proxy r in ret (can_manage p).

Definition validate_can_manage_registered_model (r : Request) : M bool :=
  let* p := _get_permission_from_registered_model_name r in ret (can_manage p).

Definition username_is_sender (r : Request) : M bool :=
  let* username := lift (_get_request_param "username" r) in
  let* auth := authenticate_request r in
  let* sender := lift (_get_username_from_auth auth) in
  ret (py_eq username sender).

Definition validate_can_read_user : Validator := username_is_sender.
Definition validate_can_create_user : Validator := fun _ => ret false.
Definition validate_can_update_user_password : Validator := username_is_sender.
Definition validate_can_update_user_admin : Validator := fun _ => ret false.
Definition validate_can_delete_user : Validator := fun _ => ret false.

(** *** Tables of validators *)

Definition update {K V} `{EqDecision K} (d entries : list (K * V)) : list (K * V) :=
  fold_left (fun d '(k, v) => dict_set k v d) entries d.

Definition BEFORE_REQUEST_VALIDATORS : list (string * string * option Validator) :=
  update (dict_of_endpoints (fun http_path => http_path) before_request_endpoints)
    [ ((SIGNUP, "GET"), Some validate_can_create_user);
      ((_get_rest_path "/mlflow/users/get", "GET"), Some validate_can_read_user);
      ((_get_rest_path "/mlflow/users/create", "POST"), Some validate_can_create_user);
      ((_get_rest_path "/mlflow/users/update-password", "PATCH"),
        Some validate_can_update_user_password);
      ((_get_rest_path "/mlflow/users/update-admin", "PATCH"),
        Some validate_can_update_user_admin);
      ((_get_rest_path "/mlflow/users/delete", "DELETE"), Some validate_can_delete_user);
      ((_get_rest_path "/mlflow/experiments/permissions/get", "GET"),
        Some validate_can_manage_experiment);
      ((_get_rest_path "/mlflow/experiments/permissions/create", "POST"),
        Some validate_can_manage_experiment);
      ((_get_rest_path "/mlflow/experiments/permissions/update", "PATCH"),
        Some validate_can_manage_experiment);
      ((_get_rest_path "/mlflow/experiments/permissions/delete", "DELETE"),
        Some validate_can_manage_experiment);
      ((_get_rest_path "/mlflow/registered-models/permissions/get", "GET"),
        Some validate_can_manage_registered_model);
      ((_get_rest_path "/mlflow/registered-models/permissions/create", "POST"),
        Some validate_can_manage_registered_model);
      ((_get_rest_path "/mlflow/registered-models/permissions/update", "PATCH"),
        Some validate_can_manage_registered_model);
      ((_get_rest_path "/mlflow/registered-models/permissions/delete", "DELETE"),
        Some validate_can_manage_registered_model) ].

Definition LOGGED_MODEL_BEFORE_REQUEST_VALIDATORS
    : list (list PatternItem * string * option Validator) :=
  dict_of_endpoints _re_compile_path logged_model_endpoints.

Definition _is_proxy_artifact_path (path : string) : bool :=
  startswith (_REST_API_PATH_PREFIX +:+ "/mlflow-artifacts/artifacts/") path.

Definition _get_proxy_artifact_validator (method : string)
    (view_args : option (gmap string string)) : option Validator :=
  match view_args with
  | None => Some validate_can_read_experiment_artifact_proxy
  | Some _ =>
      if decide (method = "GET") then Some validate_can_read_experiment_artifact_proxy
      else if decide (method = "PUT") then Some validate_can_update_experiment_artifact_proxy
      else if decide (method = "DELETE") then Some validate_can_delete_experiment_artifact_proxy
      else None
  end.

(** [next((v for (pat, method), v in d.items() if ...), None)] *)
Definition first_logged_model_validator (r : Request)
    (d : list (list PatternItem * string * option Validator)) : option Validator :=
  match List.find (fun '((pat, method'), _) =>
                     fullmatch pat (path r) && bool_decide (method' = method r)) d with
  | Some (_, v) => v
  | None => None
  end.

(** The validator of a request; [None] stands both for a missing entry
    and for an entry that holds [None]: the caller tests the truth of the
    result. *)
Definition _find_validator (r : Request) : option Validator :=
  if str_contains "/mlflow/logged-models" (path r)
  then first_logged_model_validator r LOGGED_MODEL_BEFORE_REQUEST_VALIDATORS
  else match dict_get (path r, method r) BEFORE_REQUEST_VALIDATORS with
       | Some v => v
       | None => None
       end.

(** *** The before-request hook *)

(** Modelled from the spec: [catch_mlflow_exception] of mlflow.server.handlers
    is absent.  It turns a known error kind into the response of its HTTP
    status (section 7); any other exception leaves the hook. *)
Definition http_status_code (code : ErrorCode) : Z :=
  match code with
  | INTERNAL_ERROR => 500
  | RESOURCE_DOES_NOT_EXIST => 404
  | BAD_REQUEST | INVALID_PARAMETER_VALUE | RESOURCE_ALREADY_EXISTS => 400
  end.

Definition catch_mlflow_exception {A} (of_response : Response -> A) (c : M A) : M A :=
  try_except_mlflow c
    (fun message error_code =>
       ret (of_response
              {| status_code := http_status_code error_code;
                 data := BError error_code message;
                 headers := {[ "Content-Type" := "application/json" ]} |})).

(** The body of [_before_request]; [None] lets the request through. *)
Definition _before_request_body (r : Request) : M (option Response) :=
  if is_unprotected_route (path r) then ret None
  else
    let* authorization := authenticate_request r in
    match authorization with
    | IsResponse resp => ret (Some resp)
    | IsOther type_name =>
        raise (MlflowException
                 ("Unsupported result type from "
                  +:+ authorization_function_name (authorization_function auth_config)
                  +:+ ": '" +:+ type_name +:+ "'")
                 INTERNAL_ERROR)
    | IsAuthorization _ =>
        let* admin := sender_is_admin r in
        if admin then ret None
        else
          match _find_validator r with
          | Some validator =>
              let* ok := validator r in
              if ok then ret None else ret (Some make_forbidden_response)
          | None =>
              if _is_proxy_artifact_path (path r) then
                match _get_proxy_artifact_validator (method r) (view_args r) with
                | Some validator =>
                    let* ok := validator r in
                    if ok then ret None else ret (Some make_forbidden_response)
                | None => ret None
                end
              else ret None
          end
    end.

Definition _before_request (r : Request) : M (option Response) :=
  catch_mlflow_exception Some (_before_request_body r).


(** *** Grant on create *)

(** [parse_dict(resp.json, CreateExperiment.Response())] and the field
    [experiment_id] of the message: unknown fields are ignored and a field
    that is not set reads as the empty string; a body that is not JSON
    has no [json]. *)
Definition created_experiment_id (resp : Response) : Res string :=
  match data resp with
  | BCreateExperiment experiment_id => Ok experiment_id
  | BText _ => Raise (TypeError "parse_dict: the response has no JSON body")
  | _ => Ok ""
  end.

Definition set_can_manage_experiment_permission : AfterHandler :=
  fun resp r =>
    let* experiment_id := lift (created_experiment_id resp) in
    let* auth := authenticate_request r in
    let* username := lift (_get_username_from_auth auth) in
    let* _ := store.create_experiment_permission experiment_id username (name MANAGE) in
    ret resp.

(** *** Filter on search *)

(** [l.remove(x)]: the first element equal to [x] leaves the list. *)
Fixpoint list_remove (x : Experiment) (l : list Experiment) : list Experiment :=
  match l with
  | [] => []
  | y :: l' => if decide (y = x) then l' else y :: list_remove x l'
  end.

(** [for e in list(l): if not readable(e): l.remove(e)] *)
Definition remove_unreadable (readable : Experiment -> bool) (l : list Experiment)
    : list Experiment :=
  fold_left (fun acc e => if readable e then acc else list_remove e acc) l l.

(** [get_permission(permission).can_read] *)
Definition permission_can_read (permission : string) : Res bool :=
  match get_permission permission with
  | Ok perm => Ok (can_read perm)
  | Raise e => Raise e
  end.

(** [{p.experiment_id: get_permission(p.permission).can_read for p in perms}] *)
Definition can_read_dict (perms : list ExperimentPermission) : Res (gmap string bool) :=
  fold_left
    (fun acc p =>
       match acc with
       | Raise e => Raise e
       | Ok d =>
           match permission_can_read (ep_permission p) with
           | Ok b => Ok (<[ep_experiment_id p := b]> d)
           | Raise e => Raise e
           end
       end)
    perms (Ok ∅).

(** [can_read.get(e.experiment_id, default_can_read)] *)
Definition readable (can_read : gmap string bool) (default_can_read : bool)
    (e : Experiment) : bool :=
  default default_can_read (can_read !! experiment_id e).

Definition inspect {A} (a : A) : {b | a = b} := exist _ a eq_refl.

(** The [while] loop of [filter_search_experiments], entered with a token
    that is not empty; [offset] is the offset of that token.  A batch that
    is not empty moves the offset forward, which is why the loop ends. *)
Equations backfill (upstream : list Experiment) (readable : Experiment -> bool)
    (max_results : nat) (experiments : list Experiment) (offset : nat)
    : list Experiment * option nat by wf (length upstream - offset)%nat lt :=
backfill upstream readable max_results experiments offset
  with inspect (bool_decide (length experiments < max_results)%nat) := {
  | exist _ false _ => (experiments, Some offset)
  | exist _ true _
      with inspect (take (max_results - length experiments)
                      (search_experiments upstream max_results (Some offset)).1) := {
      | exist _ [] _ => (experiments, None)
      | exist _ (x :: l) Heq =>
          backfill upstream readable max_results
            (experiments ++ filter (fun e => readable e = true) (x :: l))
            (offset + length (x :: l))%nat } }.
Next Obligation.
  intros. apply (f_equal length) in Heq. revert Heq.
  unfold search_experiments. cbn [fst default length].
  rewrite !length_take, length_drop. unfold id. lia.
Qed.

(** The loop with its test of the token. *)
Definition refill (upstream : list Experiment) (readable : Experiment -> bool)
    (max_results : nat) (experiments : list Experiment) (next_page_token : option nat)
    : list Experiment * option nat :=
  match next_page_token with
  | Some offset => backfill upstream readable max_results experiments offset
  | None => (experiments, None)
  end.

(** What [filter_search_experiments] does to the page of a sender who is
    not an administrator. *)
Definition filter_and_backfill (upstream : list Experiment) (readable : Experiment -> bool)
    (max_results : nat) (page : list Experiment * option nat)
    : list Experiment * option nat :=
  refill upstream readable max_results (remove_unreadable readable page.1) page.2.

(** [parse_dict(resp.json, SearchExperiments.Response())] *)
Definition searched_experiments (resp : Response) : Res (list Experiment * option nat) :=
  match data resp with
  | BSearchExperiments experiments next_page_token => Ok (experiments, next_page_token)
  | BText _ => Raise (TypeError "parse_dict: the response has no JSON body")
  | _ => Ok ([], None)
  end.

Definition set_data (body : Body) (resp : Response) : Response :=
  {| status_code := status_code resp; data := body; headers := headers resp |}.

Definition filter_search_experiments : AfterHandler :=
  fun resp r =>
    let* admin := sender_is_admin r in
    if admin then ret resp
    else
      let* page := lift (searched_experiments resp) in
      let* auth := authenticate_request r in
      let* username := lift (_get_username_from_auth auth) in
      let* perms := store.list_experiment_permissions username in
      let* can_read := lift (can_read_dict perms) in
      let* default_can_read :=
        lift (permission_can_read (default_permission auth_config)) in
      let* w := get_world in
      let '(experiments, next_page_token) :=
        filter_and_backfill (tracking_experiments w)
          (readable can_read default_can_read) (max_results r) page in
      ret (set_data (BSearchExperiments experiments next_page_token) resp).

(** *** The after-request hook *)

(** The entries of [get_endpoints(get_after_request_handler)] that the
    comprehension keeps: [handler is not None and "/graphql" not in http_path]. *)
Definition kept_after_request_endpoints : list (string * AfterHandler * list string) :=
  flat_map
    (fun '(http_path, handler, methods) =>
       match handler with
       | Some h => if str_contains "/graphql" http_path then [] else [(http_path, h, methods)]
       | None => []
       end)
    after_request_endpoints.

Definition AFTER_REQUEST_HANDLERS : list (string * string * AfterHandler) :=
  dict_of_endpoints (fun http_path => http_path) kept_after_request_endpoints.

Definition _after_request (resp : Response) (r : Request) : M Response :=
  catch_mlflow_exception (fun error_response => error_response)
    (if bool_decide (400 <= status_code resp) && bool_decide (status_code resp < 600)
     then ret resp
     else match dict_get (path r, method r) AFTER_REQUEST_HANDLERS with
          | Some handler => handler resp r
          | None => ret resp
          end).

(** Modelled from the spec: the handler of the experiment search belongs to
    the host server (section 6).  It answers with the page of the tracking
    store for the [max_results] and the token of the request. *)
Definition search_experiments_handler (r : Request) : M Response :=
  let* w := get_world in
  let '(experiments, next_page_token) :=
    search_experiments (tracking_experiments w) (max_results r) (page_token r) in
  ret {| status_code := 200;
         data := BSearchExperiments experiments next_page_token;
         headers := {[ "Content-Type" := "application/json" ]} |}.

End Auth.

(** A client that reads a whole search: it sends back the token of each
    page until a page comes without one.  [fuel] bounds the number of
    requests. *)
Fixpoint all_pages (fuel : nat) (upstream : list Experiment)
    (readable : Experiment -> bool) (max_results : nat) (page_token : option nat)
    : option (list Experiment) :=
  match fuel with
  | O => None
  | S fuel' =>
      let '(experiments, next_page_token) :=
        filter_and_backfill upstream readable max_results
          (search_experiments upstream max_results page_token) in
      match next_page_token with
      | None => Some experiments
      | Some _ =>
          match all_pages fuel' upstream readable max_results next_page_token with
          | Some more => Some (experiments ++ more)%list
          | None => None
          end
      end
  end.

Definition with_page_token (t : option nat) (r : Request) : Request :=
  {| path := path r; method := method r; url := url r; req_headers := req_headers r;
     args := args r; is_json := is_json r; json := json r; view_args := view_args r;
     authorization := authorization r; max_results := max_results r;
     page_token := t |}.

(** One request of the search as the server answers it: the handler of
    the host server, and then [filter_search_experiments] on its
    response. *)
Definition filtered_search (auth_config : AuthConfig) (r : Request) : M Response :=
  let* resp := search_experiments_handler r in
  filter_search_experiments auth_config resp r.

(** A client that reads a whole search from the server: it repeats the
    request [r] with the token of each response until a response comes
    without one.  [fuel] bounds the number of requests. *)
Fixpoint search_all (auth_config : AuthConfig) (fuel : nat) (r : Request)
    (page_token : option nat) (w : World) : option (list Experiment) :=
  match fuel with
  | O => None
  | S fuel' =>
      match filtered_search auth_config (with_page_token page_token r) w with
      | (Ok resp, w') =>
          match data resp with
          | BSearchExperiments experiments None => Some experiments
          | BSearchExperiments experiments (Some offset) =>
              match search_all auth_config fuel' r (Some offset) w' with
              | Some more => Some (experiments ++ more)%list
              | None => None
              end
          | _ => None
          end
      | (Raise _, _) => None
      end
  end.

(** * Further functions of the module *)

(** ** Session helpers and pages of the user interface *)


(** The truth value that Python gives a session value. *)
Definition truthy (v : pyval) : bool :=
  match v with
  | PStr s => negb (bool_decide (s = ""))
  | PInt n => negb (bool_decide (n = 0))
  | PBool b => b
  | PTime _ => true
  end.


(** [try: c except Exception: h] *)
Definition try_except_exception {A} (c : M A) (h : M A) : M A :=
  fun w => match c w with
           | (Raise _, w') => h w'
           | other => other
           end.

Section UserInterface.
Variable auth_config : AuthConfig.

(** flask's [flash] and the rendering of the login page belong to the
    framework: [flash message] and [login] stand for them. *)
Variable flash : string -> M unit.
Variable login : M Response.

(** [_get_current_user_session]: the session of the navigation bar.  It
    reads the issue time under the key [created_at]. *)
Definition _get_current_user_session : M (option (gmap string pyval)) :=
  try_except_exception
    (let* has_username := session_contains "username" in
     let* has_user_id := session_contains "user_id" in
     if has_username && has_user_id then
       let* w := get_world in
       let session_created_at := session w !! "created_at" in
       let* expired :=
         (match session_created_at with
          | Some created_at =>
              if truthy created_at then
                let* created_time := lift (fromisoformat created_at) in
                let* current_time := datetime_now in
                let* session_lifetime :=
                  lift (timedelta_seconds
                          (default (PInt 86400)
                             (session_config auth_config !! "PERMANENT_SESSION_LIFETIME"))) in
                ret (bool_decide (current_time - created_time > session_lifetime))
              else ret false
          | None => ret false
          end) in
       if expired then ret None
       else
         let* username := session_item "username" in
         let* user_id := session_item "user_id" in
         let* is_admin := session_get "is_admin" (PBool false) in
         ret (Some (<["username" := username]>
                      (<["user_id" := user_id]> {[ "is_admin" := is_admin ]})))
     else ret None)
    (ret None).


Definition handle_logout : M Response :=
  session_clear ;;;
  flash "You have been logged out successfully" ;;;
  ret (redirect LOGIN).

(** [admin_panel_guard(func)], the wrapper it returns. *)
Definition admin_panel_guard (func : M Response) : M Response :=
  let* has_username := session_contains "username" in
  if negb has_username then ret (redirect LOGIN)
  else
    let* is_admin := session_get "is_admin" (PBool false) in
    if negb (truthy is_admin)
    then ret (make_response "Access denied: Admin privileges required" 403)
    else func.

End UserInterface.

(** ** Cleanup on delete *)

Definition set_registered_model_permissions (l : list RegisteredModelPermission)
    (w : World) : World :=
  {| session := session w; users := users w;
     experiment_permissions := experiment_permissions w;
     registered_model_permissions := l;
     tracking_experiments := tracking_experiments w; now := now w |}.

(** Modelled from the spec: the deletion of a grant in the store of
    mlflow.server.auth.sqlalchemy_store, which is absent.  It fails with
    NotFound (RESOURCE_DOES_NOT_EXIST) when the pair has no grant
    (section 4.2). *)
Module registered_model_store.

Definition is_grant (name : JsonValue) (key : option pyval) (p : RegisteredModelPermission)
    : bool :=
  is_string name (rmp_name p) && is_username key (rmp_username p).

Definition delete_registered_model_permission (name : JsonValue) (key : option pyval)
    : M unit :=
  fun w =>
    match List.find (is_grant name key) (registered_model_permissions w) with
    | Some _ =>
        (Ok tt,
         set_registered_model_permissions
           (List.filter (fun p => negb (is_grant name key p))
              (registered_model_permissions w)) w)
    | None =>
        (Raise (MlflowException "Registered model permission not found"
                  RESOURCE_DOES_NOT_EXIST), w)
    end.

End registered_model_store.

(** [request.get_json(force=True, silent=True)["name"]]: the body is read
    whatever the content type says, and [get_json] gives [None] for a
    body that is no JSON document.  Only a [dict] has items under a
    string. *)
Definition request_json_name (r : Request) : Res JsonValue :=
  match json r with
  | Some (JObject d) =>
      match d !! "name" with
      | Some name => Ok name
      | None => Raise (KeyError "name")
      end
  | Some (JArray _) => Raise (TypeError "list indices must be integers or slices, not str")
  | Some (JString _) => Raise (TypeError "string indices must be integers, not 'str'")
  | Some v => Raise (TypeError ("'" +:+ type_name_of v +:+ "' object is not subscriptable"))
  | None => Raise (TypeError "'NoneType' object is not subscriptable")
  end.

Section CleanupOnDelete.
Variable auth_config : AuthConfig.

Definition delete_can_manage_registered_model_permission : AfterHandler :=
  fun resp r =>
    let* name := lift (request_json_name r) in
    let* auth := authenticate_request auth_config r in
    let* username := lift (_get_username_from_auth auth) in
    registered_model_store.delete_registered_model_permission name username ;;;
    ret resp.

End CleanupOnDelete.

(** ** The configuration file (server/auth/config.py) *)

Definition lower_char (c : ascii) : ascii :=
  if (65 <=? N_of_ascii c)%N && (N_of_ascii c <=? 90)%N
  then ascii_of_N (N_of_ascii c + 32) else c.

Definition upper_char (c : ascii) : ascii :=
  if (97 <=? N_of_ascii c)%N && (N_of_ascii c <=? 122)%N
  then ascii_of_N (N_of_ascii c - 32) else c.

Fixpoint map_string (f : ascii -> ascii) (s : string) : string :=
  match s with
  | EmptyString => EmptyString
  | String c rest => String (f c) (map_string f rest)
  end.

(** [s.lower()] and [s.upper()] on ASCII text *)
Definition lower (s : string) : string := map_string lower_char s.
Definition upper (s : string) : string := map_string upper_char s.

Fixpoint all_digits (s : string) : bool :=
  match s with
  | EmptyString => true
  | String c rest => is_digit c && all_digits rest
  end.

(** [s.isdigit()] on ASCII text *)
Definition isdigit (s : string) : bool :=
  negb (bool_decide (s = "")) && all_digits s.

Fixpoint int_of_digits (acc : Z) (s : string) : Z :=
  match s with
  | EmptyString => acc
  | String c rest => int_of_digits (acc * 10 + (Z.of_N (N_of_ascii c) - 48)) rest
  end.

(** [int(s)] for a string of digits 0 to 9 *)
Definition int (s : string) : Z := int_of_digits 0 s.

(** The value that [read_auth_config] stores for an option of the
    [session] section. *)
Definition session_value (value : string) : pyval :=
  if bool_decide (lower value = "true") || bool_decide (lower value = "false")
  then PBool (bool_decide (lower value = "true"))
  else if isdigit value then PInt (int value)
  else PStr value.

(** The loop of [read_auth_config] over [config.items("session")]. *)
Definition read_session_config (items : list (string * string)) : gmap string pyval :=
  fold_left (fun session_config '(key, value) =>
               <[upper key := session_value value]> session_config)
    items ∅.

(** ** Filter on the search of logged models *)

Record LoggedModel := {
  model_id : string;
  model_experiment_id : string
}.

#[global] Instance LoggedModel_eq_dec : EqDecision LoggedModel.
Proof. solve_decision. Defined.

(** Modelled from the spec: the search of logged models of the tracking
    store, paged by the offset of its token like the search of
    experiments (section 4.6).  A token is its offset: the query
    parameters that it also carries do not change during one search. *)
Definition search_logged_models (upstream : list LoggedModel) (max_results : nat)
    (page_token : option nat) : list LoggedModel * option nat :=
  let offset := default 0%nat page_token in
  (take max_results (drop offset upstream),
   if bool_decide (offset + max_results < length upstream)%nat
   then Some (offset + max_results)%nat else None).

(** [l.remove(x)] *)
Fixpoint remove_first {A} `{EqDecision A} (x : A) (l : list A) : list A :=
  match l with
  | [] => []
  | y :: l' => if decide (y = x) then l' else y :: remove_first x l'
  end.

(** [for m in list(l): if not readable(m): l.remove(m)] *)
Definition remove_unreadable_models (readable : LoggedModel -> bool)
    (l : list LoggedModel) : list LoggedModel :=
  fold_left (fun acc m => if readable m then acc else remove_first m acc) l l.

(** [can_read.get(model.experiment_id, default_can_read)] *)
Definition readable_model (can_read : gmap string bool) (default_can_read : bool)
    (m : LoggedModel) : bool :=
  default default_can_read (can_read !! model_experiment_id m).

(** The [for index, model in enumerate(batch)] loop from [index] on.  The
    result is the list of models and, when the loop left by [break], the
    token assigned before it; [None] when the loop came to its end, where
    the [else] clause runs. *)
Fixpoint scan_batch (readable : LoggedModel -> bool) (max_results : nat)
    (is_last_page : bool) (offset last_index index : nat)
    (batch models : list LoggedModel) : list LoggedModel * option (option nat) :=
  match batch with
  | [] => (models, None)
  | model :: rest =>
      if negb (readable model)
      then scan_batch readable max_results is_last_page offset last_index (S index)
             rest models
      else
        let models := models ++ [model] in
        if bool_decide (max_results <= length models)%nat
        then (models,
              Some (if is_last_page && bool_decide (index = last_index)
                    then None else Some (offset + index + 1)%nat))
        else scan_batch readable max_results is_last_page offset last_index (S index)
               rest models
  end.

(** One pass of the body of the [while] loop, entered with the token of
    offset [offset]. *)
Definition refetch_logged_models (upstream : list LoggedModel)
    (readable : LoggedModel -> bool) (max_results : nat)
    (models : list LoggedModel) (offset : nat) : list LoggedModel * option nat :=
  let batch := search_logged_models upstream max_results (Some offset) in
  let is_last_page := bool_decide (batch.2 = None) in
  let last_index := (length batch.1 - 1)%nat in
  match scan_batch readable max_results is_last_page offset last_index 0 batch.1 models with
  | (models, Some next_page_token) => (models, next_page_token)
  | (models, None) =>
      (models, if is_last_page then None else Some (offset + max_results)%nat)
  end.

(** The [while] loop of [filter_search_logged_models], entered with a
    token. *)
Equations backfill_logged_models (upstream : list LoggedModel)
    (readable : LoggedModel -> bool) (max_results : nat)
    (models : list LoggedModel) (offset : nat)
    : list LoggedModel * option nat by wf (length upstream - offset)%nat lt :=
backfill_logged_models upstream readable max_results models offset
  with inspect (bool_decide (length models < max_results)%nat) := {
  | exist _ false _ => (models, Some offset)
  | exist _ true Hlt
      with inspect (refetch_logged_models upstream readable max_results models offset) := {
      | exist _ (models', None) _ => (models', None)
      | exist _ (models', Some offset') Heq =>
          backfill_logged_models upstream readable max_results models' offset' } }.
Next Obligation.
  intros. apply bool_decide_eq_true in Hlt. revert Heq.
  assert (forall rd m last off li batch index models0 models1 t,
            scan_batch rd m last off li index batch models0 = (models1, Some (Some t)) ->
            (off + index < t <= off + index + length batch)%nat) as Hscan.
  { intros rd m last off li.
    induction batch as [|model rest IH]; intros index models0 models1 t; cbn [scan_batch].
    - discriminate.
    - destruct (negb (rd model)).
      + intros Hres. apply IH in Hres. cbn [length]. lia.
      + case_bool_decide as Hfull.
        * destruct (_ && _); intros Hres; inversion Hres. cbn [length]. lia.
        * intros Hres. apply IH in Hres. cbn [length]. lia. }
  unfold refetch_logged_models, search_logged_models. cbn [fst snd default]. unfold id.
  destruct (scan_batch _ _ _ _ _ _ _ _) as [models1 [[t|]|]] eqn:Hrun.
  - intros Hres. inversion Hres. subst. apply Hscan in Hrun.
    rewrite length_take, length_drop in Hrun. lia.
  - discriminate.
  - destruct (bool_decide (_ + _ < _)%nat) eqn:Hmore.
    + apply bool_decide_eq_true in Hmore. rewrite bool_decide_eq_false_2 by done.
      intros Hres. inversion Hres. lia.
    + rewrite bool_decide_eq_true_2 by done. discriminate.
Qed.

(** What [filter_search_logged_models] does to the parsed response of a
    sender who is not an administrator: [page] holds the models and the
    token of the response, and the result those it is serialised with.
    The token of the response is assigned only when the loop leaves
    one. *)
Definition filter_logged_models_page (upstream : list LoggedModel)
    (readable : LoggedModel -> bool) (max_results : nat)
    (page : list LoggedModel * option nat) : list LoggedModel * option nat :=
  let models := remove_unreadable_models readable page.1 in
  let '(models, next_page_token) :=
    match page.2 with
    | Some offset => backfill_logged_models upstream readable max_results models offset
    | None => (models, None)
    end in
  (models,
   match next_page_token with
   | Some offset => Some offset
   | None => page.2
   end).

(** A client that reads a whole search of logged models. *)
Fixpoint all_logged_model_pages (fuel : nat) (upstream : list LoggedModel)
    (readable : LoggedModel -> bool) (max_results : nat) (page_token : option nat)
    : option (list LoggedModel) :=
  match fuel with
  | O => None
  | S fuel' =>
      let '(models, next_page_token) :=
        filter_logged_models_page upstream readable max_results
          (search_logged_models upstream max_results page_token) in
      match next_page_token with
      | None => Some models
      | Some _ =>
          match all_logged_model_pages fuel' upstream readable max_results
                  next_page_token with
          | Some more => Some (models ++ more)
          | None => None
          end
      end
  end.

(** ** Vocabulary of the further statements *)

(** The characters of the literal part of a route template: letters,
    digits, the slash, the hyphen and the underscore, none of which is
    special in a regular expression. *)
Definition is_route_char (c : ascii) : bool :=
  is_digit c
  || ((65 <=? N_of_ascii c)%N && (N_of_ascii c <=? 90)%N)
  || ((97 <=? N_of_ascii c)%N && (N_of_ascii c <=? 122)%N)
  || bool_decide (c = "/"%char) || bool_decide (c = "-"%char)
  || bool_decide (c = "_"%char).

Fixpoint all_route_chars (s : string) : bool :=
  match s with
  | EmptyString => true
  | String c rest => is_route_char c && all_route_chars rest
  end.

(** ** Vocabulary of the statements *)

(** The identity that a session yields. *)
Definition session_identity (w : World) (username user_id : pyval) : AuthResult :=
  IsAuthorization
    {| auth_type := "session";
       parameters :=
         <["username" := username]>
           (<["user_id" := user_id]>
              {[ "is_admin" := default (PBool false) (session w !! "is_admin") ]}) |}.

(** ** Concrete requests and worlds *)

Definition example_request : Request :=
  {| path := "/api/2.0/mlflow/experiments/get"; method := "GET";
     url := "http://localhost:5000/api/2.0/mlflow/experiments/get?experiment_id=7";
     req_headers := ∅; args := [("experiment_id", "7")];
     is_json := false; json := None; view_args := Some ∅;
     authorization := None; max_results := 2; page_token := None |}.

Definition with_method (m : string) (r : Request) : Request :=
  {| path := path r; method := m; url := url r; req_headers := req_headers r;
     args := args r; is_json := is_json r; json := json r; view_args := view_args r;
     authorization := authorization r; max_results := max_results r;
     page_token := page_token r |}.

Definition with_path (p : string) (r : Request) : Request :=
  {| path := p; method := method r; url := url r; req_headers := req_headers r;
     args := args r; is_json := is_json r; json := json r; view_args := view_args r;
     authorization := authorization r; max_results := max_results r;
     page_token := page_token r |}.

Definition with_view_args (va : option (gmap string string)) (r : Request) : Request :=
  {| path := path r; method := method r; url := url r; req_headers := req_headers r;
     args := args r; is_json := is_json r; json := json r; view_args := va;
     authorization := authorization r; max_results := max_results r;
     page_token := page_token r |}.

Definition with_accept (accept : string) (r : Request) : Request :=
  {| path := path r; method := method r; url := url r;
     req_headers := <["Accept" := accept]> (req_headers r);
     args := args r; is_json := is_json r; json := json r; view_args := view_args r;
     authorization := authorization r; max_results := max_results r;
     page_token := page_token r |}.

Definition with_args (a : MultiDict) (r : Request) : Request :=
  {| path := path r; method := method r; url := url r; req_headers := req_headers r;
     args := a; is_json := is_json r; json := json r; view_args := view_args r;
     authorization := authorization r; max_results := max_results r;
     page_token := page_token r |}.

Definition with_json (body : option JsonValue) (r : Request) : Request :=
  {| path := path r; method := method r; url := url r; req_headers := req_headers r;
     args := args r; is_json := true; json := body; view_args := view_args r;
     authorization := authorization r; max_results := max_results r;
     page_token := page_token r |}.

Definition alice : User :=
  {| user_id := 2; username := "alice"; password_hash := "secret"; is_admin := false |}.

Definition alice_session (login_time : option Z) : gmap string pyval :=
  let s : gmap string pyval :=
    <["username" := PStr "alice"]> (<["user_id" := PInt 2]> {[ "is_admin" := PBool false ]}) in
  match login_time with
  | Some t => <["login_time" := PTime t]> s
  | None => s
  end.

Definition example_world (login_time : option Z) (clock : Z)
    (grants : list ExperimentPermission) : World :=
  {| session := alice_session login_time; users := [alice];
     experiment_permissions := grants; registered_model_permissions := [];
     tracking_experiments := []; now := clock |}.

Definition session_auth_config (lifetime : option Z) : AuthConfig :=
  {| default_permission := "READ"; authorization_function := SessionAuth;
     session_config :=
       match lifetime with
       | Some d => {[ "PERMANENT_SESSION_LIFETIME" := PInt d ]}
       | None => ∅
       end |}.

Definition example_before_request_endpoints
    : list (string * option Validator * list string) :=
  [ ("/api/2.0/mlflow/experiments/get",
       Some (validate_can_read_experiment (session_auth_config None)), ["GET"]);
    ("/api/2.0/mlflow/experiments/search", None, ["POST"; "GET"]) ].

Definition example_logged_model_endpoints
    : list (string * option Validator * list string) :=
  [ ("/api/2.0/mlflow/logged-models/<model_id>", Some (fun _ => ret false),
       ["GET"; "DELETE"]) ].

Definition example_after_request_endpoints
    : list (string * option AfterHandler * list string) :=
  [ ("/api/2.0/mlflow/experiments/create",
       Some (set_can_manage_experiment_permission (session_auth_config None)), ["POST"]);
    ("/api/2.0/mlflow/experiments/search",
       Some (filter_search_experiments (session_auth_config None)), ["POST"; "GET"]) ].

Definition create_experiment_request : Request :=
  with_method "POST" (with_path "/api/2.0/mlflow/experiments/create" example_request).

Definition created_response (experiment_id : string) : Response :=
  {| status_code := 200; data := BCreateExperiment experiment_id;
     headers := {[ "Content-Type" := "application/json" ]} |}.

Definition artifact_request (method : string) (va : option (gmap string string)) : Request :=
  with_view_args va
    (with_method method
       (with_path "/api/2.0/mlflow-artifacts/artifacts/7/model" example_request)).

Definition experiment (n : string) : Experiment :=
  {| experiment_id := n; experiment_name := "experiment " +:+ n |}.

Definition example_upstream : list Experiment :=
  map experiment ["1"; "2"; "3"; "4"; "5"; "6"; "7"].

Definition example_can_read : gmap string bool :=
  <["1" := false]> (<["3" := false]> (<["6" := false]> {[ "2" := true ]})).

(** The scenario of section 8: two experiments, of which alice holds
    NO_PERMISSIONS on the first and no grant on the second. *)
Definition scenario_world : World :=
  {| session := alice_session None; users := [alice];
     experiment_permissions := [Build_ExperimentPermission "1" "alice" "NO_PERMISSIONS"];
     registered_model_permissions := [];
     tracking_experiments := [experiment "1"; experiment "2"]; now := 0 |}.

Definition search_request : Request :=
  with_method "POST" (with_path "/api/2.0/mlflow/experiments/search" example_request).

(** A world in which alice searches [example_upstream] with the grants
    of [example_can_read]. *)
Definition search_world : World :=
  {| session := alice_session None; users := [alice];
     experiment_permissions :=
       [ Build_ExperimentPermission "2" "alice" "READ";
         Build_ExperimentPermission "6" "alice" "NO_PERMISSIONS";
         Build_ExperimentPermission "3" "alice" "NO_PERMISSIONS";
         Build_ExperimentPermission "1" "alice" "NO_PERMISSIONS" ];
     registered_model_permissions := [];
     tracking_experiments := example_upstream; now := 0 |}.

(** A GET on the route of a logged model, [/mlflow/logged-models/<model_id>],
    for the model m-1, with a query string that names another model. *)
Definition logged_model_request : Request :=
  with_args [("model_id", "m-2")]
    (with_view_args (Some {[ "model_id" := "m-1" ]})
       (with_path "/api/2.0/mlflow/logged-models/m-1" example_request)).

(** ** Further requests and worlds *)

(** The identity of alice, as the session authentication gives it. *)
Definition alice_authorization : Authorization :=
  {| auth_type := "session";
     parameters :=
       <["username" := PStr "alice"]>
         (<["user_id" := PInt 2]> {[ "is_admin" := PBool false ]}) |}.

Definition user_request (route method : string) (a : MultiDict) : Request :=
  with_args a (with_method method (with_path ("/api/2.0" +:+ route) example_request)).

(** A session that says admin for a user who is none in the store. *)
Definition stale_admin_world : World :=
  {| session := <["is_admin" := PBool true]> (alice_session None); users := [alice];
     experiment_permissions := []; registered_model_permissions := [];
     tracking_experiments := []; now := 0 |}.

Definition model_grants_world (grants : list RegisteredModelPermission) : World :=
  {| session := alice_session None; users := [alice];
     experiment_permissions := []; registered_model_permissions := grants;
     tracking_experiments := []; now := 0 |}.

Definition delete_model_request : Request :=
  with_json (Some (JObject {[ "name" := JString "classifier" ]}))
    (with_method "DELETE"
       (with_path "/api/2.0/mlflow/registered-models/delete" example_request)).

Definition example_delete_endpoints : list (string * option AfterHandler * list string) :=
  [ ("/api/2.0/mlflow/registered-models/delete",
       Some (delete_can_manage_registered_model_permission (session_auth_config None)),
       ["DELETE"]) ].

Definition deleted_response : Response :=
  {| status_code := 200; data := BText "{}";
     headers := {[ "Content-Type" := "application/json" ]} |}.

(** A configuration read from a file with a [session] section. *)
Definition file_auth_config (items : list (string * string)) : AuthConfig :=
  {| default_permission := "READ"; authorization_function := SessionAuth;
     session_config := read_session_config items |}.

Definition logged_model (n experiment_id : string) : LoggedModel :=
  {| model_id := n; model_experiment_id := experiment_id |}.

(** Three models, of which the first two belong to an experiment that
    the sender cannot read. *)
Definition example_logged_models : list LoggedModel :=
  [ logged_model "m-1" "1"; logged_model "m-2" "1"; logged_model "m-3" "2" ].

(** * Properties *)

(** ** Parameter resolution *)

Lemma prefix_app (p s : string) : String.prefix p (p +:+ s) = true.
Proof. induction p as [|c p IH]; simpl; [by destruct s|]. by destruct (ascii_dec c c). Qed.

Lemma str_contains_prefix (sub s : string) :
  String.prefix sub s = true -> str_contains sub s = true.
Proof. intros H. destruct s; cbn [str_contains]; by rewrite H. Qed.

Lemma str_contains_app (sub a b : string) :
  str_contains sub (a +:+ (sub +:+ b)) = true.
Proof.
  induction a as [|c a IH].
  - change ("" +:+ (sub +:+ b)) with (sub +:+ b).
    apply str_contains_prefix, prefix_app.
  - change (String c a +:+ (sub +:+ b)) with (String c (a +:+ (sub +:+ b))).
    cbn [str_contains]. rewrite IH. apply orb_true_r.
Qed.

Lemma append_assoc (a b c : string) : (a +:+ b) +:+ c = a +:+ (b +:+ c).
Proof.
  induction a as [|x a IH]; [done|].
  change (String x ((a +:+ b) +:+ c) = String x (a +:+ (b +:+ c))). by rewrite IH.
Qed.

Lemma missing_parameter_names (param : string) :
  exists message,
    missing_parameter param = MlflowException message INVALID_PARAMETER_VALUE /\
    str_contains ("'" +:+ param +:+ "'") message = true.
Proof.
  eexists. split; [reflexivity|].
  set (quoted := "'" +:+ param +:+ "'").
  set (tail := ". See the API docs for more information about request parameters.").
  replace (_ +:+ param +:+ _ +:+ _)
    with ("Missing value for required parameter " +:+ (quoted +:+ tail)).
  - apply str_contains_app.
  - unfold quoted, tail. rewrite !append_assoc. reflexivity.
Qed.

(** *** The merged arguments *)

Lemma MultiDict_get_elem_of (key v : string) (d : MultiDict) :
  MultiDict_get key d = Some v -> (key, v) ∈ d.
Proof.
  induction d as [|[k x] d IH]; cbn [MultiDict_get]; [done|].
  destruct (decide (k = key)) as [->|Hne].
  - intros [= ->]. apply list_elem_of_here.
  - intros H. apply list_elem_of_further. by apply IH.
Qed.

Lemma MultiDict_get_unique (key v : string) (d : MultiDict) :
  NoDup d.*1 -> (key, v) ∈ d -> MultiDict_get key d = Some v.
Proof.
  induction d as [|[k x] d IH]; cbn [MultiDict_get fmap list_fmap fst].
  - intros _ H. by apply elem_of_nil in H.
  - intros Hnodup Hin. apply NoDup_cons in Hnodup as [Hk Hnodup].
    apply elem_of_cons in Hin as [[= <- <-]|Hin].
    + by rewrite decide_True.
    + destruct (decide (k = key)) as [->|Hne]; [|by apply IH].
      exfalso. apply Hk. apply list_elem_of_fmap. by exists (key, v).
Qed.

(** The items of a dict, read as a [MultiDict], give each key its
    value. *)
Lemma MultiDict_get_map_to_list (key : string) (other : gmap string string) :
  MultiDict_get key (map_to_list other) = other !! key.
Proof.
  destruct (other !! key) as [v|] eqn:Hv.
  - apply MultiDict_get_unique; [apply NoDup_fst_map_to_list|].
    by apply elem_of_map_to_list.
  - destruct (MultiDict_get key (map_to_list other)) as [v|] eqn:Hget; [|done].
    apply MultiDict_get_elem_of, elem_of_map_to_list in Hget. congruence.
Qed.

(** In [args | view_args] a key of the query string keeps its first
    value there; only another key gets the value of the view
    arguments. *)
Lemma MultiDict_get_or (key : string) (d : MultiDict) (other : gmap string string) :
  MultiDict_get key (MultiDict_or d other) =
    match MultiDict_get key d with
    | Some v => Some v
    | None => other !! key
    end.
Proof.
  unfold MultiDict_or. induction d as [|[k x] d IH]; cbn [MultiDict_get app].
  - apply MultiDict_get_map_to_list.
  - by destruct (decide (k = key)).
Qed.

Lemma get_request_param_found (r : Request) (arguments : Mapping) (param : string)
    (v : JsonValue) :
  merged_arguments r = Ok arguments ->
  Mapping_get param arguments = Some v ->
  _get_request_param param r = Ok v.
Proof.
  intros Hargs Hv. unfold _get_request_param, _get_request_param_body at 1.
  by rewrite Hargs, Hv.
Qed.

Lemma get_request_param_missing (r : Request) (arguments : Mapping) (param : string) :
  merged_arguments r = Ok arguments ->
  Mapping_get param arguments = None ->
  _get_request_param param r =
    if decide (param = "run_id") then _get_request_param "run_uuid" r
    else Raise (missing_parameter param).
Proof.
  intros Hargs Hv. unfold _get_request_param, _get_request_param_body.
  rewrite Hargs, Hv. destruct (decide (param = "run_id")); [|done].
  by destruct (Mapping_get "run_uuid" arguments).
Qed.

Lemma get_request_param_raises (r : Request) (param : string) (e : exn) :
  merged_arguments r = Raise e -> _get_request_param param r = Raise e.
Proof.
  intros Hargs. unfold _get_request_param, _get_request_param_body at 1.
  by rewrite Hargs.
Qed.

(** A parameter that is neither in the query arguments nor in the view
    arguments is not in their union. *)
Lemma query_arguments_without (r : Request) (d : MultiDict) (param : string) :
  request_arguments r = Ok (ArgsOfQuery d) ->
  MultiDict_get param d = None ->
  default ∅ (view_args r) !! param = None ->
  exists arguments,
    merged_arguments r = Ok arguments /\ Mapping_get param arguments = None.
Proof.
  intros Hargs Hd Hva. eexists. unfold merged_arguments. rewrite Hargs.
  split; [reflexivity|]. cbn [Mapping_get]. by rewrite MultiDict_get_or, Hd, Hva.
Qed.

Lemma json_arguments_without (r : Request) (d : gmap string JsonValue) (param : string) :
  request_arguments r = Ok (ArgsOfJson (JObject d)) ->
  d !! param = None ->
  default ∅ (view_args r) !! param = None ->
  exists arguments,
    merged_arguments r = Ok arguments /\ Mapping_get param arguments = None.
Proof.
  intros Hargs Hd Hva. eexists. unfold merged_arguments. rewrite Hargs.
  split; [reflexivity|]. cbn [Mapping_get].
  apply lookup_union_None. split; [|done]. by rewrite lookup_fmap, Hva.
Qed.

Lemma missing_everywhere (r : Request) (arguments : Mapping) (param : string) :
  merged_arguments r = Ok arguments ->
  Mapping_get param arguments = None ->
  (param <> "run_id" ->
     exists message,
       _get_request_param param r = Raise (MlflowException message INVALID_PARAMETER_VALUE) /\
       str_contains ("'" +:+ param +:+ "'") message = true) /\
  (param = "run_id" -> _get_request_param param r = _get_request_param "run_uuid" r).
Proof.
  intros Hargs Hnone. rewrite (get_request_param_missing r arguments param Hargs Hnone).
  split; intros Hp.
  - destruct (decide (param = "run_id")); [done|].
    destruct (missing_parameter_names param) as (message & -> & Hm). eauto.
  - by destruct (decide (param = "run_id")).
Qed.

(** C8: a required parameter that is neither in the arguments selected by
    the method, when these are a mapping (the query arguments for GET and
    for DELETE without JSON content; a JSON object as body for POST,
    PATCH and DELETE with JSON content), nor in the view arguments makes
    [_get_request_param] raise INVALID_PARAMETER_VALUE with a message
    that names the parameter; for [run_id] the resolution is that of the
    legacy parameter [run_uuid], and fails only with that one.  When the
    method selects the JSON body and flask cannot read one, the error of
    [request.json] (415 without JSON content type, 400 for a body that
    is no document) leaves the function; a method other than GET, POST,
    PATCH and DELETE raises BAD_REQUEST. *)
Theorem missing_parameter_is_reported (r : Request) (param : string) :
  let reported :=
    (param <> "run_id" ->
       exists message,
         _get_request_param param r
           = Raise (MlflowException message INVALID_PARAMETER_VALUE) /\
         str_contains ("'" +:+ param +:+ "'") message = true) /\
    (param = "run_id" -> _get_request_param param r = _get_request_param "run_uuid" r) in
  (forall d : MultiDict,
     request_arguments r = Ok (ArgsOfQuery d) ->
     MultiDict_get param d = None ->
     default ∅ (view_args r) !! param = None ->
     reported) /\
  (forall d : gmap string JsonValue,
     request_arguments r = Ok (ArgsOfJson (JObject d)) ->
     d !! param = None ->
     default ∅ (view_args r) !! param = None ->
     reported) /\
  (method r = "POST" \/ method r = "PATCH" \/ method r = "DELETE" /\ is_json r = true ->
   (is_json r = false ->
    _get_request_param param r = Raise (HTTPException 415)) /\
   (is_json r = true -> json r = None ->
    _get_request_param param r = Raise (HTTPException 400))) /\
  (method r <> "GET" -> method r <> "POST" -> method r <> "PATCH" ->
   method r <> "DELETE" ->
   _get_request_param param r
     = Raise (MlflowException ("Unsupported HTTP method '" +:+ method r +:+ "'")
                BAD_REQUEST)).
Proof.
  intros reported. split; [|split; [|split]].
  - intros d Hargs Hd Hva.
    destruct (query_arguments_without r d param Hargs Hd Hva) as (arguments & Hm & Hnone).
    by apply (missing_everywhere r arguments).
  - intros d Hargs Hd Hva.
    destruct (json_arguments_without r d param Hargs Hd Hva) as (arguments & Hm & Hnone).
    by apply (missing_everywhere r arguments).
  - intros Hmethod. split.
    + intros Hjson. apply get_request_param_raises.
      unfold merged_arguments, request_arguments, request_json. rewrite Hjson.
      destruct Hmethod as [-> | [-> | [_ Habsurd]]]; [done|done|congruence].
    + intros Hjson Hbody. apply get_request_param_raises.
      unfold merged_arguments, request_arguments, request_json. rewrite Hjson, Hbody.
      by destruct Hmethod as [-> | [-> | [-> _]]].
  - intros Hget Hpost Hpatch Hdelete. apply get_request_param_raises.
    unfold merged_arguments, request_arguments.
    rewrite !decide_False by done. by rewrite !bool_decide_eq_false_2 by done.
Qed.

Lemma missing_parameter_is_reported_witness :
  request_arguments example_request = Ok (ArgsOfQuery [("experiment_id", "7")]) /\
  MultiDict_get "name" [("experiment_id", "7")] = None /\
  default (∅ : gmap string string) (view_args example_request) !! "name" = None /\
  exists message,
    _get_request_param "name" example_request
      = Raise (MlflowException message INVALID_PARAMETER_VALUE) /\
    str_contains "'name'" message = true.
Proof.
  split; [reflexivity|]. split; [reflexivity|]. split; [reflexivity|].
  apply (proj1 (missing_parameter_is_reported example_request "name")
           [("experiment_id", "7")]);
    [reflexivity|reflexivity|reflexivity|discriminate].
Defined.

(** A POST without a JSON body: the parameter is in no body and in no
    view argument, and the error is flask's 415, not the
    invalid-parameter error. *)
Lemma post_without_json_body :
  let r := create_experiment_request in
  method r = "POST" /\ json r = None /\
  default (∅ : gmap string string) (view_args r) !! "name" = None /\
  _get_request_param "name" r = Raise (HTTPException 415) /\
  ~ exists message,
      _get_request_param "name" r = Raise (MlflowException message INVALID_PARAMETER_VALUE).
Proof.
  intros r. split; [reflexivity|]. split; [reflexivity|]. split; [reflexivity|].
  split; [reflexivity|]. intros [message H]. discriminate H.
Qed.

(** *** View arguments and arguments of the same name *)

(** With a JSON object as body the view argument wins. *)
Lemma view_argument_over_json (r : Request) (d : gmap string JsonValue)
    (va : gmap string string) (param v : string) :
  request_arguments r = Ok (ArgsOfJson (JObject d)) ->
  view_args r = Some va ->
  va !! param = Some v ->
  _get_request_param param r = Ok (JString v).
Proof.
  intros Hargs Hva Hv.
  apply (get_request_param_found r (MappingDict ((JString <$> va) ∪ d))).
  - unfold merged_arguments. by rewrite Hargs, Hva.
  - cbn [Mapping_get]. apply lookup_union_Some_l. by rewrite lookup_fmap, Hv.
Qed.

(** With query arguments the first value of the query string wins,
    whatever the view arguments hold. *)
Lemma query_value_over_view_argument (r : Request) (d : MultiDict) (param q : string) :
  request_arguments r = Ok (ArgsOfQuery d) ->
  MultiDict_get param d = Some q ->
  _get_request_param param r = Ok (JString q).
Proof.
  intros Hargs Hq.
  apply (get_request_param_found r
           (MappingMultiDict (MultiDict_or d (default ∅ (view_args r))))).
  - unfold merged_arguments. by rewrite Hargs.
  - cbn [Mapping_get]. by rewrite MultiDict_get_or, Hq.
Qed.

(** C10: on a GET for the logged model m-1 whose query string names the
    model m-2, [_get_request_param] returns the value of the query
    string and not that of the path; with the same two values in the
    path and in the JSON body of a PATCH it returns the value of the
    path. *)
Theorem query_value_hides_view_argument :
  let va : gmap string string := {[ "model_id" := "m-1" ]} in
  let get := logged_model_request in
  let patch :=
    with_json (Some (JObject {[ "model_id" := JString "m-2" ]}))
      (with_method "PATCH" get) in
  method get = "GET" /\
  MultiDict_get "model_id" (args get) = Some "m-2" /\
  view_args get = Some va /\ view_args patch = Some va /\
  va !! "model_id" = Some "m-1" /\
  _get_request_param "model_id" get = Ok (JString "m-2") /\
  _get_request_param "model_id" patch = Ok (JString "m-1").
Proof.
  intros va get patch. split; [reflexivity|]. split; [reflexivity|].
  split; [reflexivity|]. split; [reflexivity|]. split; [reflexivity|]. split.
  - by apply (query_value_over_view_argument get (args get)).
  - by apply (view_argument_over_json patch {[ "model_id" := JString "m-2" ]} va).
Qed.

(** ** The default permission *)

Section DefaultPermission.
Variable auth_config : AuthConfig.

(** C3: when the lookup in the store fails with RESOURCE_DOES_NOT_EXIST the
    permission handed to the validator is the configured default one, and
    a store error with any other code leaves the function as it came. *)
Theorem store_or_default_on_error (store_permission_func : M string) (w w' : World)
    (message : string) (code : ErrorCode) :
  store_permission_func w = (Raise (MlflowException message code), w') ->
  (code = RESOURCE_DOES_NOT_EXIST ->
     _get_permission_from_store_or_default auth_config store_permission_func w
       = (get_permission (default_permission auth_config), w')) /\
  (code <> RESOURCE_DOES_NOT_EXIST ->
     _get_permission_from_store_or_default auth_config store_permission_func w
       = (Raise (MlflowException message code), w')).
Proof.
  intros Hf. unfold _get_permission_from_store_or_default, bind, try_except_mlflow.
  rewrite Hf. split; intros Hc.
  - subst code. destruct (decide _); [|done]. reflexivity.
  - destruct (decide _); [done|]. reflexivity.
Qed.

Lemma store_or_default_granted (store_permission_func : M string) (w w' : World)
    (permission : string) :
  store_permission_func w = (Ok permission, w') ->
  _get_permission_from_store_or_default auth_config store_permission_func w
    = (get_permission permission, w').
Proof.
  intros Hf. unfold _get_permission_from_store_or_default, bind, try_except_mlflow.
  rewrite Hf. reflexivity.
Qed.

End DefaultPermission.

Lemma store_or_default_on_error_witness :
  let w := example_world None 0 [] in
  let f := experiment_permission_of "7" (Some (PStr "alice")) in
  f w = (Raise (MlflowException "Experiment permission not found" RESOURCE_DOES_NOT_EXIST), w) /\
  _get_permission_from_store_or_default (session_auth_config None) f w = (Ok READ, w).
Proof.
  intros w f. split; [reflexivity|].
  apply (store_or_default_on_error (session_auth_config None) f w w
           "Experiment permission not found" RESOURCE_DOES_NOT_EXIST);
    reflexivity.
Defined.

(** ** Session authentication *)

Section SessionAuthentication.
Variable auth_config : AuthConfig.

Lemma session_with_login_time (r : Request) (w : World) (username user_id : pyval)
    (T D : Z) :
  session w !! "username" = Some username ->
  session w !! "user_id" = Some user_id ->
  session w !! "login_time" = Some (PTime T) ->
  default (PInt 86400) (session_config auth_config !! "PERMANENT_SESSION_LIFETIME") = PInt D ->
  authenticate_request_session auth_config r w =
    if bool_decide (now w - T > D * 1000000)
    then (Ok (IsResponse (_handle_unauthenticated_request r)), set_session ∅ w)
    else (Ok (session_identity w username user_id), w).
Proof.
  intros Hu Hi Ht HD.
  unfold authenticate_request_session, bind, session_contains, session_item,
    session_get, session_clear, datetime_now, lift, ret.
  repeat (first [rewrite Hu | rewrite Hi | rewrite Ht | rewrite HD]; cbn).
  destruct (bool_decide (now w - T > D * 1000000)); [done|].
  cbn. by rewrite Hu, Hi.
Qed.


(** C9: a session with [username] and [user_id] but without [login_time]
    authenticates with no look at the clock. *)
Theorem session_without_login_time (r : Request) (w : World) (username user_id : pyval) :
  session w !! "username" = Some username ->
  session w !! "user_id" = Some user_id ->
  session w !! "login_time" = None ->
  authenticate_request_session auth_config r w
    = (Ok (session_identity w username user_id), w).
Proof.
  intros Hu Hi Ht.
  unfold authenticate_request_session, bind, session_contains, session_item,
    session_get, session_clear, datetime_now, lift, ret.
  repeat (first [rewrite Hu | rewrite Hi | rewrite Ht]; cbn). reflexivity.
Qed.

End SessionAuthentication.


Lemma session_without_login_time_witness :
  let cfg := session_auth_config (Some 3600) in
  let w := example_world None 999999999999999 [] in
  session w !! "username" = Some (PStr "alice") /\
  session w !! "user_id" = Some (PInt 2) /\
  session w !! "login_time" = None /\
  authenticate_request_session cfg example_request w
    = (Ok (session_identity w (PStr "alice") (PInt 2)), w).
Proof.
  intros cfg w. split; [reflexivity|]. split; [reflexivity|]. split; [reflexivity|].
  apply (session_without_login_time cfg example_request w (PStr "alice") (PInt 2));
    reflexivity.
Defined.

(** ** The response for the unauthenticated *)

Lemma lookup_location_redirect (location : string) :
  headers (redirect location) !! "Location" = Some location.
Proof. unfold redirect. cbn. by rewrite lookup_insert_eq. Qed.

(** The post-login target that the redirect of a request carries. *)
Lemma unauthenticated_html (r : Request) :
  str_contains "text/html" (default "" (req_headers r !! "Accept")) = true ->
  _handle_unauthenticated_request r =
    redirect (if decide (method r = "GET")
              then (if decide (url r = "") then LOGIN else LOGIN +:+ "?next=" +:+ url r)
              else LOGIN).
Proof.
  intros H. unfold _handle_unauthenticated_request. rewrite H.
  by destruct (decide (method r = "GET")).
Qed.

Lemma handle_unauthenticated_request_response (r : Request) :
  url r <> "" ->
  let resp := _handle_unauthenticated_request r in
  let html := str_contains "text/html" (default "" (req_headers r !! "Accept")) in
  (html = true -> method r = "GET" ->
     status_code resp = 302 /\
     headers resp !! "Location" = Some (LOGIN +:+ "?next=" +:+ url r)) /\
  (html = true -> method r <> "GET" ->
     status_code resp = 302 /\ headers resp !! "Location" = Some LOGIN) /\
  (html = false ->
     status_code resp = 401 /\ data resp = BText unauthenticated_text /\
     headers resp !! "WWW-Authenticate" = None).
Proof.
  intros Hurl resp html. subst resp html. split; [|split].
  - intros H Hm. rewrite (unauthenticated_html r H). split; [reflexivity|].
    rewrite lookup_location_redirect.
    destruct (decide (method r = "GET")); [|done]. by destruct (decide (url r = "")).
  - intros H Hm. rewrite (unauthenticated_html r H). split; [reflexivity|].
    rewrite lookup_location_redirect. by destruct (decide (method r = "GET")).
  - intros H. unfold _handle_unauthenticated_request. by rewrite H.
Qed.

Lemma session_failure_response (auth_config : AuthConfig) (r : Request) (w w' : World)
    (resp : Response) :
  authenticate_request_session auth_config r w = (Ok (IsResponse resp), w') ->
  resp = _handle_unauthenticated_request r.
Proof.
  unfold authenticate_request_session, bind, session_contains, session_item,
    session_get, session_clear, datetime_now, lift, ret.
  repeat (match goal with
          | |- context [match ?x with _ => _ end] => destruct x eqn:?
          | |- context [if ?x then _ else _] => destruct x eqn:?
          end; cbn);
    intros H; try discriminate H; congruence.
Qed.

Lemma basic_failure_response (r : Request) (w w' : World) (resp : Response) :
  authenticate_request_basic_auth r w = (Ok (IsResponse resp), w') ->
  resp = make_basic_auth_response.
Proof.
  unfold authenticate_request_basic_auth, bind, store.authenticate_user, ret.
  repeat (match goal with
          | |- context [match ?x with _ => _ end] => destruct x eqn:?
          | |- context [if ?x then _ else _] => destruct x eqn:?
          end; cbn);
    intros H; try discriminate H; congruence.
Qed.

(** C5, as the code has it: a request that fails the session authentication
    and accepts HTML is redirected to the login route, with its URL as the
    [next] target when its method is GET and with no target for any other
    method; one that does not accept HTML gets status 401, a text body and
    no WWW-Authenticate header.  A request that fails the basic
    authentication gets that 401 response whatever it accepts. *)
Theorem unauthenticated_response (auth_config : AuthConfig) (r : Request) (w w' : World)
    (resp : Response) :
  url r <> "" ->
  let html := str_contains "text/html" (default "" (req_headers r !! "Accept")) in
  (authenticate_request_session auth_config r w = (Ok (IsResponse resp), w') ->
     (html = true -> method r = "GET" ->
        status_code resp = 302 /\
        headers resp !! "Location" = Some (LOGIN +:+ "?next=" +:+ url r)) /\
     (html = true -> method r <> "GET" ->
        status_code resp = 302 /\ headers resp !! "Location" = Some LOGIN) /\
     (html = false ->
        status_code resp = 401 /\ data resp = BText unauthenticated_text /\
        headers resp !! "WWW-Authenticate" = None)) /\
  (authenticate_request_basic_auth r w = (Ok (IsResponse resp), w') ->
     status_code resp = 401 /\ data resp = BText unauthenticated_text /\
     headers resp !! "WWW-Authenticate" = None).
Proof.
  intros Hurl html. split.
  - intros H. rewrite (session_failure_response auth_config r w w' resp H).
    by apply handle_unauthenticated_request_response.
  - intros H. by rewrite (basic_failure_response r w w' resp H).
Qed.

Lemma unauthenticated_response_witness :
  let r := with_accept "text/html,application/xhtml+xml" example_request in
  let w := set_session ∅ (example_world None 0 []) in
  let resp := _handle_unauthenticated_request r in
  url r <> "" /\
  authenticate_request_session (session_auth_config None) r w = (Ok (IsResponse resp), w) /\
  str_contains "text/html" (default "" (req_headers r !! "Accept")) = true /\
  method r = "GET" /\
  status_code resp = 302 /\
  headers resp !! "Location" = Some (LOGIN +:+ "?next=" +:+ url r).
Proof.
  intros r w resp. split; [discriminate|]. split; [reflexivity|].
  split; [reflexivity|]. split; [reflexivity|].
  apply (unauthenticated_response (session_auth_config None) r w w resp);
    [discriminate|reflexivity|reflexivity|reflexivity].
Defined.

(** A POST that accepts HTML and fails the session authentication is sent
    to the login route without its URL, and a request that accepts HTML and
    fails the basic authentication is not redirected. *)
Lemma html_request_without_login_target :
  let r := with_accept "text/html" (with_method "POST" example_request) in
  let w := set_session ∅ (example_world None 0 []) in
  str_contains "text/html" (default "" (req_headers r !! "Accept")) = true /\
  (exists resp,
     authenticate_request_session (session_auth_config None) r w = (Ok (IsResponse resp), w) /\
     headers resp !! "Location" = Some "/login" /\
     headers resp !! "Location" <> Some (LOGIN +:+ "?next=" +:+ url r)) /\
  (exists resp,
     authenticate_request_basic_auth r w = (Ok (IsResponse resp), w) /\
     status_code resp = 401 /\ headers resp !! "Location" = None).
Proof.
  intros r w. split; [reflexivity|]. split.
  - eexists. split; [reflexivity|]. split; [reflexivity|]. discriminate.
  - eexists. split; [reflexivity|]. split; reflexivity.
Qed.

(** ** The before-request hook *)

Section BeforeRequest.
Variable auth_config : AuthConfig.
Variable _REST_API_PATH_PREFIX : string.
Variable before_request_endpoints : list (string * option Validator * list string).
Variable logged_model_endpoints : list (string * option Validator * list string).

Lemma first_logged_model_validator_none (r : Request)
    (d : list (list PatternItem * string * option Validator)) :
  (forall pat method' v, (pat, method', v) ∈ d -> fullmatch pat (path r) = false) ->
  first_logged_model_validator r d = None.
Proof.
  intros H. unfold first_logged_model_validator.
  induction d as [|[[pat m] v] d IH]; [done|]. cbn [List.find].
  rewrite (H pat m v) by apply list_elem_of_here. cbn [andb].
  apply IH. intros pat' m' v' Hin. eapply H. apply list_elem_of_further, Hin.
Qed.

Lemma find_validator_none (r : Request) :
  (forall v, dict_get (path r, method r)
               (BEFORE_REQUEST_VALIDATORS auth_config _REST_API_PATH_PREFIX
                  before_request_endpoints) <> Some (Some v)) ->
  (forall pat method' v,
     (pat, method', v) ∈ LOGGED_MODEL_BEFORE_REQUEST_VALIDATORS logged_model_endpoints ->
     fullmatch pat (path r) = false) ->
  _find_validator auth_config _REST_API_PATH_PREFIX before_request_endpoints
    logged_model_endpoints r = None.
Proof.
  intros Hexact Hpat. unfold _find_validator.
  destruct (str_contains "/mlflow/logged-models" (path r)).
  - by apply first_logged_model_validator_none.
  - destruct (dict_get _ _) as [[v|]|] eqn:E; [|done|done]. by destruct (Hexact v).
Qed.

(** C1: a request off the unprotected routes, by a sender who authenticates
    and is not an administrator, passes the before-request hook with no
    early response when no validator is registered for its path and
    method, no pattern of the logged-model routes matches its path, and
    its path is not one of the artifact proxy. *)
Theorem unknown_route_is_allowed (r : Request) (w w1 w2 : World) (a : Authorization) :
  is_unprotected_route (path r) = false ->
  authenticate_request auth_config r w = (Ok (IsAuthorization a), w1) ->
  sender_is_admin auth_config r w1 = (Ok false, w2) ->
  (forall v, dict_get (path r, method r)
               (BEFORE_REQUEST_VALIDATORS auth_config _REST_API_PATH_PREFIX
                  before_request_endpoints) <> Some (Some v)) ->
  (forall pat method' v,
     (pat, method', v) ∈ LOGGED_MODEL_BEFORE_REQUEST_VALIDATORS logged_model_endpoints ->
     fullmatch pat (path r) = false) ->
  _is_proxy_artifact_path _REST_API_PATH_PREFIX (path r) = false ->
  _before_request auth_config _REST_API_PATH_PREFIX before_request_endpoints
    logged_model_endpoints r w = (Ok None, w2).
Proof.
  intros Hroute Hauth Hadmin Hexact Hpat Hproxy.
  unfold _before_request, catch_mlflow_exception, try_except_mlflow, _before_request_body.
  rewrite Hroute. unfold bind at 1. rewrite Hauth. unfold bind at 1. rewrite Hadmin.
  rewrite (find_validator_none r Hexact Hpat), Hproxy. reflexivity.
Qed.

End BeforeRequest.

Lemma unknown_route_is_allowed_witness :
  let cfg := session_auth_config None in
  let r := with_path "/api/2.0/mlflow/gateway/unknown" example_request in
  let w := example_world None 0 [] in
  is_unprotected_route (path r) = false /\
  authenticate_request cfg r w
    = (Ok (session_identity w (PStr "alice") (PInt 2)), w) /\
  sender_is_admin cfg r w = (Ok false, w) /\
  _is_proxy_artifact_path "/api/2.0" (path r) = false /\
  _before_request cfg "/api/2.0" example_before_request_endpoints
    example_logged_model_endpoints r w = (Ok None, w).
Proof.
  intros cfg r w. split; [reflexivity|]. split; [reflexivity|].
  split; [reflexivity|]. split; [reflexivity|].
  eapply (unknown_route_is_allowed cfg "/api/2.0" example_before_request_endpoints
            example_logged_model_endpoints r w w w).
  - reflexivity.
  - reflexivity.
  - reflexivity.
  - intros v. vm_compute. discriminate.
  - intros pat m v Hin. vm_compute in Hin.
    repeat (apply elem_of_cons in Hin as [Hin|Hin]; [by inversion Hin|]).
    by apply elem_of_nil in Hin.
  - reflexivity.
Defined.

(** ** The artifact proxy *)

Section ArtifactProxy.
Variable auth_config : AuthConfig.

Lemma span_digits_app (digits rest : string) :
  (forall c, contains_char c digits = true -> is_digit c = true) ->
  span_digits (digits +:+ String "/" rest) = (digits, String "/" rest).
Proof.
  induction digits as [|c digits IH]; intros H; [reflexivity|].
  change (String c digits +:+ String "/" rest)
    with (String c (digits +:+ String "/" rest)).
  cbn [span_digits]. rewrite (H c).
  - rewrite IH; [done|]. intros d Hd. apply H. cbn [contains_char]. rewrite Hd.
    apply orb_true_r.
  - cbn [contains_char]. by rewrite bool_decide_eq_true_2.
Qed.

(** The experiment of an artifact path is its leading run of digits. *)
Lemma experiment_id_of_artifact_path (r : Request) (va : gmap string string)
    (c : ascii) (digits rest : string) :
  view_args r = Some va ->
  va !! "artifact_path" = Some (String c digits +:+ String "/" rest) ->
  (forall d, contains_char d (String c digits) = true -> is_digit d = true) ->
  _get_experiment_id_from_view_args r = Ok (Some (String c digits)).
Proof.
  intros Hva Hp Hd. unfold _get_experiment_id_from_view_args. rewrite Hva, Hp.
  destruct (decide _) as [E|_]; [discriminate E|].
  unfold _EXPERIMENT_ID_PATTERN_match. by rewrite (span_digits_app _ _ Hd).
Qed.

(** With view arguments that name no experiment, the permission is the
    configured default one. *)
Lemma artifact_proxy_default (r : Request) (va : gmap string string) (w : World) :
  view_args r = Some va ->
  _get_experiment_id_from_view_args r = Ok None ->
  _get_permission_from_experiment_id_artifact_proxy auth_config r w
    = (get_permission (default_permission auth_config), w).
Proof.
  intros _ H. unfold _get_permission_from_experiment_id_artifact_proxy, bind, lift.
  by rewrite H.
Qed.

(** The capability asked of each method: reading for GET, updating for
    PUT, managing for DELETE. *)
Lemma proxy_artifact_validator_of_method (va : gmap string string) :
  _get_proxy_artifact_validator auth_config "GET" (Some va)
    = Some (validate_can_read_experiment_artifact_proxy auth_config) /\
  _get_proxy_artifact_validator auth_config "PUT" (Some va)
    = Some (validate_can_update_experiment_artifact_proxy auth_config) /\
  _get_proxy_artifact_validator auth_config "DELETE" (Some va)
    = Some (validate_can_delete_experiment_artifact_proxy auth_config) /\
  (forall method, _get_proxy_artifact_validator auth_config method None
    = Some (validate_can_read_experiment_artifact_proxy auth_config)).
Proof. done. Qed.

Lemma delete_artifact_needs_manage (r : Request) (w w' : World) (p : Permission) :
  _get_permission_from_experiment_id_artifact_proxy auth_config r w = (Ok p, w') ->
  validate_can_delete_experiment_artifact_proxy auth_config r w = (Ok (can_manage p), w').
Proof.
  intros H. unfold validate_can_delete_experiment_artifact_proxy, bind. by rewrite H.
Qed.

(** Without view arguments every validator of the artifact proxy raises. *)
Lemma artifact_proxy_without_view_args (r : Request) (w : World) :
  view_args r = None ->
  _get_permission_from_experiment_id_artifact_proxy auth_config r w
    = (Raise (AttributeError "'NoneType' object has no attribute 'get'"), w).
Proof.
  intros H.
  unfold _get_permission_from_experiment_id_artifact_proxy, bind, lift,
    _get_experiment_id_from_view_args.
  by rewrite H.
Qed.

End ArtifactProxy.

(** C6, at a request of the artifact proxy that has no view arguments: the
    validator that [_get_proxy_artifact_validator] selects does not fall
    back to the default permission, it raises, and the exception leaves
    the before-request hook. *)
Theorem artifact_proxy_request_without_view_args_raises :
  let cfg := session_auth_config None in
  let r := artifact_request "DELETE" None in
  let w := example_world None 0 [] in
  _is_proxy_artifact_path "/api/2.0" (path r) = true /\
  _get_proxy_artifact_validator cfg (method r) (view_args r)
    = Some (validate_can_read_experiment_artifact_proxy cfg) /\
  validate_can_read_experiment_artifact_proxy cfg r w
    = (Raise (AttributeError "'NoneType' object has no attribute 'get'"), w) /\
  _before_request cfg "/api/2.0" example_before_request_endpoints
    example_logged_model_endpoints r w
    = (Raise (AttributeError "'NoneType' object has no attribute 'get'"), w).
Proof. intros cfg r w. repeat split; reflexivity. Qed.

(** ** Grant on create *)

Section GrantOnCreate.
Variable auth_config : AuthConfig.
Variable after_request_endpoints : list (string * option AfterHandler * list string).

Lemma find_experiment_permission_app (experiment_id u permission : string)
    (l : list ExperimentPermission) :
  store.find_experiment_permission experiment_id (Some (PStr u)) l = None ->
  store.find_experiment_permission experiment_id (Some (PStr u))
    (l ++ [Build_ExperimentPermission experiment_id u permission])
  = Some (Build_ExperimentPermission experiment_id u permission).
Proof.
  unfold store.find_experiment_permission. induction l as [|p l IH]; cbn [List.find app].
  - intros _. cbn [ep_experiment_id ep_username is_string]. unfold is_username.
    by rewrite !bool_decide_eq_true_2.
  - destruct (_ && _); [done|]. exact IH.
Qed.

(** C7, as the code has it: after a successful CreateExperiment by a sender
    U for whom the store holds no grant on the new experiment yet, the
    after-request hook has stored a MANAGE grant for the experiment and U,
    and the permission of U on the experiment is MANAGE.  When the store
    holds a grant for the two already, the creation fails, the hook
    answers with the error and the grant stays as it is. *)
Theorem creator_gets_manage (r : Request) (resp : Response) (w w1 : World)
    (a : Authorization) (u experiment_id : string) :
  ~ (400 <= status_code resp < 600) ->
  dict_get (path r, method r) (AFTER_REQUEST_HANDLERS after_request_endpoints)
    = Some (set_can_manage_experiment_permission auth_config) ->
  data resp = BCreateExperiment experiment_id ->
  authenticate_request auth_config r w = (Ok (IsAuthorization a), w1) ->
  parameters a !! "username" = Some (PStr u) ->
  (store.find_experiment_permission experiment_id (Some (PStr u))
     (experiment_permissions w1) = None ->
   exists w',
     _after_request after_request_endpoints resp r w = (Ok resp, w') /\
     experiment_permissions w'
       = experiment_permissions w1
         ++ [Build_ExperimentPermission experiment_id u "MANAGE"] /\
     _get_permission_from_store_or_default auth_config
       (experiment_permission_of experiment_id (Some (PStr u))) w' = (Ok MANAGE, w')) /\
  (forall p,
     store.find_experiment_permission experiment_id (Some (PStr u))
       (experiment_permissions w1) = Some p ->
     exists error_response,
       _after_request after_request_endpoints resp r w = (Ok error_response, w1) /\
       status_code error_response = 400 /\
       _get_permission_from_store_or_default auth_config
         (experiment_permission_of experiment_id (Some (PStr u))) w1
         = (get_permission (ep_permission p), w1)).
Proof.
  intros Hstatus Hhandler Hdata Hauth Hu.
  assert (bool_decide (400 <= status_code resp) && bool_decide (status_code resp < 600)
          = false) as Hok.
  { apply andb_false_iff.
    destruct (decide (400 <= status_code resp)) as [H1|H1];
      [right|left]; apply bool_decide_eq_false; lia. }
  split.
  - intros Hfresh. eexists. split; [|split].
    + unfold _after_request, catch_mlflow_exception, try_except_mlflow.
      rewrite Hok, Hhandler.
      unfold set_can_manage_experiment_permission, created_experiment_id, bind, lift.
      rewrite Hdata, Hauth. cbn [_get_username_from_auth]. rewrite Hu.
      unfold store.create_experiment_permission. rewrite Hfresh. reflexivity.
    + reflexivity.
    + unfold _get_permission_from_store_or_default, experiment_permission_of, bind,
        try_except_mlflow, store.get_experiment_permission.
      cbn [experiment_permissions set_experiment_permissions].
      rewrite (find_experiment_permission_app _ _ _ _ Hfresh). reflexivity.
  - intros p Hp. eexists. split; [|split].
    + unfold _after_request, catch_mlflow_exception, try_except_mlflow.
      rewrite Hok, Hhandler.
      unfold set_can_manage_experiment_permission, created_experiment_id, bind, lift.
      rewrite Hdata, Hauth. cbn [_get_username_from_auth]. rewrite Hu.
      unfold store.create_experiment_permission. rewrite Hp. reflexivity.
    + reflexivity.
    + unfold _get_permission_from_store_or_default, experiment_permission_of, bind,
        try_except_mlflow, store.get_experiment_permission.
      rewrite Hp. reflexivity.
Qed.

End GrantOnCreate.

Lemma creator_gets_manage_witness :
  let cfg := session_auth_config None in
  let r := create_experiment_request in
  let resp := created_response "7" in
  let w := example_world None 0 [] in
  ~ (400 <= status_code resp < 600) /\
  data resp = BCreateExperiment "7" /\
  authenticate_request cfg r w = (Ok (session_identity w (PStr "alice") (PInt 2)), w) /\
  store.find_experiment_permission "7" (Some (PStr "alice")) (experiment_permissions w)
    = None /\
  exists w',
    _after_request example_after_request_endpoints resp r w = (Ok resp, w') /\
    experiment_permissions w'
      = experiment_permissions w ++ [Build_ExperimentPermission "7" "alice" "MANAGE"] /\
    _get_permission_from_store_or_default cfg
      (experiment_permission_of "7" (Some (PStr "alice"))) w' = (Ok MANAGE, w').
Proof.
  intros cfg r resp w. split; [cbn; lia|]. split; [reflexivity|].
  split; [reflexivity|]. split; [reflexivity|].
  apply (creator_gets_manage cfg example_after_request_endpoints r resp w w
           {| auth_type := "session";
              parameters :=
                <["username" := PStr "alice"]>
                  (<["user_id" := PInt 2]> {[ "is_admin" := PBool false ]}) |}
           "alice" "7");
    [cbn; lia|reflexivity|reflexivity|reflexivity|reflexivity|reflexivity].
Defined.

(** A sender who holds a READ grant on the identifier of the experiment
    that is created keeps it: the creation of the MANAGE grant fails, and
    the hook answers with the error. *)
Lemma creator_with_a_grant_keeps_it :
  let cfg := session_auth_config None in
  let r := create_experiment_request in
  let resp := created_response "7" in
  let w := example_world None 0 [Build_ExperimentPermission "7" "alice" "READ"] in
  ~ (400 <= status_code resp < 600) /\
  dict_get (path r, method r) (AFTER_REQUEST_HANDLERS example_after_request_endpoints)
    = Some (set_can_manage_experiment_permission cfg) /\
  authenticate_request cfg r w = (Ok (session_identity w (PStr "alice") (PInt 2)), w) /\
  exists error_response,
    _after_request example_after_request_endpoints resp r w = (Ok error_response, w) /\
    status_code error_response = 400 /\
    _get_permission_from_store_or_default cfg
      (experiment_permission_of "7" (Some (PStr "alice"))) w = (Ok READ, w) /\
    READ <> MANAGE.
Proof.
  intros cfg r resp w. split; [cbn; lia|]. split; [reflexivity|]. split; [reflexivity|].
  eexists. split; [reflexivity|]. split; [reflexivity|]. split; [reflexivity|].
  discriminate.
Qed.

(** ** Filter on search *)

Section SearchFilter.
Variable upstream : list Experiment.
Variable readable : Experiment -> bool.
Variable max_results : nat.

Local Abbreviation P := (fun e : Experiment => readable e = true).

Lemma backfill_step (experiments : list Experiment) (offset : nat) :
  backfill upstream readable max_results experiments offset =
    if bool_decide (length experiments < max_results)%nat then
      match take (max_results - length experiments)
              (search_experiments upstream max_results (Some offset)).1 with
      | [] => (experiments, None)
      | x :: l =>
          backfill upstream readable max_results
            (experiments ++ filter P (x :: l)) (offset + length (x :: l))%nat
      end
    else (experiments, Some offset).
Proof.
  simp backfill.
  destruct (inspect (bool_decide (length experiments < max_results)%nat)) as [b e].
  pose proof e as e'. destruct b; simp backfill; rewrite e'; [|reflexivity].
  destruct (inspect (take (max_results - length experiments)
              (search_experiments upstream max_results (Some offset)).1)) as [batch e2].
  pose proof e2 as e2'. destruct batch as [|x l].
  - simp backfill. by rewrite e2'.
  - transitivity (backfill upstream readable max_results
                    (experiments ++ filter P (x :: l)) (offset + length (x :: l))%nat);
      [reflexivity|]. by rewrite e2'.
Qed.

Lemma take_min_length {A} (n : nat) (l : list A) : take (n `min` length l) l = take n l.
Proof.
  destruct (le_lt_dec n (length l)) as [H|H].
  - by rewrite Nat.min_l.
  - rewrite Nat.min_r by lia. rewrite !take_ge; [done|lia|done].
Qed.

Lemma refetched_batch (k offset : nat) (batch : list Experiment) :
  take k (search_experiments upstream max_results (Some offset)).1 = batch ->
  batch = take (length batch) (drop offset upstream) /\
  (length batch <= k)%nat /\ (length batch <= length upstream - offset)%nat.
Proof.
  unfold search_experiments. cbn [fst default]. unfold id. rewrite take_take. intros <-.
  split; [by rewrite length_take, take_min_length|].
  rewrite length_take, length_drop. lia.
Qed.

Lemma refetched_nothing (k offset : nat) :
  (0 < k)%nat -> (0 < max_results)%nat ->
  take k (search_experiments upstream max_results (Some offset)).1 = [] ->
  (length upstream <= offset)%nat.
Proof.
  intros Hk Hm H. apply (f_equal length) in H. revert H.
  unfold search_experiments. cbn [fst default length]. unfold id.
  rewrite !length_take, length_drop. lia.
Qed.

(** What the loop has read when it ends: the experiments from the offset
    of its token up to the offset [offset'] of the token it leaves, or up
    to the end of the listing when it leaves none. *)
Lemma backfill_consumes (n : nat) :
  forall (experiments : list Experiment) (offset : nat),
    (length upstream - offset <= n)%nat ->
    (0 < max_results)%nat ->
    (offset <= length upstream)%nat ->
    (length experiments <= max_results)%nat ->
    exists (offset' : nat) (token : option nat),
      backfill upstream readable max_results experiments offset
        = (experiments ++ filter P (take (offset' - offset) (drop offset upstream)), token) /\
      (offset <= offset' <= length upstream)%nat /\
      (length (experiments ++ filter P (take (offset' - offset) (drop offset upstream)))
         <= max_results)%nat /\
      (token = Some offset' \/ token = None /\ offset' = length upstream).
Proof.
  induction n as [n IH] using lt_wf_ind. intros experiments offset Hn Hm Hoff Hlen.
  rewrite backfill_step. case_bool_decide as Hlt.
  - destruct (take _ _) as [|x l] eqn:Hbatch.
    + apply refetched_nothing in Hbatch; [|lia|lia].
      exists offset, None. rewrite Nat.sub_diag, take_0, filter_nil, app_nil_r.
      repeat split; try lia. right. split; [done|lia].
    + destruct (refetched_batch _ _ _ Hbatch) as (Hb & Hk & Hup).
      set (batch := x :: l) in *.
      assert (1 <= length batch)%nat as Hpos by (unfold batch; cbn; lia).
      destruct (IH (length upstream - (offset + length batch))%nat ltac:(lia)
                  (experiments ++ filter P batch) (offset + length batch)%nat)
        as (offset' & token & Hrun & Hrange & Hbound & Htoken); try lia.
      { rewrite length_app. pose proof (length_filter P batch). lia. }
      exists offset', token.
      assert (take (offset' - offset) (drop offset upstream)
              = batch ++ take (offset' - (offset + length batch))
                           (drop (offset + length batch) upstream)) as Hsplit.
      { rewrite <- drop_drop.
        transitivity (take (length batch) (drop offset upstream)
                      ++ take (offset' - (offset + length batch))
                           (drop (length batch) (drop offset upstream)));
          [|by rewrite <- Hb].
        rewrite take_take_drop. f_equal. lia. }
      rewrite Hsplit, filter_app, app_assoc. rewrite <- app_assoc in Hbound.
      rewrite <- app_assoc in Hrun. rewrite <- !app_assoc.
      repeat split; try done; lia.
  - exists offset, (Some offset). rewrite Nat.sub_diag, take_0, filter_nil, app_nil_r.
    repeat split; try lia. by left.
Qed.

(** The loop leaves a token only with a full page. *)
Lemma backfill_leaves_token_when_full (n : nat) :
  forall (experiments result : list Experiment) (offset offset' : nat),
    (length upstream - offset <= n)%nat ->
    backfill upstream readable max_results experiments offset = (result, Some offset') ->
    (max_results <= length result)%nat.
Proof.
  induction n as [n IH] using lt_wf_ind. intros experiments result offset offset' Hn.
  rewrite backfill_step. case_bool_decide as Hlt.
  - destruct (take _ _) as [|x l] eqn:Hbatch; [done|].
    destruct (refetched_batch _ _ _ Hbatch) as (_ & _ & Hup). cbn [length] in Hup.
    apply (IH (length upstream - (offset + length (x :: l)))%nat); cbn [length]; lia.
  - intros [= <- _]. lia.
Qed.

Lemma list_remove_middle (e : Experiment) (before after : list Experiment) :
  Forall (fun x => x <> e) before ->
  list_remove e (before ++ e :: after) = before ++ after.
Proof.
  induction 1 as [|x before Hx _ IH]; cbn [list_remove app].
  - by rewrite decide_True.
  - by rewrite decide_False, IH.
Qed.

Lemma remove_unreadable_from (kept rest : list Experiment) :
  Forall P kept ->
  fold_left (fun acc e => if readable e then acc else list_remove e acc) rest (kept ++ rest)
    = kept ++ filter P rest.
Proof.
  revert kept. induction rest as [|e rest IH]; intros kept Hkept; [done|].
  cbn [fold_left]. destruct (readable e) eqn:He.
  - rewrite filter_cons_True by done.
    rewrite (cons_middle e kept rest), app_assoc, IH, <- app_assoc; [done|].
    apply Forall_app. split; [done|]. by apply Forall_singleton.
  - rewrite filter_cons_False by congruence.
    rewrite list_remove_middle; [by apply IH|].
    eapply Forall_impl; [exact Hkept|]. intros x Hx ->. cbn in Hx. congruence.
Qed.

(** The removal of the unreadable experiments from the page is a filter. *)
Lemma remove_unreadable_filter (l : list Experiment) :
  remove_unreadable readable l = filter P l.
Proof. apply (remove_unreadable_from [] l). constructor. Qed.

(** One page of the filtered search: what it holds and where its token
    points. *)
Lemma filtered_page (page_token : option nat) :
  let offset := default 0%nat page_token in
  (0 < max_results)%nat ->
  (offset <= length upstream)%nat ->
  exists (offset' : nat) (token : option nat),
    filter_and_backfill upstream readable max_results
      (search_experiments upstream max_results page_token)
      = (filter P (take (offset' - offset) (drop offset upstream)), token) /\
    (offset <= offset' <= length upstream)%nat /\
    (length (filter P (take (offset' - offset) (drop offset upstream))) <= max_results)%nat /\
    (token = Some offset' /\ (offset < offset')%nat
     \/ token = None /\ offset' = length upstream).
Proof.
  intros offset Hm Hoff. unfold filter_and_backfill, search_experiments.
  fold offset. cbn [fst snd]. rewrite remove_unreadable_filter.
  case_bool_decide as Hmore; cbn [refill].
  - destruct (backfill_consumes (length upstream - (offset + max_results))%nat
                (filter P (take max_results (drop offset upstream)))
                (offset + max_results)%nat)
      as (offset' & token & Hrun & Hrange & Hbound & Htoken); try lia.
    { pose proof (length_filter P (take max_results (drop offset upstream))).
      rewrite length_take in *. lia. }
    assert (take (offset' - offset) (drop offset upstream)
            = take max_results (drop offset upstream)
              ++ take (offset' - (offset + max_results))
                   (drop (offset + max_results) upstream)) as Hsplit.
    { rewrite <- drop_drop, take_take_drop. f_equal. lia. }
    exists offset', token. rewrite Hsplit, filter_app.
    repeat split; try done; try lia.
    destruct Htoken as [->|[-> ->]]; [left|right]; split; try done; lia.
  - exists (length upstream), None.
    rewrite (take_ge (drop offset upstream) max_results)
      by (rewrite length_drop; lia).
    rewrite (take_ge (drop offset upstream) (length upstream - offset))
      by (rewrite length_drop; lia).
    repeat split; try done; try lia.
    + pose proof (length_filter P (drop offset upstream)). rewrite length_drop in *. lia.
    + by right.
Qed.

(** The pages of a client that follows the tokens, put end to end. *)
Lemma all_pages_from (fuel : nat) :
  forall page_token : option nat,
    let offset := default 0%nat page_token in
    (0 < max_results)%nat ->
    (offset <= length upstream)%nat ->
    (length upstream - offset < fuel)%nat ->
    all_pages fuel upstream readable max_results page_token
      = Some (filter P (drop offset upstream)).
Proof.
  induction fuel as [|fuel IH]; intros page_token offset Hm Hoff Hfuel; [lia|].
  cbn [all_pages].
  destruct (filtered_page page_token Hm Hoff)
    as (offset' & token & -> & Hrange & _ & [[-> Hlt]|[-> ->]]).
  - fold offset in Hlt, Hrange |- *.
    rewrite (IH (Some offset')) by (simpl; lia). change (default 0%nat (Some offset')) with offset'.
    rewrite <- filter_app. do 2 f_equal.
    replace offset' with (offset + (offset' - offset))%nat at 2 by lia.
    rewrite <- drop_drop. apply take_drop.
  - fold offset. f_equal. f_equal. apply take_ge. rewrite length_drop. lia.
Qed.

End SearchFilter.

(** The handler computes its page with [filter_and_backfill]. *)
Lemma filter_search_experiments_run (auth_config : AuthConfig) (resp : Response)
    (r : Request) (w : World) (a : Authorization) (page : list Experiment * option nat)
    (can_read : gmap string bool) (default_can_read : bool) :
  sender_is_admin auth_config r w = (Ok false, w) ->
  authenticate_request auth_config r w = (Ok (IsAuthorization a), w) ->
  data resp = BSearchExperiments page.1 page.2 ->
  can_read_dict
    (List.filter (fun p => is_username (parameters a !! "username") (ep_username p))
       (experiment_permissions w)) = Ok can_read ->
  permission_can_read (default_permission auth_config) = Ok default_can_read ->
  filter_search_experiments auth_config resp r w =
    (Ok (set_data
           (BSearchExperiments
              (filter_and_backfill (tracking_experiments w)
                 (readable can_read default_can_read) (max_results r) page).1
              (filter_and_backfill (tracking_experiments w)
                 (readable can_read default_can_read) (max_results r) page).2)
           resp), w).
Proof.
  intros Hadmin Hauth Hdata Hdict Hdefault.
  unfold filter_search_experiments, bind. rewrite Hadmin.
  unfold searched_experiments, lift. rewrite Hdata, Hauth.
  cbn [_get_username_from_auth]. unfold store.list_experiment_permissions.
  rewrite Hdict, Hdefault. unfold get_world. destruct page as [experiments token].
  cbn [fst snd]. by destruct (filter_and_backfill _ _ _ _).
Qed.

(** The server answers a request of the search with the page of the
    store, filtered and filled up. *)
Lemma filtered_search_run (auth_config : AuthConfig) (r : Request) (w : World)
    (a : Authorization) (can_read : gmap string bool) (default_can_read : bool)
    (token : option nat) :
  sender_is_admin auth_config (with_page_token token r) w = (Ok false, w) ->
  authenticate_request auth_config (with_page_token token r) w
    = (Ok (IsAuthorization a), w) ->
  can_read_dict
    (List.filter (fun p => is_username (parameters a !! "username") (ep_username p))
       (experiment_permissions w)) = Ok can_read ->
  permission_can_read (default_permission auth_config) = Ok default_can_read ->
  exists resp,
    filtered_search auth_config (with_page_token token r) w = (Ok resp, w) /\
    data resp =
      BSearchExperiments
        (filter_and_backfill (tracking_experiments w) (readable can_read default_can_read)
           (max_results r)
           (search_experiments (tracking_experiments w) (max_results r) token)).1
        (filter_and_backfill (tracking_experiments w) (readable can_read default_can_read)
           (max_results r)
           (search_experiments (tracking_experiments w) (max_results r) token)).2.
Proof.
  intros Hadmin Hauth Hdict Hdefault.
  set (page := search_experiments (tracking_experiments w) (max_results r) token).
  set (resp0 := {| status_code := 200; data := BSearchExperiments page.1 page.2;
                   headers := {[ "Content-Type" := "application/json" ]} |}).
  assert (search_experiments_handler (with_page_token token r) w = (Ok resp0, w)) as Hstore
    by reflexivity.
  eexists. split.
  - unfold filtered_search, bind. rewrite Hstore.
    apply (filter_search_experiments_run auth_config resp0 _ w a page
             can_read default_can_read Hadmin Hauth eq_refl Hdict Hdefault).
  - reflexivity.
Qed.

(** The client of the server reads what the client of the loop reads. *)
Lemma search_all_pages (auth_config : AuthConfig) (r : Request) (w : World)
    (a : Authorization) (can_read : gmap string bool) (default_can_read : bool) :
  (forall token, sender_is_admin auth_config (with_page_token token r) w = (Ok false, w)) ->
  (forall token, authenticate_request auth_config (with_page_token token r) w
                 = (Ok (IsAuthorization a), w)) ->
  can_read_dict
    (List.filter (fun p => is_username (parameters a !! "username") (ep_username p))
       (experiment_permissions w)) = Ok can_read ->
  permission_can_read (default_permission auth_config) = Ok default_can_read ->
  forall (fuel : nat) (token : option nat),
    search_all auth_config fuel r token w
    = all_pages fuel (tracking_experiments w) (readable can_read default_can_read)
        (max_results r) token.
Proof.
  intros Hadmin Hauth Hdict Hdefault.
  induction fuel as [|fuel IH]; intros token; [done|]. cbn [search_all all_pages].
  destruct (filtered_search_run auth_config r w a can_read default_can_read token
              (Hadmin token) (Hauth token) Hdict Hdefault) as (resp & -> & ->).
  destruct (filter_and_backfill _ _ _ _) as [experiments [offset|]]; cbn [fst snd]; [|done].
  by rewrite IH.
Qed.

(** C2: for a sender who is not an administrator, the pages that the
    server answers, read by following the token of each response, are
    end to end the readable experiments of the listing of the store, in
    its order, none twice and none left out.  One response holds the
    readable experiments between the offset of its request and the
    offset of its token, which is the first one not consumed; with a
    token it holds exactly [max_results] experiments, and without one
    the rest of the listing, at most [max_results].
    [filter_search_experiments] drops the token of a response that has
    fewer than [max_results] readable experiments when the batch fetched
    with that token is empty. *)
Theorem filter_search_pagination (auth_config : AuthConfig) (r : Request) (w : World)
    (a : Authorization) (can_read : gmap string bool) (default_can_read : bool) :
  let upstream := tracking_experiments w in
  let is_readable := readable can_read default_can_read in
  (0 < max_results r)%nat ->
  (forall token, sender_is_admin auth_config (with_page_token token r) w = (Ok false, w)) ->
  (forall token, authenticate_request auth_config (with_page_token token r) w
                 = (Ok (IsAuthorization a), w)) ->
  can_read_dict
    (List.filter (fun p => is_username (parameters a !! "username") (ep_username p))
       (experiment_permissions w)) = Ok can_read ->
  permission_can_read (default_permission auth_config) = Ok default_can_read ->
  search_all auth_config (S (length upstream)) r None w
    = Some (filter (fun e => is_readable e = true) upstream) /\
  (forall page_token : option nat,
     let offset := default 0%nat page_token in
     (offset <= length upstream)%nat ->
     exists (resp : Response) (offset' : nat) (token : option nat),
       filtered_search auth_config (with_page_token page_token r) w = (Ok resp, w) /\
       data resp =
         BSearchExperiments
           (filter (fun e => is_readable e = true)
              (take (offset' - offset) (drop offset upstream))) token /\
       (offset <= offset' <= length upstream)%nat /\
       (token = Some offset' /\ (offset < offset')%nat /\
        length (filter (fun e => is_readable e = true)
                  (take (offset' - offset) (drop offset upstream))) = max_results r
        \/ token = None /\ offset' = length upstream /\
           (length (filter (fun e => is_readable e = true)
                      (take (offset' - offset) (drop offset upstream)))
              <= max_results r)%nat)) /\
  (forall (resp : Response) (experiments : list Experiment) (offset : nat)
          (page_token : option nat),
     data resp = BSearchExperiments experiments (Some offset) ->
     (length (filter (fun e => is_readable e = true) experiments) < max_results r)%nat ->
     (search_experiments upstream (max_results r) (Some offset)).1 = [] ->
     filter_search_experiments auth_config resp (with_page_token page_token r) w
       = (Ok (set_data
                (BSearchExperiments (filter (fun e => is_readable e = true) experiments)
                   None) resp), w)).
Proof.
  intros upstream is_readable Hm Hadmin Hauth Hdict Hdefault. split; [|split].
  - rewrite (search_all_pages auth_config r w a can_read default_can_read
               Hadmin Hauth Hdict Hdefault).
    unfold upstream, is_readable.
    rewrite (all_pages_from (tracking_experiments w) (readable can_read default_can_read)
               (max_results r) (S (length (tracking_experiments w))) None);
      [done|done|cbn; lia|cbn; lia].
  - intros page_token offset Hoff.
    destruct (filtered_search_run auth_config r w a can_read default_can_read page_token
                (Hadmin page_token) (Hauth page_token) Hdict Hdefault)
      as (resp & Hrun & Hdata).
    destruct (filtered_page upstream is_readable (max_results r) page_token Hm Hoff)
      as (offset' & token & Hpage & Hrange & Hbound & Htoken).
    exists resp, offset', token. split; [exact Hrun|].
    fold upstream is_readable in Hdata. rewrite Hpage in Hdata. cbn [fst snd] in Hdata.
    split; [exact Hdata|]. split; [exact Hrange|].
    destruct Htoken as [[-> Hlt]|[-> ->]]; [left|right; done].
    split; [done|]. split; [done|]. apply Nat.le_antisymm; [exact Hbound|].
    revert Hpage. unfold filter_and_backfill, search_experiments. cbn [fst snd].
    case_bool_decide; cbn [refill]; [|done].
    intros Hpage.
    by apply (backfill_leaves_token_when_full upstream is_readable (max_results r)
                (length upstream) _ _ _ _ ltac:(lia) Hpage).
  - intros resp experiments offset page_token Hdata Hfew Hempty.
    rewrite (filter_search_experiments_run auth_config resp _ w a
               (experiments, Some offset) can_read default_can_read
               (Hadmin page_token) (Hauth page_token) Hdata Hdict Hdefault).
    cbn [max_results with_page_token]. fold upstream is_readable.
    unfold filter_and_backfill. cbn [fst snd refill].
    rewrite remove_unreadable_filter, backfill_step, Hempty, take_nil.
    by rewrite bool_decide_eq_true_2.
Qed.

Lemma filter_search_pagination_witness :
  let cfg := session_auth_config None in
  (0 < max_results search_request)%nat /\
  (forall token,
     sender_is_admin cfg (with_page_token token search_request) search_world
     = (Ok false, search_world)) /\
  can_read_dict
    (List.filter (fun p => is_username (Some (PStr "alice")) (ep_username p))
       (experiment_permissions search_world)) = Ok example_can_read /\
  search_all cfg 8 search_request None search_world
    = Some (map experiment ["2"; "4"; "5"; "7"]).
Proof.
  intros cfg. split; [cbn; lia|]. split; [reflexivity|]. split; [reflexivity|].
  exact (proj1 (filter_search_pagination cfg search_request search_world
                  {| auth_type := "session";
                     parameters :=
                       <["username" := PStr "alice"]>
                         (<["user_id" := PInt 2]> {[ "is_admin" := PBool false ]}) |}
                  example_can_read true
                  ltac:(cbn; lia) ltac:(reflexivity) ltac:(reflexivity)
                  ltac:(reflexivity) ltac:(reflexivity))).
Defined.

(** The scenario of section 8: alice searches with the default permission
    READ; of the two experiments she gets the one without a grant, and no
    token. *)
Example search_scenario :
  let cfg := session_auth_config None in
  exists resp,
    search_experiments_handler search_request scenario_world = (Ok resp, scenario_world) /\
    _after_request example_after_request_endpoints resp search_request scenario_world
      = (Ok (set_data (BSearchExperiments [experiment "2"] None) resp), scenario_world).
Proof. intros cfg. eexists. split; reflexivity. Qed.

(** * Further properties *)

(** ** Dictionaries *)

Lemma dict_get_set_eq {K V} `{EqDecision K} (k : K) (v : V) (d : list (K * V)) :
  dict_get k (dict_set k v d) = Some v.
Proof.
  induction d as [|[k' v'] d IH]; cbn [dict_set dict_get].
  - by rewrite decide_True.
  - destruct (decide (k' = k)) as [->|Hne]; cbn [dict_get].
    + by rewrite decide_True.
    + by rewrite decide_False.
Qed.

Lemma dict_get_set_ne {K V} `{EqDecision K} (k k' : K) (v : V) (d : list (K * V)) :
  k <> k' -> dict_get k (dict_set k' v d) = dict_get k d.
Proof.
  intros Hne. induction d as [|[k'' v''] d IH]; cbn [dict_set dict_get].
  - by rewrite decide_False.
  - destruct (decide (k'' = k')) as [->|Hne']; cbn [dict_get].
    + by rewrite !decide_False.
    + by rewrite IH.
Qed.

Lemma dict_get_methods {K V} `{EqDecision K} (k : K * string) (p : K) (h : V)
    (methods : list string) (d : list (K * string * V)) (v : V) :
  dict_get k (fold_left (fun d method => dict_set (p, method) h d) methods d) = Some v ->
  dict_get k d = Some v \/ k.1 = p /\ v = h.
Proof.
  revert d. induction methods as [|m methods IH]; intros d; cbn [fold_left]; [by left|].
  intros H. apply IH in H as [H|H]; [|by right].
  destruct (decide (k = (p, m))) as [->|Hne].
  - rewrite dict_get_set_eq in H. right. by inversion H.
  - rewrite dict_get_set_ne in H by done. by left.
Qed.

(** An entry of a table built from endpoints comes from an endpoint. *)
Lemma dict_of_endpoints_origin {K V} `{EqDecision K} (key : string -> K)
    (endpoints : list (string * V * list string)) (k : K * string) (v : V) :
  dict_get k (dict_of_endpoints key endpoints) = Some v ->
  exists http_path methods, (http_path, v, methods) ∈ endpoints /\ k.1 = key http_path.
Proof.
  unfold dict_of_endpoints.
  assert (forall d,
            dict_get k
              (fold_left
                 (fun d '(http_path, handler, methods) =>
                    fold_left (fun d method => dict_set (key http_path, method) handler d)
                      methods d)
                 endpoints d) = Some v ->
            dict_get k d = Some v \/
            exists http_path methods,
              (http_path, v, methods) ∈ endpoints /\ k.1 = key http_path) as Hgen.
  { induction endpoints as [|[[p h] ms] endpoints IH]; intros d; cbn [fold_left];
      [by left|].
    intros H. apply IH in H as [H|(p' & ms' & Hin & Hk)].
    - apply dict_get_methods in H as [H|[Hk ->]]; [by left|].
      right. exists p, ms. split; [apply list_elem_of_here|done].
    - right. exists p', ms'. split; [by apply list_elem_of_further|done]. }
  intros H. by destruct (Hgen [] H) as [Hnil|Hex].
Qed.

(** ** Strings *)

Lemma append_inv_head (p a b : string) : p +:+ a = p +:+ b -> a = b.
Proof.
  induction p as [|c p IH]; [done|].
  change (String c (p +:+ a) = String c (p +:+ b) -> a = b).
  intros H. inversion H. by apply IH.
Qed.

Lemma length_append (a b : string) :
  String.length (a +:+ b) = (String.length a + String.length b)%nat.
Proof.
  induction a as [|c a IH]; [done|].
  change (S (String.length (a +:+ b)) = S (String.length a + String.length b)).
  by rewrite IH.
Qed.

(** ** The before-request hook *)

Ltac different_keys :=
  let H := fresh in
  intros H;
  first [ discriminate (f_equal snd H)
        | apply (f_equal fst) in H; cbn [fst] in H;
          apply append_inv_head in H; discriminate H
        | apply (f_equal fst) in H; cbn [fst] in H;
          apply (f_equal String.length) in H; rewrite length_append in H;
          cbn in H; lia ].

Ltac lookup_fixed_validator :=
  unfold BEFORE_REQUEST_VALIDATORS, update, _get_rest_path; cbn [fold_left];
  repeat (rewrite dict_get_set_ne by different_keys);
  apply dict_get_set_eq.

Section BeforeRequestRoutes.
Variable auth_config : AuthConfig.
Variable prefix : string.
Variable before_request_endpoints : list (string * option Validator * list string).
Variable logged_model_endpoints : list (string * option Validator * list string).

Local Abbreviation validators :=
  (BEFORE_REQUEST_VALIDATORS auth_config prefix before_request_endpoints).
Local Abbreviation before_request :=
  (_before_request auth_config prefix before_request_endpoints logged_model_endpoints).
Local Abbreviation find_validator :=
  (_find_validator auth_config prefix before_request_endpoints logged_model_endpoints).

(** The entries that [BEFORE_REQUEST_VALIDATORS.update] writes stand
    whatever the endpoints of the server registered. *)
Lemma fixed_validators :
  dict_get (prefix +:+ "/mlflow/users/create", "POST") validators
    = Some (Some validate_can_create_user) /\
  dict_get (prefix +:+ "/mlflow/users/update-admin", "PATCH") validators
    = Some (Some validate_can_update_user_admin) /\
  dict_get (prefix +:+ "/mlflow/users/delete", "DELETE") validators
    = Some (Some validate_can_delete_user) /\
  dict_get (prefix +:+ "/mlflow/users/get", "GET") validators
    = Some (Some (validate_can_read_user auth_config)) /\
  dict_get (prefix +:+ "/mlflow/users/update-password", "PATCH") validators
    = Some (Some (validate_can_update_user_password auth_config)).
Proof. repeat split; lookup_fixed_validator. Qed.

Lemma fixed_experiment_permission_validators (suffix method' : string) :
  (suffix, method') ∈ [ ("get", "GET"); ("create", "POST"); ("update", "PATCH");
                        ("delete", "DELETE") ] ->
  dict_get (prefix +:+ "/mlflow/experiments/permissions/" +:+ suffix, method') validators
    = Some (Some (validate_can_manage_experiment auth_config)).
Proof.
  intros Hin. repeat (apply elem_of_cons in Hin as [Hin|Hin]; [inversion Hin; subst|]);
    [| | | |by apply elem_of_nil in Hin]; lookup_fixed_validator.
Qed.

(** The hook, once the sender is known not to be an administrator and the
    validator of the request is known. *)
Lemma before_request_with_validator (r : Request) (w w1 w2 : World) (a : Authorization)
    (validator : Validator) :
  is_unprotected_route (path r) = false ->
  authenticate_request auth_config r w = (Ok (IsAuthorization a), w1) ->
  sender_is_admin auth_config r w1 = (Ok false, w2) ->
  find_validator r = Some validator ->
  before_request r w =
    catch_mlflow_exception Some
      (let* ok := validator r in
       if ok then ret None else ret (Some make_forbidden_response)) w2.
Proof.
  intros Hroute Hauth Hadmin Hfind.
  unfold _before_request, catch_mlflow_exception, try_except_mlflow, _before_request_body.
  rewrite Hroute. unfold bind at 1. rewrite Hauth. unfold bind at 1. rewrite Hadmin.
  by rewrite Hfind.
Qed.

Lemma find_exact_validator (r : Request) (validator : Validator) :
  str_contains "/mlflow/logged-models" (path r) = false ->
  dict_get (path r, method r) validators = Some (Some validator) ->
  find_validator r = Some validator.
Proof. intros Hpath Hget. unfold _find_validator. by rewrite Hpath, Hget. Qed.

(** X1: the routes that start with /static, /favicon.ico or /health, and
    the login and signup routes, pass the hook with no authentication:
    the world is not read. *)
Theorem unprotected_route_passes (r : Request) (w : World) :
  (path r = LOGIN \/ path r = SIGNUP \/
   exists rest, path r = "/static" +:+ rest \/ path r = "/favicon.ico" +:+ rest
                \/ path r = "/health" +:+ rest) ->
  before_request r w = (Ok None, w).
Proof.
  intros H.
  assert (is_unprotected_route (path r) = true) as Hroute.
  { unfold is_unprotected_route, startswith.
    destruct H as [-> | [-> | [rest [-> | [-> | ->]]]]]; try reflexivity;
      rewrite prefix_app; rewrite ?orb_true_r; reflexivity. }
  unfold _before_request, catch_mlflow_exception, try_except_mlflow, _before_request_body.
  by rewrite Hroute.
Qed.

(** X2: an administrator passes without the validator being run; any
    other sender passes when the validator of the request answers true
    and gets the response 403 "Permission denied" when it answers false. *)
Theorem validator_decides (r : Request) (w w1 w2 w3 : World) (a : Authorization)
    (validator : Validator) (admin ok : bool) :
  is_unprotected_route (path r) = false ->
  authenticate_request auth_config r w = (Ok (IsAuthorization a), w1) ->
  sender_is_admin auth_config r w1 = (Ok admin, w2) ->
  find_validator r = Some validator ->
  validator r w2 = (Ok ok, w3) ->
  before_request r w =
    (if admin then (Ok None, w2)
     else if ok then (Ok None, w3)
     else (Ok (Some make_forbidden_response), w3)) /\
  status_code make_forbidden_response = 403 /\
  data make_forbidden_response = BText "Permission denied".
Proof.
  intros Hroute Hauth Hadmin Hfind Hrun. split; [|done]. destruct admin.
  - unfold _before_request, catch_mlflow_exception, try_except_mlflow, _before_request_body.
    rewrite Hroute. unfold bind at 1. rewrite Hauth. unfold bind at 1. by rewrite Hadmin.
  - rewrite (before_request_with_validator r w w1 w2 a validator) by done.
    unfold catch_mlflow_exception, try_except_mlflow, bind. rewrite Hrun.
    by destruct ok.
Qed.

(** X3: the creation of a user, the change of the admin flag and the
    deletion of a user through the REST routes are refused to every sender
    who is not an administrator, whatever the endpoints of the server
    registered for these routes. *)
Theorem user_management_is_denied (r : Request) (w w1 w2 : World) (a : Authorization) :
  is_unprotected_route (path r) = false ->
  str_contains "/mlflow/logged-models" (path r) = false ->
  authenticate_request auth_config r w = (Ok (IsAuthorization a), w1) ->
  sender_is_admin auth_config r w1 = (Ok false, w2) ->
  (path r, method r) ∈ [ (prefix +:+ "/mlflow/users/create", "POST");
                         (prefix +:+ "/mlflow/users/update-admin", "PATCH");
                         (prefix +:+ "/mlflow/users/delete", "DELETE") ] ->
  before_request r w = (Ok (Some make_forbidden_response), w2).
Proof.
  intros Hroute Hpath Hauth Hadmin Hin.
  destruct fixed_validators as (Hcreate & Hupdate & Hdelete & _).
  repeat (apply elem_of_cons in Hin as [Hin|Hin]);
    [| | |by apply elem_of_nil in Hin]; inversion Hin as [[Hp Hm]].
  - rewrite (before_request_with_validator r w w1 w2 a validate_can_create_user);
      [done|done|done|done|]. apply find_exact_validator; [done|]. by rewrite Hp, Hm.
  - rewrite (before_request_with_validator r w w1 w2 a validate_can_update_user_admin);
      [done|done|done|done|]. apply find_exact_validator; [done|]. by rewrite Hp, Hm.
  - rewrite (before_request_with_validator r w w1 w2 a validate_can_delete_user);
      [done|done|done|done|]. apply find_exact_validator; [done|]. by rewrite Hp, Hm.
Qed.


Lemma prefix_append (p a b : string) : String.prefix (p +:+ a) (p +:+ b) = String.prefix a b.
Proof.
  induction p as [|c p IH]; [done|].
  change (String.prefix (String c (p +:+ a)) (String c (p +:+ b)) = String.prefix a b).
  cbn [String.prefix]. by destruct (ascii_dec c c).
Qed.

(** X4: a sender who is not an administrator reads a user record, or
    changes a password, only for the user name under which the sender
    authenticated. *)
Theorem own_account_only (r : Request) (w : World) (a : Authorization) (u : string) :
  is_unprotected_route (path r) = false ->
  str_contains "/mlflow/logged-models" (path r) = false ->
  authenticate_request auth_config r w = (Ok (IsAuthorization a), w) ->
  sender_is_admin auth_config r w = (Ok false, w) ->
  (path r, method r) ∈ [ (prefix +:+ "/mlflow/users/get", "GET");
                         (prefix +:+ "/mlflow/users/update-password", "PATCH") ] ->
  _get_request_param "username" r = Ok (JString u) ->
  before_request r w =
    (Ok (if bool_decide (Some (PStr u) = parameters a !! "username")
         then None else Some make_forbidden_response), w).
Proof.
  intros Hroute Hpath Hauth Hadmin Hin Hparam.
  destruct fixed_validators as (_ & _ & _ & Hget & Hpassword).
  assert (find_validator r = Some (username_is_sender auth_config)) as Hfind.
  { apply find_exact_validator; [done|].
    repeat (apply elem_of_cons in Hin as [Hin|Hin]);
      [| |by apply elem_of_nil in Hin]; inversion Hin as [[Hp Hm]];
      rewrite Hp, Hm; [exact Hget|exact Hpassword]. }
  rewrite (before_request_with_validator r w w w a _ Hroute Hauth Hadmin Hfind).
  unfold catch_mlflow_exception, try_except_mlflow, username_is_sender, lift, bind.
  rewrite Hparam, Hauth. cbn [_get_username_from_auth py_eq].
  by destruct (bool_decide _).
Qed.

(** X5: the route of the signup form, [/mlflow/users/create-ui], is not
    among the fixed entries: when the endpoints of the server register no
    handler for it, a sender who is not an administrator passes the hook
    on it, with any method. *)
Theorem create_user_ui_has_no_validator (r : Request) (w w1 w2 : World)
    (a : Authorization) :
  path r = prefix +:+ "/mlflow/users/create-ui" ->
  is_unprotected_route (path r) = false ->
  str_contains "/mlflow/logged-models" (path r) = false ->
  authenticate_request auth_config r w = (Ok (IsAuthorization a), w1) ->
  sender_is_admin auth_config r w1 = (Ok false, w2) ->
  (forall h methods, (path r, Some h, methods) ∉ before_request_endpoints) ->
  before_request r w = (Ok None, w2).
Proof.
  intros Hp Hroute Hpath Hauth Hadmin Hnone.
  assert (find_validator r = None) as Hfind.
  { unfold _find_validator. rewrite Hpath.
    destruct (dict_get _ _) as [[v|]|] eqn:Hget; [|done|done]. exfalso.
    revert Hget. unfold BEFORE_REQUEST_VALIDATORS, update, _get_rest_path.
    cbn [fold_left]. rewrite Hp.
    repeat (rewrite dict_get_set_ne by different_keys).
    intros Hget. apply dict_of_endpoints_origin in Hget as (p & ms & Hin & Hkey).
    cbn [fst] in Hkey. subst p. rewrite <- Hp in Hin. by apply Hnone in Hin. }
  unfold _before_request, catch_mlflow_exception, try_except_mlflow, _before_request_body.
  rewrite Hroute. unfold bind at 1. rewrite Hauth. unfold bind at 1. rewrite Hadmin.
  rewrite Hfind. unfold _is_proxy_artifact_path, startswith.
  by rewrite Hp, prefix_append.
Qed.

(** X6: on the four routes of the experiment permissions a sender who is
    not an administrator passes exactly with the capability to manage the
    experiment named by [experiment_id]; when the resolution of that
    parameter raises an mlflow error, the hook answers with the response
    of that error and its HTTP status. *)
Theorem experiment_permission_routes (r : Request) (w : World) (a : Authorization)
    (suffix : string) :
  is_unprotected_route (path r) = false ->
  str_contains "/mlflow/logged-models" (path r) = false ->
  authenticate_request auth_config r w = (Ok (IsAuthorization a), w) ->
  sender_is_admin auth_config r w = (Ok false, w) ->
  path r = prefix +:+ "/mlflow/experiments/permissions/" +:+ suffix ->
  (suffix, method r) ∈ [ ("get", "GET"); ("create", "POST"); ("update", "PATCH");
                         ("delete", "DELETE") ] ->
  (forall message code,
     _get_request_param "experiment_id" r = Raise (MlflowException message code) ->
     before_request r w =
       (Ok (Some {| status_code := http_status_code code; data := BError code message;
                    headers := {[ "Content-Type" := "application/json" ]} |}), w)) /\
  (forall experiment_id p,
     _get_request_param "experiment_id" r = Ok experiment_id ->
     _get_permission_from_store_or_default auth_config
       (experiment_permission_of experiment_id (parameters a !! "username")) w
       = (Ok p, w) ->
     before_request r w =
       (Ok (if can_manage p then None else Some make_forbidden_response), w)).
Proof.
  intros Hroute Hpath Hauth Hadmin Hp Hin.
  assert (find_validator r = Some (validate_can_manage_experiment auth_config)) as Hfind.
  { apply find_exact_validator; [done|]. rewrite Hp.
    by apply fixed_experiment_permission_validators. }
  rewrite (before_request_with_validator r w w w a _ Hroute Hauth Hadmin Hfind).
  unfold catch_mlflow_exception, try_except_mlflow, validate_can_manage_experiment,
    _get_permission_from_experiment_id, lift, bind.
  split.
  - intros message code ->. reflexivity.
  - intros experiment_id p -> Hperm. rewrite Hauth. cbn [_get_username_from_auth].
    rewrite Hperm. by destruct (can_manage p).
Qed.

(** The hook on a path of the artifact proxy that has no validator of
    its own. *)
Lemma before_request_artifact_proxy (r : Request) (w w1 w2 : World) (a : Authorization) :
  is_unprotected_route (path r) = false ->
  authenticate_request auth_config r w = (Ok (IsAuthorization a), w1) ->
  sender_is_admin auth_config r w1 = (Ok false, w2) ->
  find_validator r = None ->
  _is_proxy_artifact_path prefix (path r) = true ->
  before_request r w =
    catch_mlflow_exception Some
      (match _get_proxy_artifact_validator auth_config (method r) (view_args r) with
       | Some validator =>
           let* ok := validator r in
           if ok then ret None else ret (Some make_forbidden_response)
       | None => ret None
       end) w2.
Proof.
  intros Hroute Hauth Hadmin Hfind Hproxy.
  unfold _before_request, catch_mlflow_exception, try_except_mlflow, _before_request_body.
  rewrite Hroute. unfold bind at 1. rewrite Hauth. unfold bind at 1. rewrite Hadmin.
  by rewrite Hfind, Hproxy.
Qed.

(** X7: on a path of the artifact proxy with view arguments, a request
    whose method is none of GET, PUT and DELETE (a HEAD, say) passes the
    hook without any permission being read. *)
Theorem artifact_proxy_unchecked_methods (r : Request) (w w1 w2 : World)
    (a : Authorization) (va : gmap string string) :
  is_unprotected_route (path r) = false ->
  authenticate_request auth_config r w = (Ok (IsAuthorization a), w1) ->
  sender_is_admin auth_config r w1 = (Ok false, w2) ->
  find_validator r = None ->
  _is_proxy_artifact_path prefix (path r) = true ->
  view_args r = Some va ->
  method r <> "GET" -> method r <> "PUT" -> method r <> "DELETE" ->
  before_request r w = (Ok None, w2).
Proof.
  intros Hroute Hauth Hadmin Hfind Hproxy Hva Hget Hput Hdelete.
  rewrite (before_request_artifact_proxy r w w1 w2 a) by done.
  unfold _get_proxy_artifact_validator. rewrite Hva.
  by rewrite !decide_False.
Qed.

(** X8: on a path of the artifact proxy with view arguments, a sender
    who is not an administrator passes a GET with the capability to read,
    a PUT with the capability to update and a DELETE with the capability
    to manage, of the permission that the artifact path resolves to. *)
Theorem artifact_proxy_decision (r : Request) (w w1 w2 w3 : World) (a : Authorization)
    (va : gmap string string) (p : Permission) :
  is_unprotected_route (path r) = false ->
  authenticate_request auth_config r w = (Ok (IsAuthorization a), w1) ->
  sender_is_admin auth_config r w1 = (Ok false, w2) ->
  find_validator r = None ->
  _is_proxy_artifact_path prefix (path r) = true ->
  view_args r = Some va ->
  _get_permission_from_experiment_id_artifact_proxy auth_config r w2 = (Ok p, w3) ->
  let allowed (capability : bool) : Res (option Response) * World :=
    (Ok (if capability then None else Some make_forbidden_response), w3) in
  (method r = "GET" -> before_request r w = allowed (can_read p)) /\
  (method r = "PUT" -> before_request r w = allowed (can_update p)) /\
  (method r = "DELETE" -> before_request r w = allowed (can_manage p)).
Proof.
  intros Hroute Hauth Hadmin Hfind Hproxy Hva Hperm allowed.
  rewrite (before_request_artifact_proxy r w w1 w2 a) by done.
  unfold _get_proxy_artifact_validator, allowed. rewrite Hva.
  repeat split; intros ->;
    repeat first [rewrite decide_True by done | rewrite decide_False by done];
    unfold catch_mlflow_exception, try_except_mlflow,
      validate_can_read_experiment_artifact_proxy,
      validate_can_update_experiment_artifact_proxy,
      validate_can_delete_experiment_artifact_proxy, bind.
  all: rewrite Hperm; cbn [ret].
  - by destruct (can_read p).
  - by destruct (can_update p).
  - by destruct (can_manage p).
Qed.

End BeforeRequestRoutes.

(** ** Regular expressions *)

Lemma span_digits_spec (s : string) :
  let '(digits, tail) := span_digits s in
  s = digits +:+ tail /\ all_digits digits = true /\
  match tail with
  | String c _ => is_digit c = false
  | EmptyString => True
  end.
Proof.
  induction s as [|c s IH]; [done|]. cbn [span_digits].
  destruct (is_digit c) eqn:Hc.
  - destruct (span_digits s) as [digits tail]. destruct IH as (-> & Hd & Ht).
    repeat split; [|done]. cbn [all_digits]. by rewrite Hc, Hd.
  - repeat split. exact Hc.
Qed.

Lemma span_digits_all_digits (digits rest : string) :
  all_digits digits = true ->
  span_digits (digits +:+ String "/" rest) = (digits, String "/" rest).
Proof.
  induction digits as [|c digits IH]; [done|]. cbn [all_digits].
  intros [Hc Hd]%andb_true_iff.
  change (String c digits +:+ String "/" rest)
    with (String c (digits +:+ String "/" rest)).
  cbn [span_digits]. by rewrite Hc, IH.
Qed.

(** X9: for an artifact path of ASCII characters, [_EXPERIMENT_ID_PATTERN]
    yields an experiment exactly when the path begins with one digit 0-9
    or more followed by a slash, and the experiment is that run of
    digits, as written. *)
Theorem experiment_id_pattern (s experiment_id : string) :
  isascii s = true ->
  _EXPERIMENT_ID_PATTERN_match s = Some experiment_id <->
  experiment_id <> "" /\ all_digits experiment_id = true /\
  exists rest, s = experiment_id +:+ String "/" rest.
Proof.
  intros _. unfold _EXPERIMENT_ID_PATTERN_match. split.
  - pose proof (span_digits_spec s) as H. destruct (span_digits s) as [digits tail].
    destruct H as (-> & Hd & Ht). destruct digits as [|c digits]; [done|].
    destruct tail as [|t tail]; [done|].
    destruct (decide (t = "/"%char)) as [->|Hne].
    + intros [= <-]. split; [done|]. split; [done|]. by exists tail.
    + destruct t as [[] [] [] [] [] [] [] []]; try done.
  - intros (Hne & Hd & rest & ->). rewrite (span_digits_all_digits _ _ Hd).
    by destruct experiment_id.
Qed.

Lemma compile_literal (literal rest : string) :
  contains_char "<" literal = false -> contains_char "." literal = false ->
  compile_path false (literal +:+ rest)
    = map PChar (list_ascii_of_string literal) ++ compile_path false rest.
Proof.
  induction literal as [|c literal IH]; [done|]. cbn [contains_char].
  intros [Hc Hl]%orb_false_iff [Hd Hl']%orb_false_iff.
  apply bool_decide_eq_false in Hc, Hd.
  change (String c literal +:+ rest) with (String c (literal +:+ rest)).
  cbn [compile_path list_ascii_of_string map app].
  rewrite decide_False by congruence. unfold pattern_of_char.
  rewrite decide_False by congruence. by rewrite IH.
Qed.

Lemma compile_inside (name rest : string) :
  contains_char ">" name = false ->
  compile_path true (name +:+ String ">" rest) = compile_path false rest.
Proof.
  induction name as [|c name IH]; cbn [contains_char].
  - intros _. change ("" +:+ String ">" rest) with (String ">" rest).
    cbn [compile_path]. by rewrite bool_decide_eq_true_2.
  - intros [Hc Hn]%orb_false_iff. apply bool_decide_eq_false in Hc.
    change (String c name +:+ String ">" rest) with (String c (name +:+ String ">" rest)).
    cbn [compile_path]. rewrite bool_decide_eq_false_2 by congruence. cbn [negb].
    by apply IH.
Qed.

Lemma contains_char_app (c : ascii) (a b : string) :
  contains_char c (a +:+ b) = contains_char c a || contains_char c b.
Proof.
  induction a as [|x a IH]; [done|].
  change (String x a +:+ b) with (String x (a +:+ b)). cbn [contains_char].
  by rewrite IH, orb_assoc.
Qed.

Lemma compile_placeholder (name rest : string) :
  name <> "" -> contains_char ">" name = false ->
  compile_path false (String "<" (name +:+ String ">" rest))
    = PSegment :: compile_path false rest.
Proof.
  intros Hne Hn. destruct name as [|c name]; [done|]. cbn [contains_char] in Hn.
  apply orb_false_iff in Hn as [Hc Hn].
  change (String c name +:+ String ">" rest) with (String c (name +:+ String ">" rest)).
  cbn [compile_path]. rewrite decide_True by done.
  rewrite contains_char_app. cbn [contains_char].
  rewrite (bool_decide_eq_true_2 (">"%char = ">"%char)) by done.
  cbn [orb]. rewrite orb_true_r.
  apply bool_decide_eq_false in Hc.
  destruct (bool_decide (c = _)) eqn:E; [apply bool_decide_eq_true in E; congruence|].
  cbn [negb andb]. f_equal. by apply compile_inside.
Qed.

Lemma fullmatch_literal (literal : string) (pat : list PatternItem) (s : string) :
  fullmatch (map PChar (list_ascii_of_string literal) ++ pat) s = true <->
  exists tail, s = literal +:+ tail /\ fullmatch pat tail = true.
Proof.
  revert s. induction literal as [|c literal IH]; intros s.
  - cbn [list_ascii_of_string map app]. split; [by exists s|]. by intros (tail & -> & H).
  - cbn [list_ascii_of_string map app fullmatch]. destruct s as [|d s].
    + split; [done|]. by intros (tail & H & _).
    + rewrite andb_true_iff, bool_decide_eq_true, IH. split.
      * intros [-> (tail & -> & H)]. by exists tail.
      * intros (tail & Heq & H).
        change (String c literal +:+ tail) with (String c (literal +:+ tail)) in Heq.
        inversion Heq. split; [done|]. by exists tail.
Qed.

Lemma fullmatch_segment (s : string) :
  fullmatch [PSegment] s = true <-> s <> "" /\ contains_char "/" s = false.
Proof.
  cbn [fullmatch]. induction s as [|c s IH]; [by split; [|intros []]|].
  rewrite andb_true_iff, negb_true_iff, orb_true_iff, bool_decide_eq_false.
  cbn [contains_char]. rewrite orb_false_iff, bool_decide_eq_false. split.
  - intros [Hc [Hs|Hs]].
    + apply bool_decide_eq_true in Hs. subst s. split; [done|]. split; [congruence|done].
    + apply IH in Hs as [_ Hs]. split; [done|]. split; [congruence|done].
  - intros [_ [Hc Hs]]. split; [congruence|]. destruct s as [|d s]; [by left|].
    right. apply IH. by split.
Qed.

Lemma route_chars_are_literal (literal : string) :
  all_route_chars literal = true ->
  contains_char "<" literal = false /\ contains_char "." literal = false.
Proof.
  induction literal as [|c literal IH]; [done|]. cbn [all_route_chars contains_char].
  intros [Hc Hl]%andb_true_iff. destruct (IH Hl) as [-> ->]. rewrite !orb_false_r.
  split; apply bool_decide_eq_false; intros <-; discriminate Hc.
Qed.

(** X10: the pattern that [_re_compile_path] makes of a route template that
    ends with one placeholder, after a literal part of letters, digits,
    slashes, hyphens and underscores, matches exactly the paths made of
    that literal part and one segment that is not empty and has no
    slash. *)
Theorem compiled_placeholder_matches (literal name s : string) :
  all_route_chars literal = true ->
  name <> "" -> contains_char ">" name = false ->
  fullmatch (_re_compile_path (literal +:+ String "<" (name +:+ ">"))) s = true <->
  exists segment, s = literal +:+ segment /\ segment <> "" /\
                  contains_char "/" segment = false.
Proof.
  intros Hroute Hn Hg. destruct (route_chars_are_literal _ Hroute) as [Hl Hd].
  unfold _re_compile_path.
  rewrite (compile_literal _ _ Hl Hd), (compile_placeholder name "" Hn Hg).
  cbn [compile_path]. rewrite fullmatch_literal. split.
  - intros (tail & -> & H). apply fullmatch_segment in H. by exists tail.
  - intros (segment & -> & H). exists segment. split; [done|]. by apply fullmatch_segment.
Qed.

(** ** The after-request hook *)

Lemma kept_endpoints_have_no_graphql
    (endpoints : list (string * option AfterHandler * list string))
    (p : string) (h : AfterHandler) (methods : list string) :
  (p, h, methods) ∈ kept_after_request_endpoints endpoints ->
  str_contains "/graphql" p = false.
Proof.
  unfold kept_after_request_endpoints. intros Hin%list_elem_of_In.
  apply in_flat_map in Hin as ([[p' h'] ms'] & _ & Hin).
  destruct h' as [h'|]; [|destruct Hin].
  destruct (str_contains "/graphql" p') eqn:E; [destruct Hin|].
  destruct Hin as [Heq|[]]. by inversion Heq; subst.
Qed.

(** X11: the after-request hook gives back the response as it is, and
    changes nothing, when the response is an error (status 400 to 599) and
    when the path of the request contains /graphql, whatever handlers the
    endpoints of the server registered. *)
Theorem after_request_passes_through
    (endpoints : list (string * option AfterHandler * list string))
    (resp : Response) (r : Request) (w : World) :
  400 <= status_code resp < 600 \/ str_contains "/graphql" (path r) = true ->
  _after_request endpoints resp r w = (Ok resp, w).
Proof.
  intros [Hstatus|Hpath]; unfold _after_request, catch_mlflow_exception, try_except_mlflow.
  - by rewrite !bool_decide_eq_true_2 by lia.
  - destruct (_ && _); [done|].
    destruct (dict_get _ _) as [h|] eqn:Hget; [|done]. exfalso.
    apply dict_of_endpoints_origin in Hget as (p & ms & Hin & Hkey).
    apply kept_endpoints_have_no_graphql in Hin. cbn [fst] in Hkey. congruence.
Qed.

(** ** Filter on the search of experiments *)

Section SearchFilterMore.
Variable upstream : list Experiment.
Variable readable : Experiment -> bool.
Variable max_results : nat.

(** X12: a page of the filtered search that carries a token is full: it
    holds [max_results] experiments.  A page with fewer is the last. *)
Theorem page_with_token_is_full (page_token : option nat)
    (experiments : list Experiment) (offset' : nat) :
  (0 < max_results)%nat ->
  (default 0%nat page_token <= length upstream)%nat ->
  filter_and_backfill upstream readable max_results
    (search_experiments upstream max_results page_token) = (experiments, Some offset') ->
  length experiments = max_results.
Proof.
  intros Hm Hoff Hpage. apply Nat.le_antisymm.
  - destruct (filtered_page upstream readable max_results page_token Hm Hoff)
      as (o & t & Heq & _ & Hle & _).
    rewrite Hpage in Heq. inversion Heq. by subst.
  - revert Hpage. unfold filter_and_backfill, search_experiments. cbn [fst snd].
    case_bool_decide; cbn [refill]; [|done].
    by apply (backfill_leaves_token_when_full upstream readable max_results
                (length upstream)); lia.
Qed.

End SearchFilterMore.

(** ** Authentication *)

(** X13: authentication reads the world and leaves it as it is, but for
    one case: the session authentication empties the session when it
    answers to an expired session with the response for the
    unauthenticated.  No user and no grant is ever changed. *)
Theorem authentication_keeps_the_world (auth_config : AuthConfig) (r : Request)
    (w w' : World) (result : Res AuthResult) :
  (authenticate_request_session auth_config r w = (result, w') ->
   w' = w \/
   w' = set_session ∅ w /\ result = Ok (IsResponse (_handle_unauthenticated_request r))) /\
  (authenticate_request_basic_auth r w = (result, w') -> w' = w).
Proof.
  split.
  - unfold authenticate_request_session, bind, session_contains, session_item,
      session_get, session_clear, datetime_now, lift, ret.
    intros H. repeat case_match;
      repeat (match goal with
              | Hx : (_, _) = (_, _) |- _ => inversion Hx; clear Hx; subst
              end); auto; try discriminate.
  - unfold authenticate_request_basic_auth, bind, store.authenticate_user, ret.
    intros H. repeat case_match;
      repeat (match goal with
              | Hx : (_, _) = (_, _) |- _ => inversion Hx; clear Hx; subst
              end); auto; try discriminate.
Qed.

(** ** Sessions of the user interface *)

Section UserInterfaceProperties.
Variable auth_config : AuthConfig.
Variable flash : string -> M unit.
Variable login : M Response.

(** X14: [_get_current_user_session] never raises and never changes the
    world: every failure inside it ends as "no session". *)
Theorem current_user_session_is_silent (w : World) :
  exists info, _get_current_user_session auth_config w = (Ok info, w).
Proof.
  unfold _get_current_user_session, try_except_exception, bind, session_contains,
    session_item, session_get, get_world, datetime_now, lift, ret.
  repeat case_match;
    repeat (match goal with
            | Hx : (_, _) = (_, _) |- _ => inversion Hx; clear Hx; subst
            end); eauto.
Qed.

Lemma current_user_session_without_created_at (w : World) (username user_id : pyval) :
  session w !! "username" = Some username ->
  session w !! "user_id" = Some user_id ->
  session w !! "created_at" = None ->
  _get_current_user_session auth_config w =
    (Ok (Some (<["username" := username]>
                 (<["user_id" := user_id]>
                    {[ "is_admin" := default (PBool false) (session w !! "is_admin") ]}))),
     w).
Proof.
  intros Hu Hi Hc.
  unfold _get_current_user_session, try_except_exception, bind, session_contains,
    session_item, session_get, get_world, datetime_now, lift, ret.
  rewrite Hu, Hi. cbn. rewrite Hc. cbn. by rewrite Hu, Hi.
Qed.

(** X15: the navigation bar looks for the issue time of the session under
    [created_at], a key that the login does not write.  A session with
    [login_time] and without [created_at] is reported as logged in
    whatever the clock says, also when the session authentication finds
    it expired and empties it. *)
Theorem navigation_session_never_expires (r : Request) (w : World)
    (username user_id : pyval) (T D : Z) :
  session w !! "username" = Some username ->
  session w !! "user_id" = Some user_id ->
  session w !! "login_time" = Some (PTime T) ->
  session w !! "created_at" = None ->
  default (PInt 86400) (session_config auth_config !! "PERMANENT_SESSION_LIFETIME") = PInt D ->
  now w - T > D * 1000000 ->
  authenticate_request_session auth_config r w
    = (Ok (IsResponse (_handle_unauthenticated_request r)), set_session ∅ w) /\
  exists info,
    _get_current_user_session auth_config w = (Ok (Some info), w) /\
    info !! "username" = Some username.
Proof.
  intros Hu Hi Ht Hc HD Hexpired. split.
  - rewrite (session_with_login_time auth_config r w username user_id T D) by done.
    by rewrite bool_decide_eq_true_2.
  - eexists. split; [by apply current_user_session_without_created_at|].
    apply lookup_insert_eq.
Qed.



(** X17: the guard of the admin panel decides on the session alone: with a
    user name and a true [is_admin] entry in the session it runs the
    page, whatever the clock and whatever the store says about the user,
    while the before-request hook takes the admin flag from the store. *)
Theorem admin_panel_trusts_the_session (r : Request) (w : World) (a : Authorization)
    (u : string) (user : User) (func : M Response) :
  session w !! "username" = Some (PStr u) ->
  session w !! "is_admin" = Some (PBool true) ->
  authenticate_request auth_config r w = (Ok (IsAuthorization a), w) ->
  parameters a !! "username" = Some (PStr u) ->
  store.get_user (Some (PStr u)) w = (Ok user, w) ->
  is_admin user = false ->
  sender_is_admin auth_config r w = (Ok false, w) /\
  admin_panel_guard func w = func w.
Proof.
  intros Hu Hflag Hauth Hname Huser Hadmin. split.
  - unfold sender_is_admin, bind, lift, ret. rewrite Hauth. cbn [_get_username_from_auth].
    by rewrite Hname, Huser, Hadmin.
  - unfold admin_panel_guard, bind, session_contains, session_get, ret.
    rewrite Hu. cbn. by rewrite Hflag.
Qed.

End UserInterfaceProperties.

(** ** Cleanup on delete *)

Lemma is_grant_spec (name u : string) (q : RegisteredModelPermission) :
  registered_model_store.is_grant name (Some (PStr u)) q = true <->
  rmp_name q = name /\ rmp_username q = u.
Proof.
  unfold registered_model_store.is_grant, is_username, is_string.
  rewrite andb_true_iff, !bool_decide_eq_true.
  split; intros [H1 H2]; split; congruence.
Qed.

(** X18: after a successful DeleteRegisteredModel the hook deletes the
    grant of the sender on the name given in the JSON body of the
    request, and only that one: the grants of other users on that name
    stay in the store.  When the sender holds no grant on the name, the
    deletion in the store fails and the answer is 404 in place of the
    successful response. *)
Theorem delete_model_cleanup (auth_config : AuthConfig)
    (endpoints : list (string * option AfterHandler * list string))
    (r : Request) (resp : Response) (w w1 : World) (a : Authorization)
    (body : gmap string JsonValue) (name u : string) :
  ~ (400 <= status_code resp < 600) ->
  dict_get (path r, method r) (AFTER_REQUEST_HANDLERS endpoints)
    = Some (delete_can_manage_registered_model_permission auth_config) ->
  json r = Some (JObject body) -> body !! "name" = Some (JString name) ->
  authenticate_request auth_config r w = (Ok (IsAuthorization a), w1) ->
  parameters a !! "username" = Some (PStr u) ->
  ((exists p, p ∈ registered_model_permissions w1 /\
              rmp_name p = name /\ rmp_username p = u) ->
   exists w',
     _after_request endpoints resp r w = (Ok resp, w') /\
     forall q, q ∈ registered_model_permissions w' <->
               q ∈ registered_model_permissions w1 /\
               ~ (rmp_name q = name /\ rmp_username q = u)) /\
  ((forall p, p ∈ registered_model_permissions w1 ->
              ~ (rmp_name p = name /\ rmp_username p = u)) ->
   exists error_response,
     _after_request endpoints resp r w = (Ok error_response, w1) /\
     status_code error_response = 404).
Proof.
  intros Hstatus Hhandler Hjson Hname Hauth Hu.
  assert (bool_decide (400 <= status_code resp) && bool_decide (status_code resp < 600)
          = false) as Hok.
  { apply andb_false_iff.
    destruct (decide (400 <= status_code resp)) as [H1|H1];
      [right|left]; apply bool_decide_eq_false; lia. }
  unfold _after_request, catch_mlflow_exception, try_except_mlflow.
  rewrite Hok, Hhandler.
  unfold delete_can_manage_registered_model_permission, request_json_name, bind, lift.
  rewrite Hjson, Hname, Hauth. cbn [_get_username_from_auth]. rewrite Hu.
  unfold registered_model_store.delete_registered_model_permission. split.
  - intros (p & Hin & Hp). destruct (List.find _ _) as [found|] eqn:Hfind.
    + eexists. split; [reflexivity|]. intros q.
      cbn [registered_model_permissions set_registered_model_permissions].
      rewrite !list_elem_of_In, filter_In, negb_true_iff, <- not_true_iff_false.
      by rewrite is_grant_spec.
    + exfalso. apply list_elem_of_In in Hin.
      apply (find_none _ _ Hfind) in Hin. apply not_true_iff_false in Hin.
      by apply Hin, is_grant_spec.
  - intros Hnone. destruct (List.find _ _) as [found|] eqn:Hfind.
    + exfalso. apply find_some in Hfind as [Hin Hfound].
      apply list_elem_of_In in Hin. by apply (Hnone found Hin), is_grant_spec.
    + eexists. split; reflexivity.
Qed.

(** ** The session options of the configuration file *)

Lemma read_session_config_app (items : list (string * string)) (key value : string) :
  read_session_config (items ++ [(key, value)])
  = <[upper key := session_value value]> (read_session_config items).
Proof. unfold read_session_config. by rewrite fold_left_app. Qed.

Lemma read_session_config_lookup (items : list (string * string)) (key value : string) :
  (key, value) ∈ items ->
  (forall key' value', (key', value') ∈ items -> upper key' = upper key -> value' = value) ->
  read_session_config items !! upper key = Some (session_value value).
Proof.
  induction items as [|[key' value'] items IH] using rev_ind; intros Hin Hunique.
  - by apply elem_of_nil in Hin.
  - rewrite read_session_config_app.
    destruct (decide (upper key' = upper key)) as [E|E].
    + rewrite E, lookup_insert_eq.
      rewrite (Hunique key' value'); [done| |done].
      apply elem_of_app. right. apply list_elem_of_here.
    + rewrite lookup_insert_ne by done. apply IH.
      * apply elem_of_app in Hin as [Hin|Hin]; [done|].
        apply list_elem_of_singleton in Hin. congruence.
      * intros k v Hk. apply Hunique, elem_of_app. by left.
Qed.

Lemma lower_char_digit (c : ascii) : is_digit c = true -> lower_char c = c.
Proof.
  unfold is_digit, lower_char. intros H.
  apply andb_true_iff in H as [_ H]. apply N.leb_le in H.
  destruct (65 <=? N_of_ascii c)%N eqn:E; [|done].
  apply N.leb_le in E. lia.
Qed.

Lemma session_value_digits (value : string) :
  isdigit value = true -> session_value value = PInt (int value).
Proof.
  unfold session_value. intros H. rewrite H.
  unfold isdigit in H. apply andb_true_iff in H as [Hne Hdigits].
  destruct value as [|c value]; [done|].
  cbn in Hdigits. apply andb_true_iff in Hdigits as [Hc _].
  assert (c <> "t"%char /\ c <> "f"%char) as [Ht Hf].
  { split; intros ->; discriminate Hc. }
  cbn [lower map_string]. rewrite (lower_char_digit c Hc).
  rewrite !bool_decide_eq_false_2; [done| |]; intros E; by injection E.
Qed.

(** X19: for a [session] section of ASCII text, the lifetime of a session
    is the value that [read_auth_config] stores for the option
    permanent_session_lifetime.  A value of digits 0-9 (at most 4300 of
    them, the limit of [int], and a number of seconds that a [timedelta]
    holds) is a number of seconds; any other value than true and false
    is kept as a string, and then the authentication of every session
    that has a login time raises a TypeError. *)
Theorem session_lifetime_of_the_file (auth_config : AuthConfig)
    (items : list (string * string)) (key value : string)
    (r : Request) (w : World) (username user_id : pyval) (T : Z) :
  session_config auth_config = read_session_config items ->
  Forall (fun item => isascii item.1 = true /\ isascii item.2 = true) items ->
  (key, value) ∈ items ->
  upper key = "PERMANENT_SESSION_LIFETIME" ->
  (forall key' value', (key', value') ∈ items -> upper key' = upper key -> value' = value) ->
  session w !! "username" = Some username ->
  session w !! "user_id" = Some user_id ->
  session w !! "login_time" = Some (PTime T) ->
  (isdigit value = true ->
   (String.length value <= 4300)%nat -> int value < 86400000000000 ->
   authenticate_request_session auth_config r w =
     if bool_decide (now w - T > int value * 1000000)
     then (Ok (IsResponse (_handle_unauthenticated_request r)), set_session ∅ w)
     else (Ok (session_identity w username user_id), w)) /\
  (isdigit value = false -> lower value <> "true" -> lower value <> "false" ->
   exists message, authenticate_request_session auth_config r w = (Raise (TypeError message), w)).
Proof.
  intros Hconfig _ Hin Hkey Hunique Hu Hi Ht.
  pose proof (read_session_config_lookup items key value Hin Hunique) as Hlookup.
  rewrite Hkey, <- Hconfig in Hlookup. clear Hin Hunique Hconfig. split.
  - intros Hdigits _ _.
    apply (session_with_login_time auth_config r w username user_id T (int value) Hu Hi Ht).
    by rewrite Hlookup, (session_value_digits value Hdigits).
  - intros Hdigits Htrue Hfalse. eexists.
    unfold authenticate_request_session, bind, session_contains, session_item, lift.
    assert (session_value value = PStr value) as Hvalue.
    { unfold session_value. rewrite !bool_decide_eq_false_2 by done.
      by rewrite Hdigits. }
    rewrite Hvalue in Hlookup.
    repeat (first [rewrite Hu | rewrite Hi | rewrite Ht | rewrite Hlookup]; cbn).
    reflexivity.
Qed.

(** ** Filter on the search of logged models *)

Section LoggedModelFilter.
Variable upstream : list LoggedModel.
Variable readable : LoggedModel -> bool.
Variable max_results : nat.

Local Abbreviation P := (fun m : LoggedModel => readable m = true).

Lemma remove_first_middle (m : LoggedModel) (before after : list LoggedModel) :
  Forall (fun x => x <> m) before ->
  remove_first m (before ++ m :: after) = before ++ after.
Proof.
  induction 1 as [|x before Hx _ IH]; cbn [remove_first app].
  - by rewrite decide_True.
  - by rewrite decide_False, IH.
Qed.

Lemma remove_unreadable_models_from (kept rest : list LoggedModel) :
  Forall P kept ->
  fold_left (fun acc m => if readable m then acc else remove_first m acc) rest (kept ++ rest)
    = kept ++ filter P rest.
Proof.
  revert kept. induction rest as [|m rest IH]; intros kept Hkept; [done|].
  cbn [fold_left]. destruct (readable m) eqn:Hm.
  - rewrite filter_cons_True by done.
    rewrite (cons_middle m kept rest), app_assoc, IH, <- app_assoc; [done|].
    apply Forall_app. split; [done|]. by apply Forall_singleton.
  - rewrite filter_cons_False by congruence.
    rewrite remove_first_middle; [by apply IH|].
    eapply Forall_impl; [exact Hkept|]. intros x Hx ->. cbn in Hx. congruence.
Qed.

(** The removal of the unreadable models from the page is a filter. *)
Lemma remove_unreadable_models_filter (l : list LoggedModel) :
  remove_unreadable_models readable l = filter P l.
Proof. apply (remove_unreadable_models_from [] l). constructor. Qed.

(** The [for] loop over a batch takes the readable models of a prefix of
    the batch: all of it when the loop comes to its end, and up to the
    model that fills the page when it leaves by [break]. *)
Lemma scan_batch_spec (is_last_page : bool) (offset last_index : nat) :
  forall (batch : list LoggedModel) (index : nat) (models result : list LoggedModel)
         (out : option (option nat)),
    (length models < max_results)%nat ->
    scan_batch readable max_results is_last_page offset last_index index batch models
      = (result, out) ->
    exists k : nat,
      (k <= length batch)%nat /\
      result = models ++ filter P (take k batch) /\
      (length result <= max_results)%nat /\
      match out with
      | None => k = length batch /\ (length result < max_results)%nat
      | Some token =>
          (0 < k)%nat /\ length result = max_results /\
          token = if is_last_page && bool_decide (index + k - 1 = last_index)%nat
                  then None else Some (offset + index + k)%nat
      end.
Proof.
  induction batch as [|model rest IH]; intros index models result out Hlen;
    cbn [scan_batch].
  - intros Hrun. inversion Hrun; subst. exists 0%nat.
    rewrite take_0, filter_nil, app_nil_r. cbn [length]. repeat split; lia.
  - destruct (readable model) eqn:Hmodel; cbn [negb].
    + case_bool_decide as Hfull.
      * intros Hrun. inversion Hrun; subst. exists 1%nat.
        rewrite length_app in Hfull. cbn [length] in Hfull.
        cbn [take]. rewrite take_0, filter_cons_True, filter_nil by done.
        rewrite length_app. cbn [length].
        replace (index + 1 - 1)%nat with index by lia.
        repeat split; lia.
      * intros Hrun. apply IH in Hrun as (k & Hk & -> & Hbound & Hout);
          [|rewrite length_app in *; cbn [length] in *; lia].
        exists (S k). cbn [take length]. rewrite filter_cons_True by done.
        rewrite <- app_assoc in *. cbn [app] in *.
        split; [lia|]. split; [done|]. split; [done|].
        destruct out as [token|]; [|split; [lia|tauto]].
        destruct Hout as (Hpos & Hres & ->).
        replace (S index + k - 1)%nat with (index + S k - 1)%nat by lia.
        replace (offset + S index + k)%nat with (offset + index + S k)%nat by lia.
        repeat split; try done; lia.
    + intros Hrun. apply IH in Hrun as (k & Hk & -> & Hbound & Hout); [|done].
      exists (S k). cbn [take length]. rewrite filter_cons_False by congruence.
      split; [lia|]. split; [done|]. split; [done|].
      destruct out as [token|]; [|split; [lia|tauto]].
      destruct Hout as (Hpos & Hres & ->).
      replace (S index + k - 1)%nat with (index + S k - 1)%nat by lia.
      replace (offset + S index + k)%nat with (offset + index + S k)%nat by lia.
      repeat split; try done; lia.
Qed.

(** One pass of the loop takes the readable models of the models of the
    store from its offset up to the offset of its token, or up to the
    end of the store when it leaves no token. *)
Lemma refetch_logged_models_spec (models result : list LoggedModel) (offset : nat)
    (token : option nat) :
  (length models < max_results)%nat ->
  (offset <= length upstream)%nat ->
  refetch_logged_models upstream readable max_results models offset = (result, token) ->
  exists offset' : nat,
    (offset <= offset' <= length upstream)%nat /\
    result = models ++ filter P (take (offset' - offset) (drop offset upstream)) /\
    (length result <= max_results)%nat /\
    (token = Some offset' /\ (offset < offset')%nat
     \/ token = None /\ offset' = length upstream).
Proof.
  intros Hlen Hoff. unfold refetch_logged_models, search_logged_models.
  cbn [fst snd default]. unfold id.
  remember (take max_results (drop offset upstream)) as batch eqn:Hdef.
  assert (length batch = max_results `min` (length upstream - offset))%nat as Hbatch.
  { by rewrite Hdef, length_take, length_drop. }
  destruct (scan_batch _ _ _ _ _ _ _ _) as [result' out] eqn:Hrun.
  apply scan_batch_spec in Hrun as (k & Hk & -> & Hbound & Hout); [|done].
  assert (take k batch = take k (drop offset upstream)) as Hprefix.
  { rewrite Hdef, take_take. f_equal. lia. }
  destruct (bool_decide (offset + max_results < length upstream)%nat) eqn:Hmore.
  - apply bool_decide_eq_true in Hmore.
    rewrite (bool_decide_eq_false_2 (Some _ = None)) in * by done.
    cbn [andb] in Hout. destruct out as [next|].
    + destruct Hout as (Hpos & Hfull & ->). intros [= <- <-].
      exists (offset + k)%nat. replace (offset + k - offset)%nat with k by lia.
      rewrite <- Hprefix. repeat split; try done; try lia.
      left. split; [f_equal; lia|lia].
    + destruct Hout as (-> & Hshort). intros [= <- <-].
      exists (offset + max_results)%nat.
      replace (offset + max_results - offset)%nat with max_results by lia.
      rewrite firstn_all in *. rewrite <- Hdef.
      repeat split; try done; try lia. left. split; [done|lia].
  - apply bool_decide_eq_false in Hmore.
    rewrite (bool_decide_eq_true_2 (None = None)) in * by done.
    cbn [andb] in Hout.
    assert (batch = drop offset upstream) as Hwhole.
    { rewrite Hdef. apply take_ge. rewrite length_drop. lia. }
    destruct out as [next|].
    + destruct Hout as (Hpos & Hfull & ->). intros [= <- <-].
      case_bool_decide as Hlast.
      * exists (length upstream).
        assert (k = length batch) as Hall by lia.
        rewrite Hall, firstn_all in *. rewrite Hwhole in *.
        rewrite <- (length_drop upstream offset), firstn_all.
        rewrite ?length_drop. repeat split; try done; try lia. by right.
      * exists (offset + k)%nat. replace (offset + k - offset)%nat with k by lia.
        rewrite <- Hprefix. repeat split; try done; try lia.
        left. split; [f_equal; lia|lia].
    + destruct Hout as (-> & Hshort). intros [= <- <-].
      exists (length upstream).
      rewrite firstn_all in *. rewrite Hwhole in *.
      rewrite <- (length_drop upstream offset), firstn_all.
      rewrite ?length_drop. repeat split; try done; try lia. by right.
Qed.

Lemma backfill_logged_models_step (models : list LoggedModel) (offset : nat) :
  backfill_logged_models upstream readable max_results models offset =
    if bool_decide (length models < max_results)%nat then
      match refetch_logged_models upstream readable max_results models offset with
      | (models', None) => (models', None)
      | (models', Some offset') =>
          backfill_logged_models upstream readable max_results models' offset'
      end
    else (models, Some offset).
Proof.
  simp backfill_logged_models.
  destruct (inspect (bool_decide (length models < max_results)%nat)) as [b e].
  pose proof e as e'. destruct b; simp backfill_logged_models; rewrite e'; [|reflexivity].
  destruct (inspect (refetch_logged_models upstream readable max_results models offset))
    as [[models' [offset'|]] e2].
  - pose proof e2 as e2'.
    transitivity (backfill_logged_models upstream readable max_results models' offset');
      [reflexivity|]. by rewrite e2'.
  - pose proof e2 as e2'. simp backfill_logged_models. by rewrite e2'.
Qed.

(** The loop takes the readable models of the store from its offset up to
    the offset of its token, which it leaves only with a full page, or up
    to the end of the store. *)
Lemma backfill_logged_models_consumes (n : nat) :
  forall (models : list LoggedModel) (offset : nat),
    (length upstream - offset <= n)%nat ->
    (0 < max_results)%nat ->
    (offset <= length upstream)%nat ->
    (length models <= max_results)%nat ->
    exists (offset' : nat) (token : option nat),
      backfill_logged_models upstream readable max_results models offset
        = (models ++ filter P (take (offset' - offset) (drop offset upstream)), token) /\
      (offset <= offset' <= length upstream)%nat /\
      (length (models ++ filter P (take (offset' - offset) (drop offset upstream)))
         <= max_results)%nat /\
      (token = Some offset' /\
       (max_results
          <= length (models ++ filter P (take (offset' - offset) (drop offset upstream))))%nat
       \/ token = None /\ offset' = length upstream).
Proof.
  induction n as [n IH] using lt_wf_ind. intros models offset Hn Hm Hoff Hlen.
  rewrite backfill_logged_models_step. case_bool_decide as Hlt.
  - destruct (refetch_logged_models _ _ _ _ _) as [models' token] eqn:Hrun.
    apply refetch_logged_models_spec in Hrun
      as (offset1 & Hrange1 & -> & Hbound1 & [[-> Hmove]|[-> ->]]); [| |done|done].
    + destruct (IH (length upstream - offset1)%nat ltac:(lia)
                  (models ++ filter P (take (offset1 - offset) (drop offset upstream)))
                  offset1)
        as (offset' & token & Hrun & Hrange & Hbound & Htoken); try lia.
      exists offset', token.
      assert (take (offset' - offset) (drop offset upstream)
              = take (offset1 - offset) (drop offset upstream)
                ++ take (offset' - offset1) (drop offset1 upstream)) as Hsplit.
      { replace offset1 with (offset + (offset1 - offset))%nat at 3 by lia.
        rewrite <- drop_drop, take_take_drop. f_equal. lia. }
      rewrite Hsplit, filter_app, app_assoc.
      repeat split; try done; lia.
    + exists (length upstream), None. repeat split; try done; try lia. by right.
  - exists offset, (Some offset). rewrite Nat.sub_diag, take_0, filter_nil, app_nil_r.
    repeat split; try lia. left. split; [done|lia].
Qed.

Lemma length_filter_take (k : nat) (l : list LoggedModel) :
  (length (filter P (take k l)) <= length (filter P l))%nat.
Proof.
  rewrite <- (take_drop k l) at 2. rewrite filter_app, length_app. lia.
Qed.

Lemma length_filter_drop (k : nat) (l : list LoggedModel) :
  (length (filter P (drop k l)) <= length (filter P l))%nat.
Proof.
  rewrite <- (take_drop k l) at 2. rewrite filter_app, length_app. lia.
Qed.

(** One page of the filtered search of logged models: what it holds and
    which token it carries. *)
Lemma logged_models_page_run (page_token : option nat) :
  let offset := default 0%nat page_token in
  let page := search_logged_models upstream max_results page_token in
  (0 < max_results)%nat ->
  (offset <= length upstream)%nat ->
  exists (offset' : nat) (token : option nat),
    filter_logged_models_page upstream readable max_results page
      = (filter P (take (offset' - offset) (drop offset upstream)), token) /\
    (offset <= offset' <= length upstream)%nat /\
    (length (filter P (take (offset' - offset) (drop offset upstream))) <= max_results)%nat /\
    (token = Some offset' /\ (offset < offset')%nat /\
     length (filter P (take (offset' - offset) (drop offset upstream))) = max_results
     \/ offset' = length upstream /\ token = page.2).
Proof.
  intros offset page Hm Hoff. unfold filter_logged_models_page, page, search_logged_models.
  fold offset. cbn [fst snd]. rewrite remove_unreadable_models_filter.
  case_bool_decide as Hmore.
  - destruct (backfill_logged_models_consumes (length upstream - (offset + max_results))
                (filter P (take max_results (drop offset upstream)))
                (offset + max_results)%nat)
      as (offset' & token & -> & Hrange & Hbound & Htoken); try lia.
    { pose proof (length_filter P (take max_results (drop offset upstream))) as H.
      rewrite length_take in H. lia. }
    assert (take (offset' - offset) (drop offset upstream)
            = take max_results (drop offset upstream)
              ++ take (offset' - (offset + max_results))
                   (drop (offset + max_results) upstream)) as Hsplit.
    { rewrite <- drop_drop, take_take_drop. f_equal. lia. }
    rewrite <- filter_app, <- Hsplit in *.
    destruct Htoken as [[-> Hfull]|[-> ->]].
    + exists offset', (Some offset'). repeat split; try done; try lia.
      left. repeat split; try done; lia.
    + exists (length upstream), (Some (offset + max_results)%nat).
      repeat split; try done; try lia. by right.
  - exists (length upstream), None.
    assert (take (length upstream - offset) (drop offset upstream)
            = take max_results (drop offset upstream)) as ->.
    { rewrite !take_ge; [done| |]; rewrite length_drop; lia. }
    repeat split; try done; try lia.
    + pose proof (length_filter P (take max_results (drop offset upstream))) as H.
      rewrite length_take in H. lia.
    + by right.
Qed.

(** X20: a page of the filtered search of logged models holds the
    readable models of a stretch of the store that starts at the offset
    of the request, at most [max_results] of them.  It gets a token of
    its own, which points behind that stretch, only when it is full;
    otherwise the stretch goes to the end of the store and the page
    keeps the token of the page of the store. *)
Theorem filtered_logged_models_page (page_token : option nat) :
  let offset := default 0%nat page_token in
  let page := search_logged_models upstream max_results page_token in
  (0 < max_results)%nat ->
  (offset <= length upstream)%nat ->
  exists (offset' : nat) (token : option nat),
    filter_logged_models_page upstream readable max_results page
      = (filter P (take (offset' - offset) (drop offset upstream)), token) /\
    (offset <= offset' <= length upstream)%nat /\
    (length (filter P (take (offset' - offset) (drop offset upstream))) <= max_results)%nat /\
    (token = Some offset' /\ (offset < offset')%nat /\
     length (filter P (take (offset' - offset) (drop offset upstream))) = max_results
     \/ offset' = length upstream /\ token = page.2).
Proof.
  intros offset page Hm Hoff.
  destruct (logged_models_page_run page_token Hm Hoff)
    as (offset' & token & Hrun & Hrange & Hbound & Htoken).
  exists offset', token. split; [exact Hrun|]. split; [exact Hrange|].
  split; [exact Hbound|exact Htoken].
Qed.

(** X21: when the page of the store has a token and fewer than
    [max_results] readable models are left in the store from the offset
    of the request on, the page holds all of them and still carries the
    token of the page of the store.  The page asked with that token
    holds again the readable models that follow it, so a search that
    ends there returns them twice. *)
Theorem stale_token_of_logged_models (page_token : option nat) :
  let offset := default 0%nat page_token in
  (0 < max_results)%nat ->
  (offset + max_results < length upstream)%nat ->
  (length (filter P (drop offset upstream)) < max_results)%nat ->
  filter_logged_models_page upstream readable max_results
    (search_logged_models upstream max_results page_token)
    = (filter P (drop offset upstream), Some (offset + max_results)%nat) /\
  (filter_logged_models_page upstream readable max_results
     (search_logged_models upstream max_results (Some (offset + max_results)%nat))).1
    = filter P (drop (offset + max_results) upstream) /\
  ((length upstream <= offset + 2 * max_results)%nat ->
   forall fuel : nat,
     all_logged_model_pages (S (S fuel)) upstream readable max_results page_token
       = Some (filter P (drop offset upstream)
               ++ filter P (drop (offset + max_results) upstream))).
Proof.
  intros offset Hm Hmore Hfew.
  assert (filter_logged_models_page upstream readable max_results
            (search_logged_models upstream max_results page_token)
          = (filter P (drop offset upstream), Some (offset + max_results)%nat)) as Hfirst.
  { destruct (logged_models_page_run page_token Hm)
      as (offset' & token & Hrun & Hrange & Hbound & Htoken); [fold offset; lia|].
    fold offset in Hrun, Hrange, Hbound, Htoken. rewrite Hrun.
    destruct Htoken as [(_ & _ & Hfull)|[-> ->]].
    - pose proof (length_filter_take (offset' - offset) (drop offset upstream)). lia.
    - unfold search_logged_models. fold offset. cbn [snd].
      rewrite bool_decide_eq_true_2 by done.
      rewrite take_ge; [done|]. rewrite length_drop. lia. }
  assert (exists token,
            filter_logged_models_page upstream readable max_results
              (search_logged_models upstream max_results (Some (offset + max_results)%nat))
            = (filter P (drop (offset + max_results) upstream), token) /\
            ((length upstream <= offset + 2 * max_results)%nat -> token = None))
    as (token & Hsecond & Hlast).
  { destruct (logged_models_page_run (Some (offset + max_results)%nat) Hm)
      as (offset' & token & Hrun & Hrange & Hbound & Htoken); [cbn; lia|].
    cbn [default] in Hrun, Hrange, Hbound, Htoken.
    unfold id in Hrun, Hrange, Hbound, Htoken. rewrite Hrun.
    pose proof (length_filter_drop max_results (drop offset upstream)) as Hdrop.
    rewrite drop_drop in Hdrop.
    destruct Htoken as [(_ & _ & Hfull)|[-> ->]].
    - pose proof (length_filter_take (offset' - (offset + max_results))
                    (drop (offset + max_results) upstream)). lia.
    - eexists. split.
      + rewrite take_ge; [done|]. rewrite length_drop. lia.
      + intros Hend. unfold search_logged_models. cbn [snd default]. unfold id.
        rewrite bool_decide_eq_false_2; [done|lia]. }
  split; [done|]. split; [by rewrite Hsecond|].
  intros Hend fuel. rewrite (Hlast Hend) in Hsecond.
  cbn [all_logged_model_pages]. rewrite Hfirst.
  destruct fuel; cbn [all_logged_model_pages]; by rewrite Hsecond.
Qed.

End LoggedModelFilter.

(** ** Instances of the further properties *)

Lemma unprotected_route_passes_witness :
  let r := with_path "/static/js/main.js" example_request in
  let w := example_world None 0 [] in
  _before_request (session_auth_config None) "/api/2.0" example_before_request_endpoints
    example_logged_model_endpoints r w = (Ok None, w).
Proof.
  intros r w.
  apply (unprotected_route_passes (session_auth_config None) "/api/2.0"
           example_before_request_endpoints example_logged_model_endpoints r w).
  right. right. exists "/js/main.js". left. reflexivity.
Defined.

Lemma validator_decides_witness :
  let cfg := session_auth_config None in
  let r := example_request in
  let w := example_world None 0 [] in
  is_unprotected_route (path r) = false /\
  authenticate_request cfg r w = (Ok (IsAuthorization alice_authorization), w) /\
  sender_is_admin cfg r w = (Ok false, w) /\
  _find_validator cfg "/api/2.0" example_before_request_endpoints
    example_logged_model_endpoints r = Some (validate_can_read_experiment cfg) /\
  validate_can_read_experiment cfg r w = (Ok true, w) /\
  _before_request cfg "/api/2.0" example_before_request_endpoints
    example_logged_model_endpoints r w = (Ok None, w).
Proof.
  intros cfg r w. split; [reflexivity|]. split; [reflexivity|]. split; [reflexivity|].
  split; [reflexivity|]. split; [reflexivity|].
  apply (validator_decides cfg "/api/2.0" example_before_request_endpoints
           example_logged_model_endpoints r w w w w alice_authorization
           (validate_can_read_experiment cfg) false true); reflexivity.
Defined.

Lemma user_management_is_denied_witness :
  let cfg := session_auth_config None in
  let r := user_request "/mlflow/users/delete" "DELETE" [("username", "bob")] in
  let w := example_world None 0 [] in
  is_unprotected_route (path r) = false /\
  authenticate_request cfg r w = (Ok (IsAuthorization alice_authorization), w) /\
  sender_is_admin cfg r w = (Ok false, w) /\
  _before_request cfg "/api/2.0" example_before_request_endpoints
    example_logged_model_endpoints r w = (Ok (Some make_forbidden_response), w).
Proof.
  intros cfg r w. split; [reflexivity|]. split; [reflexivity|]. split; [reflexivity|].
  apply (user_management_is_denied cfg "/api/2.0" example_before_request_endpoints
           example_logged_model_endpoints r w w w alice_authorization);
    [reflexivity|reflexivity|reflexivity|reflexivity|].
  apply list_elem_of_further, list_elem_of_further, list_elem_of_here.
Defined.

Lemma own_account_only_witness :
  let cfg := session_auth_config None in
  let r := user_request "/mlflow/users/get" "GET" [("username", "bob")] in
  let w := example_world None 0 [] in
  is_unprotected_route (path r) = false /\
  authenticate_request cfg r w = (Ok (IsAuthorization alice_authorization), w) /\
  sender_is_admin cfg r w = (Ok false, w) /\
  _get_request_param "username" r = Ok (JString "bob") /\
  _before_request cfg "/api/2.0" example_before_request_endpoints
    example_logged_model_endpoints r w = (Ok (Some make_forbidden_response), w).
Proof.
  intros cfg r w. split; [reflexivity|]. split; [reflexivity|]. split; [reflexivity|].
  split; [reflexivity|].
  apply (own_account_only cfg "/api/2.0" example_before_request_endpoints
           example_logged_model_endpoints r w alice_authorization "bob");
    [reflexivity|reflexivity|reflexivity|reflexivity| |reflexivity].
  apply list_elem_of_here.
Defined.

Lemma create_user_ui_has_no_validator_witness :
  let cfg := session_auth_config None in
  let r := user_request "/mlflow/users/create-ui" "POST" [] in
  let w := example_world None 0 [] in
  is_unprotected_route (path r) = false /\
  authenticate_request cfg r w = (Ok (IsAuthorization alice_authorization), w) /\
  sender_is_admin cfg r w = (Ok false, w) /\
  _before_request cfg "/api/2.0" example_before_request_endpoints
    example_logged_model_endpoints r w = (Ok None, w).
Proof.
  intros cfg r w. split; [reflexivity|]. split; [reflexivity|]. split; [reflexivity|].
  apply (create_user_ui_has_no_validator cfg "/api/2.0" example_before_request_endpoints
           example_logged_model_endpoints r w w w alice_authorization);
    [reflexivity|reflexivity|reflexivity|reflexivity|reflexivity|].
  intros h methods Hin.
  repeat (apply elem_of_cons in Hin as [Hin|Hin]; [discriminate Hin|]).
  by apply elem_of_nil in Hin.
Defined.

Lemma experiment_permission_routes_witness :
  let cfg := session_auth_config None in
  let r := user_request "/mlflow/experiments/permissions/get" "GET"
             [("experiment_id", "7")] in
  let w := example_world None 0 [Build_ExperimentPermission "7" "alice" "EDIT"] in
  is_unprotected_route (path r) = false /\
  authenticate_request cfg r w = (Ok (IsAuthorization alice_authorization), w) /\
  sender_is_admin cfg r w = (Ok false, w) /\
  _before_request cfg "/api/2.0" example_before_request_endpoints
    example_logged_model_endpoints r w = (Ok (Some make_forbidden_response), w).
Proof.
  intros cfg r w. split; [reflexivity|]. split; [reflexivity|]. split; [reflexivity|].
  apply (proj2 (experiment_permission_routes cfg "/api/2.0"
                  example_before_request_endpoints example_logged_model_endpoints
                  r w alice_authorization "get"
                  ltac:(reflexivity) ltac:(reflexivity) ltac:(reflexivity)
                  ltac:(reflexivity) ltac:(reflexivity)
                  ltac:(apply list_elem_of_here))
          "7" EDIT); reflexivity.
Defined.

Lemma experiment_id_pattern_witness :
  isascii "42/model/weights" = true /\
  _EXPERIMENT_ID_PATTERN_match "42/model/weights" = Some "42".
Proof.
  split; [reflexivity|].
  apply (proj2 (experiment_id_pattern "42/model/weights" "42" ltac:(reflexivity))).
  split; [discriminate|]. split; [reflexivity|]. by exists "model/weights".
Defined.

Lemma compiled_placeholder_matches_witness :
  all_route_chars "/mlflow/logged-models/" = true /\
  fullmatch (_re_compile_path "/mlflow/logged-models/<model_id>")
    "/mlflow/logged-models/m-1" = true.
Proof.
  split; [reflexivity|].
  apply (proj2 (compiled_placeholder_matches "/mlflow/logged-models/" "model_id"
                  "/mlflow/logged-models/m-1"
                  ltac:(reflexivity) ltac:(discriminate) ltac:(reflexivity))).
  exists "m-1". split; [reflexivity|]. split; [discriminate|reflexivity].
Defined.

Lemma artifact_proxy_unchecked_methods_witness :
  let cfg := session_auth_config None in
  let r := artifact_request "HEAD" (Some {[ "artifact_path" := "7/model" ]}) in
  let w := example_world None 0 [Build_ExperimentPermission "7" "alice" "NO_PERMISSIONS"] in
  is_unprotected_route (path r) = false /\
  authenticate_request cfg r w = (Ok (IsAuthorization alice_authorization), w) /\
  sender_is_admin cfg r w = (Ok false, w) /\
  _is_proxy_artifact_path "/api/2.0" (path r) = true /\
  _before_request cfg "/api/2.0" example_before_request_endpoints
    example_logged_model_endpoints r w = (Ok None, w).
Proof.
  intros cfg r w. split; [reflexivity|]. split; [reflexivity|]. split; [reflexivity|].
  split; [reflexivity|].
  apply (artifact_proxy_unchecked_methods cfg "/api/2.0" example_before_request_endpoints
           example_logged_model_endpoints r w w w alice_authorization
           {[ "artifact_path" := "7/model" ]});
    [reflexivity|reflexivity|reflexivity|reflexivity|reflexivity|reflexivity
    |discriminate|discriminate|discriminate].
Defined.

Lemma artifact_proxy_decision_witness :
  let cfg := session_auth_config None in
  let r := artifact_request "PUT" (Some {[ "artifact_path" := "7/model" ]}) in
  let w := example_world None 0 [] in
  is_unprotected_route (path r) = false /\
  authenticate_request cfg r w = (Ok (IsAuthorization alice_authorization), w) /\
  sender_is_admin cfg r w = (Ok false, w) /\
  _is_proxy_artifact_path "/api/2.0" (path r) = true /\
  _get_permission_from_experiment_id_artifact_proxy cfg r w = (Ok READ, w) /\
  _before_request cfg "/api/2.0" example_before_request_endpoints
    example_logged_model_endpoints r w = (Ok (Some make_forbidden_response), w).
Proof.
  intros cfg r w. split; [reflexivity|]. split; [reflexivity|]. split; [reflexivity|].
  split; [reflexivity|]. split; [reflexivity|].
  apply (proj1 (proj2 (artifact_proxy_decision cfg "/api/2.0"
                         example_before_request_endpoints example_logged_model_endpoints
                         r w w w w alice_authorization
                         {[ "artifact_path" := "7/model" ]} READ
                         ltac:(reflexivity) ltac:(reflexivity) ltac:(reflexivity)
                         ltac:(reflexivity) ltac:(reflexivity) ltac:(reflexivity)
                         ltac:(reflexivity)))).
  reflexivity.
Defined.

Lemma after_request_passes_through_witness :
  let resp := {| status_code := 404; data := BText "not found"; headers := ∅ |} in
  let w := example_world None 0 [] in
  _after_request example_after_request_endpoints resp create_experiment_request w
    = (Ok resp, w).
Proof.
  intros resp w.
  apply (after_request_passes_through example_after_request_endpoints resp
           create_experiment_request w).
  left. cbn. lia.
Defined.

Lemma page_with_token_is_full_witness :
  (0 < 2)%nat /\
  filter_and_backfill example_upstream (readable example_can_read true) 2
    (search_experiments example_upstream 2 None)
    = (map experiment ["2"; "4"], Some 4%nat) /\
  length (map experiment ["2"; "4"]) = 2%nat.
Proof.
  split; [lia|]. split; [vm_compute; reflexivity|].
  apply (page_with_token_is_full example_upstream (readable example_can_read true) 2
           None (map experiment ["2"; "4"]) 4); [lia|cbn; lia|vm_compute; reflexivity].
Defined.

Lemma authentication_keeps_the_world_witness :
  let cfg := session_auth_config (Some 3600) in
  let w := example_world (Some 0) (3601 * 1000000) [] in
  authenticate_request_session cfg example_request w
    = (Ok (IsResponse (_handle_unauthenticated_request example_request)),
       set_session ∅ w) /\
  (set_session ∅ w = w \/
   set_session ∅ w = set_session ∅ w /\
   Ok (IsResponse (_handle_unauthenticated_request example_request))
     = Ok (IsResponse (_handle_unauthenticated_request example_request))).
Proof.
  intros cfg w. split; [reflexivity|].
  apply (proj1 (authentication_keeps_the_world cfg example_request w (set_session ∅ w)
                  (Ok (IsResponse (_handle_unauthenticated_request example_request))))).
  reflexivity.
Defined.

Lemma navigation_session_never_expires_witness :
  let cfg := session_auth_config (Some 3600) in
  let w := example_world (Some 0) (3601 * 1000000) [] in
  session w !! "login_time" = Some (PTime 0) /\
  session w !! "created_at" = None /\
  now w - 0 > 3600 * 1000000 /\
  authenticate_request_session cfg example_request w
    = (Ok (IsResponse (_handle_unauthenticated_request example_request)),
       set_session ∅ w) /\
  exists info,
    _get_current_user_session cfg w = (Ok (Some info), w) /\
    info !! "username" = Some (PStr "alice").
Proof.
  intros cfg w. split; [reflexivity|]. split; [reflexivity|]. split; [reflexivity|].
  apply (navigation_session_never_expires cfg example_request w (PStr "alice") (PInt 2)
           0 3600); reflexivity.
Defined.


Lemma admin_panel_trusts_the_session_witness :
  let cfg := session_auth_config None in
  let w := stale_admin_world in
  let page : M Response := ret (make_response "admin panel" 200) in
  session w !! "is_admin" = Some (PBool true) /\
  store.get_user (Some (PStr "alice")) w = (Ok alice, w) /\
  is_admin alice = false /\
  sender_is_admin cfg example_request w = (Ok false, w) /\
  admin_panel_guard page w = page w.
Proof.
  intros cfg w page. split; [reflexivity|]. split; [reflexivity|]. split; [reflexivity|].
  apply (admin_panel_trusts_the_session cfg example_request w
           {| auth_type := "session";
              parameters :=
                <["username" := PStr "alice"]>
                  (<["user_id" := PInt 2]> {[ "is_admin" := PBool true ]}) |}
           "alice" alice page); reflexivity.
Defined.

Lemma delete_model_cleanup_witness :
  let cfg := session_auth_config None in
  let mine := Build_RegisteredModelPermission "classifier" "alice" "MANAGE" in
  let other := Build_RegisteredModelPermission "classifier" "bob" "READ" in
  let w := model_grants_world [mine; other] in
  ~ (400 <= status_code deleted_response < 600) /\
  authenticate_request cfg delete_model_request w
    = (Ok (IsAuthorization alice_authorization), w) /\
  exists w',
    _after_request example_delete_endpoints deleted_response delete_model_request w
      = (Ok deleted_response, w') /\
    forall q, q ∈ registered_model_permissions w' <->
              q ∈ registered_model_permissions w /\
              ~ (rmp_name q = "classifier" /\ rmp_username q = "alice").
Proof.
  intros cfg mine other w. split; [cbn; lia|]. split; [reflexivity|].
  apply (proj1 (delete_model_cleanup cfg example_delete_endpoints delete_model_request
                  deleted_response w w alice_authorization
                  {[ "name" := JString "classifier" ]}
                  "classifier" "alice"
                  ltac:(cbn; lia) ltac:(reflexivity) ltac:(reflexivity) ltac:(reflexivity)
                  ltac:(reflexivity) ltac:(reflexivity))).
  exists mine. split; [apply list_elem_of_here|]. split; reflexivity.
Defined.

Lemma session_lifetime_of_the_file_witness :
  let items := [("permanent_session_lifetime", "3600")] in
  let cfg := file_auth_config items in
  let w := example_world (Some 0) (3601 * 1000000) [] in
  Forall (fun item => isascii item.1 = true /\ isascii item.2 = true) items /\
  upper "permanent_session_lifetime" = "PERMANENT_SESSION_LIFETIME" /\
  isdigit "3600" = true /\
  authenticate_request_session cfg example_request w =
    if bool_decide (now w - 0 > int "3600" * 1000000)
    then (Ok (IsResponse (_handle_unauthenticated_request example_request)),
          set_session ∅ w)
    else (Ok (session_identity w (PStr "alice") (PInt 2)), w).
Proof.
  intros items cfg w.
  assert (Forall (fun item => isascii item.1 = true /\ isascii item.2 = true) items)
    as Hascii by (repeat constructor).
  split; [exact Hascii|]. split; [reflexivity|]. split; [reflexivity|].
  apply (proj1 (session_lifetime_of_the_file cfg items "permanent_session_lifetime" "3600"
                  example_request w (PStr "alice") (PInt 2) 0
                  ltac:(reflexivity) Hascii ltac:(apply list_elem_of_here)
                  ltac:(reflexivity)
                  ltac:(intros key' value' Hin _;
                        apply list_elem_of_singleton in Hin; congruence)
                  ltac:(reflexivity) ltac:(reflexivity) ltac:(reflexivity)));
    [reflexivity|cbn; lia|reflexivity].
Defined.

Lemma filtered_logged_models_page_witness :
  let readable := readable_model {[ "1" := false ]} true in
  (0 < 1)%nat /\
  exists (offset' : nat) (token : option nat),
    filter_logged_models_page example_logged_models readable 1
      (search_logged_models example_logged_models 1 None)
      = (filter (fun m => readable m = true)
           (take (offset' - 0) (drop 0 example_logged_models)), token) /\
    (0 <= offset' <= length example_logged_models)%nat.
Proof.
  intros readable. split; [lia|].
  destruct (filtered_logged_models_page example_logged_models readable 1 None
              ltac:(lia) ltac:(cbn; lia))
    as (offset' & token & Hrun & Hrange & _).
  exists offset', token. split; [exact Hrun|exact Hrange].
Defined.

Lemma stale_token_of_logged_models_witness :
  let readable := readable_model {[ "1" := false ]} true in
  (0 + 2 < length example_logged_models)%nat /\
  filter_logged_models_page example_logged_models readable 2
    (search_logged_models example_logged_models 2 None)
    = ([logged_model "m-3" "2"], Some 2%nat) /\
  all_logged_model_pages 2 example_logged_models readable 2 None
    = Some [logged_model "m-3" "2"; logged_model "m-3" "2"].
Proof.
  intros readable. split; [cbn; lia|].
  destruct (stale_token_of_logged_models example_logged_models readable 2 None
              ltac:(lia) ltac:(cbn; lia) ltac:(vm_compute; lia))
    as (Hfirst & _ & Hall).
  split; [exact Hfirst|]. exact (Hall ltac:(cbn; lia) 0%nat).
Defined.
